(** * PixelPrism: the text-entry editing engine and its clipboard protocol

    A shallow embedding of [src/clipboard.c] and of the editing core of
    [src/entry.c], with the properties of the specification stated and
    settled over it.

    Conventions of the embedding.
    - C [int] fields are [Z]; flags that only ever hold 0 or 1 are [bool].
    - A C string is the list of its bytes before the terminating NUL.
    - Pointers that the code tests against NULL are [option]s; function
      pointers and [void*] user data are opaque addresses in [Z], with
      [0] for NULL.
    - Every call that leaves the module (an Xlib request, a completion
      callback, a change notification, a redraw) is recorded, in program
      order, in a list of [Effect]s returned next to the new state.
    - What the X server answers (the selection owner, the contents of a
      window property) is an explicit argument of the function that asks. *)

From Stdlib Require Import ZArith Lia Ascii String.
From stdpp Require Import base list strings.

#[local] Open Scope Z_scope.

(** ** Shared vocabulary *)

Definition cstring := list ascii.
Definition Window := Z.
Definition Atom := Z.

(** X.h: [#define None 0L]; Xatom.h: the predefined atoms. *)
Definition XNone : Z := 0.
Definition XA_PRIMARY : Atom := 1.
Definition XA_ATOM : Atom := 4.
Definition XA_STRING : Atom := 31.
(** X.h: [#define Success 0]. *)
Definition Success : Z := 0.

(** clipboard.h: [typedef enum { SELECTION_CLIPBOARD, SELECTION_PRIMARY }]. *)
Inductive SelectionType := SELECTION_CLIPBOARD | SELECTION_PRIMARY.

#[global] Instance SelectionType_eq_dec : EqDecision SelectionType.
Proof. solve_decision. Defined.

(** The payload of [XChangeProperty]: a list of atoms (format 32) or the
    bytes of a string (format 8). *)
Inductive PropData :=
| PropAtoms (atoms : list Atom)
| PropBytes (bytes : cstring).

#[global] Instance PropData_eq_dec : EqDecision PropData.
Proof. solve_decision. Defined.

(** The fields of an [XSelectionEvent] that the code reads or writes. *)
Record XSelectionEvent := {
  sev_requestor : Window;
  sev_selection : Atom;
  sev_target : Atom;
  sev_property : Atom
}.

#[global] Instance XSelectionEvent_eq_dec : EqDecision XSelectionEvent.
Proof. solve_decision. Defined.

(** Everything the two modules do to the outside world. *)
Inductive Effect :=
| Callback (cb : Z) (text : option cstring) (user_data : Z)
| XSetSelectionOwner (selection : Atom) (owner : Window)
| XConvertSelection (selection target property : Atom) (requestor : Window)
| XChangeProperty (w : Window) (property type : Atom) (format : Z) (data : PropData)
| XDeleteProperty (w : Window) (property : Atom)
| XSendEvent (w : Window) (ev : XSelectionEvent)
| XFlush
| Stderr (msg : string)
| OnChange (cb : Z) (user_data : Z)
| Draw.

#[global] Instance Effect_eq_dec : EqDecision Effect.
Proof. solve_decision. Defined.

(** ** clipboard.c *)

Module Clipboard.

(** [#define MAX_PENDING_REQUESTS 8] *)
Definition MAX_PENDING_REQUESTS : nat := 8.

(** [ClipboardData]: [text] is NULL ([None]) when nothing is owned. *)
Record ClipboardData := {
  text : option cstring;
  owner_window : Window
}.

(** [PendingRequest]. *)
Record PendingRequest := {
  window : Window;
  callback : Z;
  user_data : Z;
  type : SelectionType;
  property : Atom;
  active : bool
}.

(** [struct ClipboardContext]; [requests] is the array of
    [MAX_PENDING_REQUESTS] entries. The display pointer is the
    environment of the whole model and is not a field. *)
Record ClipboardContext := {
  clipboard_atom : Atom;
  utf8_atom : Atom;
  text_atom : Atom;
  targets_atom : Atom;
  incr_atom : Atom;
  property_atom : Atom;
  clipboard_data : ClipboardData;
  primary_data : ClipboardData;
  requests : list PendingRequest
}.

(** The atoms [XInternAtom] hands out in [clipboard_create]. *)
Record InternedAtoms := {
  ia_clipboard : Atom;
  ia_utf8 : Atom;
  ia_text : Atom;
  ia_targets : Atom;
  ia_incr : Atom;
  ia_property : Atom
}.

(** What [calloc] leaves in a table entry. *)
Definition zero_request : PendingRequest :=
  {| window := 0; callback := 0; user_data := 0; type := SELECTION_CLIPBOARD;
     property := 0; active := false |}.

Definition zero_data : ClipboardData := {| text := None; owner_window := 0 |}.

(** [clipboard_create], for a non-NULL display and a successful [calloc]. *)
Definition clipboard_create (a : InternedAtoms) : ClipboardContext :=
  {| clipboard_atom := ia_clipboard a;
     utf8_atom := ia_utf8 a;
     text_atom := ia_text a;
     targets_atom := ia_targets a;
     incr_atom := ia_incr a;
     property_atom := ia_property a;
     clipboard_data := zero_data;
     primary_data := zero_data;
     requests := replicate MAX_PENDING_REQUESTS zero_request |}.

Definition set_requests (ctx : ClipboardContext) (rs : list PendingRequest)
  : ClipboardContext :=
  {| clipboard_atom := clipboard_atom ctx;
     utf8_atom := utf8_atom ctx;
     text_atom := text_atom ctx;
     targets_atom := targets_atom ctx;
     incr_atom := incr_atom ctx;
     property_atom := property_atom ctx;
     clipboard_data := clipboard_data ctx;
     primary_data := primary_data ctx;
     requests := rs |}.

(** The two slots [get_data_for_selection] can point into. *)
Inductive DataSlot := ClipboardSlot | PrimarySlot.

Definition read_slot (ctx : ClipboardContext) (s : DataSlot) : ClipboardData :=
  match s with
  | ClipboardSlot => clipboard_data ctx
  | PrimarySlot => primary_data ctx
  end.

Definition write_slot (ctx : ClipboardContext) (s : DataSlot) (d : ClipboardData)
  : ClipboardContext :=
  {| clipboard_atom := clipboard_atom ctx;
     utf8_atom := utf8_atom ctx;
     text_atom := text_atom ctx;
     targets_atom := targets_atom ctx;
     incr_atom := incr_atom ctx;
     property_atom := property_atom ctx;
     clipboard_data := match s with ClipboardSlot => d | PrimarySlot => clipboard_data ctx end;
     primary_data := match s with ClipboardSlot => primary_data ctx | PrimarySlot => d end;
     requests := requests ctx |}.

(** [get_data_for_selection]: NULL for a selection that is neither. *)
Definition get_data_for_selection (ctx : ClipboardContext) (selection : Atom)
  : option DataSlot :=
  if decide (selection = clipboard_atom ctx) then Some ClipboardSlot
  else if decide (selection = XA_PRIMARY) then Some PrimarySlot
  else None.

(** [(type == SELECTION_CLIPBOARD) ? ctx->clipboard_atom : XA_PRIMARY] *)
Definition selection_atom (ctx : ClipboardContext) (ty : SelectionType) : Atom :=
  match ty with
  | SELECTION_CLIPBOARD => clipboard_atom ctx
  | SELECTION_PRIMARY => XA_PRIMARY
  end.

(** [clipboard_set_text]. [strdup] is taken to succeed. *)
Definition clipboard_set_text (ctx : option ClipboardContext) (win : Window)
    (txt : option cstring) (ty : SelectionType)
  : option ClipboardContext * list Effect :=
  match ctx with
  | None => (None, [])
  | Some c =>
    let selection := selection_atom c ty in
    match get_data_for_selection c selection with
    | None => (Some c, [])
    | Some slot =>
      match txt with
      | Some t =>
        (Some (write_slot c slot {| text := Some t; owner_window := win |}),
         [XSetSelectionOwner selection win])
      | None =>
        (Some (write_slot c slot {| text := None; owner_window := XNone |}),
         [XSetSelectionOwner selection XNone])
      end
    end
  end.

(** The loop of [clipboard_request_text] that looks for a free entry:
    the first index whose entry is not active. *)
Definition find_free (rs : list PendingRequest) : option nat :=
  fst <$> list_find (fun r => active r = false) rs.

(** The test [data && owner == data->owner_window && data->text] of
    [clipboard_request_text], returning [data->text] when it passes. *)
Definition local_text (ctx : ClipboardContext) (selection : Atom) (owner : Window)
  : option cstring :=
  match get_data_for_selection ctx selection with
  | Some slot =>
    let data := read_slot ctx slot in
    if decide (owner = owner_window data) then text data else None
  | None => None
  end.

(** [clipboard_request_text]. [owner] is what [XGetSelectionOwner]
    answers for the selection. *)
Definition clipboard_request_text (ctx : option ClipboardContext) (win : Window)
    (cb : Z) (ud : Z) (ty : SelectionType) (owner : Window)
  : option ClipboardContext * list Effect :=
  match ctx with
  | None => (None, [])
  | Some c =>
    if decide (cb = 0) then (Some c, [])
    else
      let selection := selection_atom c ty in
      if decide (owner = XNone) then (Some c, [Callback cb None ud])
      else
        match local_text c selection owner with
        | Some t => (Some c, [Callback cb (Some t) ud])
        | None =>
          match find_free (requests c) with
          | None =>
            (Some c, [Stderr "clipboard: too many pending requests"; Callback cb None ud])
          | Some i =>
            let req := {| window := win; callback := cb; user_data := ud; type := ty;
                          property := property_atom c; active := true |} in
            (Some (set_requests c (<[i := req]> (requests c))),
             [XConvertSelection selection (utf8_atom c) (property_atom c) win; XFlush])
          end
        end
  end.

(** [find_request]: the first active entry for this window and property,
    with its index; NULL is [None]. *)
Definition find_request (ctx : ClipboardContext) (win : Window) (prop : Atom)
  : option (nat * PendingRequest) :=
  list_find
    (fun r => active r = true /\ window r = win /\ property r = prop) (requests ctx).

(** [req->active = 0] on the entry [find_request] returned. *)
Definition deactivate (ctx : ClipboardContext) (i : nat) : ClipboardContext :=
  set_requests ctx
    (alter (fun r => {| window := window r; callback := callback r;
                        user_data := user_data r; type := type r;
                        property := property r; active := false |}) i (requests ctx)).

(** What one [XGetWindowProperty] call returns. *)
Record PropReply := {
  pr_status : Z;
  pr_actual_type : Atom;
  pr_bytes_after : Z;
  pr_data : option cstring
}.

(** [handle_selection_notify]. [r1] answers the zero-length probe, [r2]
    the read of the data. *)
Definition handle_selection_notify (ctx : ClipboardContext) (sev : XSelectionEvent)
    (r1 r2 : PropReply) : ClipboardContext * list Effect :=
  match find_request ctx (sev_requestor sev) (sev_property sev) with
  | None => (ctx, [])
  | Some (i, req) =>
      let fail := (deactivate ctx i, [Callback (callback req) None (user_data req)]) in
      if decide (sev_property sev = XNone) then fail
      else if decide (pr_status r1 = Success) then
        if decide (pr_actual_type r1 = incr_atom ctx) then
          (deactivate ctx i,
           [Stderr "clipboard: INCR protocol not supported (data too large)";
            XDeleteProperty (sev_requestor sev) (sev_property sev);
            Callback (callback req) None (user_data req)])
        else if decide (pr_status r2 = Success) then
          (deactivate ctx i,
           [Callback (callback req)
              (if decide (pr_actual_type r2 = utf8_atom ctx \/ pr_actual_type r2 = XA_STRING)
               then pr_data r2 else None)
              (user_data req);
            XDeleteProperty (sev_requestor sev) (sev_property sev)])
        else fail
      else fail
  end.

(** The fields of an [XSelectionRequestEvent] that the code reads. *)
Record XSelectionRequestEvent := {
  req_requestor : Window;
  req_selection : Atom;
  req_target : Atom;
  req_property : Atom
}.

(** [send_selection_notify] *)
Definition send_selection_notify (req : XSelectionRequestEvent) (prop : Atom)
  : list Effect :=
  [XSendEvent (req_requestor req)
     {| sev_requestor := req_requestor req; sev_selection := req_selection req;
        sev_target := req_target req; sev_property := prop |};
   XFlush].

(** [handle_selection_request]: answers only, the context is not written. *)
Definition handle_selection_request (ctx : ClipboardContext)
    (req : XSelectionRequestEvent) : list Effect :=
  let deny := send_selection_notify req XNone in
  match get_data_for_selection ctx (req_selection req) with
  | None => deny
  | Some slot =>
    let data := read_slot ctx slot in
    match text data with
    | None => deny
    | Some t =>
      if decide (req_requestor req = owner_window data) then deny
      else if decide (req_target req = targets_atom ctx) then
        XChangeProperty (req_requestor req) (req_property req) XA_ATOM 32
          (PropAtoms [targets_atom ctx; utf8_atom ctx; XA_STRING])
        :: send_selection_notify req (req_property req)
      else if decide (req_target req = utf8_atom ctx \/ req_target req = XA_STRING) then
        XChangeProperty (req_requestor req) (req_property req) (req_target req) 8
          (PropBytes t)
        :: send_selection_notify req (req_property req)
      else deny
    end
  end.

(** [handle_selection_clear] *)
Definition handle_selection_clear (ctx : ClipboardContext) (selection : Atom)
  : ClipboardContext :=
  match get_data_for_selection ctx selection with
  | Some slot => write_slot ctx slot {| text := None; owner_window := XNone |}
  | None => ctx
  end.

(** The three event types [clipboard_handle_event] dispatches on; any
    other event is [OtherEvent]. *)
Inductive XEvent :=
| SelectionRequest (req : XSelectionRequestEvent)
| SelectionNotify (sev : XSelectionEvent)
| SelectionClear (selection : Atom)
| OtherEvent.

(** [clipboard_handle_event]; the third component is its return value. *)
Definition clipboard_handle_event (ctx : option ClipboardContext) (ev : XEvent)
    (r1 r2 : PropReply) : option ClipboardContext * list Effect * Z :=
  match ctx with
  | None => (None, [], 0)
  | Some c =>
    match ev with
    | SelectionRequest req => (Some c, handle_selection_request c req, 1)
    | SelectionNotify sev =>
      let '(c', effs) := handle_selection_notify c sev r1 r2 in (Some c', effs, 1)
    | SelectionClear sel => (Some (handle_selection_clear c sel), [], 1)
    | OtherEvent => (Some c, [], 0)
    end
  end.

(** [clipboard_destroy]: the callbacks of the entries still pending; the
    context is freed, so there is no state afterwards. *)
Definition clipboard_destroy (ctx : option ClipboardContext) : list Effect :=
  match ctx with
  | None => []
  | Some c =>
    omap (fun r =>
            if active r then
              if decide (callback r = 0) then None
              else Some (Callback (callback r) None (user_data r))
            else None)
         (requests c)
  end.

(** *** A session with the clipboard module

    The calls the rest of the program makes on one context, each with the
    answers of the X server it consumes. *)
Inductive Op :=
| OpSetText (win : Window) (txt : option cstring) (ty : SelectionType)
| OpRequestText (win : Window) (cb ud : Z) (ty : SelectionType) (owner : Window)
| OpHandleEvent (ev : XEvent) (r1 r2 : PropReply).

Definition step (ctx : option ClipboardContext) (op : Op)
  : option ClipboardContext * list Effect :=
  match op with
  | OpSetText win txt ty => clipboard_set_text ctx win txt ty
  | OpRequestText win cb ud ty owner => clipboard_request_text ctx win cb ud ty owner
  | OpHandleEvent ev r1 r2 => fst (clipboard_handle_event ctx ev r1 r2)
  end.

(** The context and the effects, oldest first, after a sequence of calls. *)
Fixpoint run (ops : list Op) (ctx : option ClipboardContext)
  : option ClipboardContext * list Effect :=
  match ops with
  | [] => (ctx, [])
  | op :: ops' =>
    let '(ctx1, e1) := step ctx op in
    let '(ctx2, e2) := run ops' ctx1 in
    (ctx2, e1 ++ e2)
  end.

(** Atoms as the X server interns them: the six names are not predefined
    atoms (those end at [XA_LAST_PREDEFINED = 68]) and are distinct. *)
Definition valid_atoms (a : InternedAtoms) : Prop :=
  68 < ia_clipboard a /\ 68 < ia_utf8 a /\ 68 < ia_text a /\
  68 < ia_targets a /\ 68 < ia_incr a /\ 68 < ia_property a /\
  NoDup [ia_clipboard a; ia_utf8 a; ia_text a; ia_targets a; ia_incr a; ia_property a].

(** A context some session can produce. *)
Definition reachable (c : ClipboardContext) : Prop :=
  exists a ops, valid_atoms a /\ fst (run ops (Some (clipboard_create a))) = Some c.

(** "At most one active pending request per (window, property) pair". *)
Definition unique_pending (c : ClipboardContext) : Prop :=
  forall i j ri rj,
    requests c !! i = Some ri -> requests c !! j = Some rj ->
    active ri = true -> active rj = true ->
    window ri = window rj -> property ri = property rj ->
    i = j.

(** How often the effects invoke callback [cb] with user data [ud]. *)
Definition is_call (cb ud : Z) (e : Effect) : bool :=
  match e with
  | Callback cb' _ ud' => bool_decide (cb' = cb /\ ud' = ud)
  | _ => false
  end.

Definition calls (cb ud : Z) (effs : list Effect) : nat :=
  length (filter (fun e => is_call cb ud e) effs).

(** How many active entries wait for callback [cb] with user data [ud]. *)
Definition waits_for (cb ud : Z) (r : PendingRequest) : bool :=
  active r && bool_decide (callback r = cb /\ user_data r = ud).

Definition pending (cb ud : Z) (c : ClipboardContext) : nat :=
  length (filter (fun r => waits_for cb ud r) (requests c)).

(** How many requests of a session name callback [cb] with user data [ud]. *)
Definition is_request (cb ud : Z) (op : Op) : bool :=
  match op with
  | OpRequestText _ cb' ud' _ _ => bool_decide (cb' = cb /\ ud' = ud)
  | _ => false
  end.

Definition issued (cb ud : Z) (ops : list Op) : nat :=
  length (filter (fun op => is_request cb ud op) ops).

(** *** Vocabulary of the properties *)

(** How many elements of a list pass a test. *)
Definition tally {A} (p : A -> bool) (l : list A) : nat :=
  length (filter (fun x => p x) l).

Definition one_if (b : bool) : nat := if b then 1%nat else 0%nat.

(** The slot a selection type names. *)
Definition data_for (c : ClipboardContext) (ty : SelectionType) : ClipboardData :=
  match ty with
  | SELECTION_CLIPBOARD => clipboard_data c
  | SELECTION_PRIMARY => primary_data c
  end.

(** What every session keeps true of the table: it has its eight entries,
    the transfer property of the context is a real atom, and an active
    entry has a callback to call and names that property. *)
Definition entry_ok (c : ClipboardContext) (r : PendingRequest) : Prop :=
  active r = true -> callback r <> 0 /\ property r = property_atom c.

Definition table_ok (c : ClipboardContext) : Prop :=
  length (requests c) = MAX_PENDING_REQUESTS /\
  68 < property_atom c /\
  68 < clipboard_atom c /\
  Forall (entry_ok c) (requests c).

Definition atoms0 : InternedAtoms :=
  {| ia_clipboard := 300; ia_utf8 := 301; ia_text := 302;
     ia_targets := 303; ia_incr := 304; ia_property := 305 |}.

(** Window 7 pastes from the clipboard while window 9 of another client
    owns it. *)
Definition paste7 : Op := OpRequestText 7 1 100 SELECTION_CLIPBOARD 9.

(** The context after the operations [ops] of a fresh session. *)
Definition session (ops : list Op) : ClipboardContext :=
  default (clipboard_create atoms0) (run ops (Some (clipboard_create atoms0))).1.

(** Window 7 owns the clipboard with the text "bcd". *)
Definition bcd : cstring := list_ascii_of_string "bcd".
Definition owning_bcd : ClipboardContext :=
  session [OpSetText 7 (Some bcd) SELECTION_CLIPBOARD].

(** Eight pastes are pending. *)
Definition full_table : ClipboardContext := session (replicate 8 paste7).

(** Two pastes from window 7 are pending. *)
Definition two_pastes : ClipboardContext := session [paste7; paste7].

(** The refusal of the paste that window 7 has pending. *)
Definition denial7 : XSelectionEvent :=
  {| sev_requestor := 7; sev_selection := 300; sev_target := 301; sev_property := XNone |}.

Definition no_reply : PropReply :=
  {| pr_status := 1; pr_actual_type := XNone; pr_bytes_after := 0; pr_data := None |}.

End Clipboard.

(** ** ctype.h

    The program never calls [setlocale], so the classification functions
    are those of the "C" locale. The argument is the character converted
    to [unsigned char], as at every call site. *)

Module CType.

Definition code (c : ascii) : Z := Z.of_nat (nat_of_ascii c).

Definition isdigit (c : ascii) : bool := (48 <=? code c) && (code c <=? 57).
Definition isupper (c : ascii) : bool := (65 <=? code c) && (code c <=? 90).
Definition islower (c : ascii) : bool := (97 <=? code c) && (code c <=? 122).
Definition isprint (c : ascii) : bool := (32 <=? code c) && (code c <=? 126).
Definition isxdigit (c : ascii) : bool :=
  isdigit c || ((65 <=? code c) && (code c <=? 70)) || ((97 <=? code c) && (code c <=? 102)).
Definition toupper (c : ascii) : ascii :=
  if islower c then ascii_of_nat (nat_of_ascii c - 32) else c.
Definition tolower (c : ascii) : ascii :=
  if isupper c then ascii_of_nat (nat_of_ascii c + 32) else c.

Definition isalpha (c : ascii) : bool := isupper c || islower c.
Definition isalnum (c : ascii) : bool := isalpha c || isdigit c.

End CType.

(** ** entry.c *)

Module Entry.

(** entry.h: [enum EntryKind]. *)
Inductive EntryKind := ENTRY_TEXT | ENTRY_INT | ENTRY_FLOAT | ENTRY_HEX.

(** The fields of [MiniTheme] (config.h) the editing core reads. *)
Record MiniTheme := {
  hex_uppercase : Z;
  auto_copy_primary : Z;
  undo_depth : Z
}.

(** The fields of [MiniEntryConfig] (entry.h) the editing core reads. *)
Record MiniEntryConfig := {
  kind : EntryKind;
  cfg_width : Z;
  cfg_padding : Z;
  max_length : Z;
  cfg_on_change : Z;
  cfg_user_data : Z
}.

(** [struct MiniEntry], without the fields that only drawing, focus and
    mouse handling use. [text] is the string [e->text] points to: the
    pointer is set to a fresh copy in [entry_create] and is only ever
    replaced by another non-NULL string, so [ensure_text], which repairs
    a NULL [e->text], never does anything. [text_cap] only sizes the
    allocation and is left out with [reserve_text]: [safe_realloc]
    aborts rather than return a short buffer. The two stacks are the
    [calloc]ed arrays of [char*], [None] being a NULL slot. *)
Record MiniEntry := {
  theme : MiniTheme;
  cfg : MiniEntryConfig;
  win : Window;
  padding : Z;
  w : Z;
  text : cstring;
  text_len : Z;
  cursor : Z;
  sel_anchor : Z;
  sel_active : Z;
  undo_stack : list (option cstring);
  undo_capacity : Z;
  undo_top : Z;
  redo_stack : list (option cstring);
  redo_capacity : Z;
  redo_top : Z;
  scroll_x : Z;
  on_change : Z;
  user_data : Z
}.

(** Field assignments [e->f = v]. *)
Definition set_text (v : cstring) (e : MiniEntry) : MiniEntry :=
  {| theme := theme e; cfg := cfg e; win := win e; padding := padding e; w := w e;
     text := v; text_len := text_len e; cursor := cursor e; sel_anchor := sel_anchor
     e; sel_active := sel_active e; undo_stack := undo_stack e; undo_capacity :=
     undo_capacity e; undo_top := undo_top e; redo_stack := redo_stack e;
     redo_capacity := redo_capacity e; redo_top := redo_top e; scroll_x := scroll_x
     e; on_change := on_change e; user_data := user_data e |}.

Definition set_text_len (v : Z) (e : MiniEntry) : MiniEntry :=
  {| theme := theme e; cfg := cfg e; win := win e; padding := padding e; w := w e;
     text := text e; text_len := v; cursor := cursor e; sel_anchor := sel_anchor e;
     sel_active := sel_active e; undo_stack := undo_stack e; undo_capacity :=
     undo_capacity e; undo_top := undo_top e; redo_stack := redo_stack e;
     redo_capacity := redo_capacity e; redo_top := redo_top e; scroll_x := scroll_x
     e; on_change := on_change e; user_data := user_data e |}.

Definition set_cursor (v : Z) (e : MiniEntry) : MiniEntry :=
  {| theme := theme e; cfg := cfg e; win := win e; padding := padding e; w := w e;
     text := text e; text_len := text_len e; cursor := v; sel_anchor := sel_anchor
     e; sel_active := sel_active e; undo_stack := undo_stack e; undo_capacity :=
     undo_capacity e; undo_top := undo_top e; redo_stack := redo_stack e;
     redo_capacity := redo_capacity e; redo_top := redo_top e; scroll_x := scroll_x
     e; on_change := on_change e; user_data := user_data e |}.

Definition set_sel_anchor (v : Z) (e : MiniEntry) : MiniEntry :=
  {| theme := theme e; cfg := cfg e; win := win e; padding := padding e; w := w e;
     text := text e; text_len := text_len e; cursor := cursor e; sel_anchor := v;
     sel_active := sel_active e; undo_stack := undo_stack e; undo_capacity :=
     undo_capacity e; undo_top := undo_top e; redo_stack := redo_stack e;
     redo_capacity := redo_capacity e; redo_top := redo_top e; scroll_x := scroll_x
     e; on_change := on_change e; user_data := user_data e |}.

Definition set_sel_active (v : Z) (e : MiniEntry) : MiniEntry :=
  {| theme := theme e; cfg := cfg e; win := win e; padding := padding e; w := w e;
     text := text e; text_len := text_len e; cursor := cursor e; sel_anchor :=
     sel_anchor e; sel_active := v; undo_stack := undo_stack e; undo_capacity :=
     undo_capacity e; undo_top := undo_top e; redo_stack := redo_stack e;
     redo_capacity := redo_capacity e; redo_top := redo_top e; scroll_x := scroll_x
     e; on_change := on_change e; user_data := user_data e |}.

Definition set_undo_stack (v : list (option cstring)) (e : MiniEntry) : MiniEntry :=
  {| theme := theme e; cfg := cfg e; win := win e; padding := padding e; w := w e;
     text := text e; text_len := text_len e; cursor := cursor e; sel_anchor :=
     sel_anchor e; sel_active := sel_active e; undo_stack := v; undo_capacity :=
     undo_capacity e; undo_top := undo_top e; redo_stack := redo_stack e;
     redo_capacity := redo_capacity e; redo_top := redo_top e; scroll_x := scroll_x
     e; on_change := on_change e; user_data := user_data e |}.

Definition set_undo_top (v : Z) (e : MiniEntry) : MiniEntry :=
  {| theme := theme e; cfg := cfg e; win := win e; padding := padding e; w := w e;
     text := text e; text_len := text_len e; cursor := cursor e; sel_anchor :=
     sel_anchor e; sel_active := sel_active e; undo_stack := undo_stack e;
     undo_capacity := undo_capacity e; undo_top := v; redo_stack := redo_stack e;
     redo_capacity := redo_capacity e; redo_top := redo_top e; scroll_x := scroll_x
     e; on_change := on_change e; user_data := user_data e |}.

Definition set_redo_stack (v : list (option cstring)) (e : MiniEntry) : MiniEntry :=
  {| theme := theme e; cfg := cfg e; win := win e; padding := padding e; w := w e;
     text := text e; text_len := text_len e; cursor := cursor e; sel_anchor :=
     sel_anchor e; sel_active := sel_active e; undo_stack := undo_stack e;
     undo_capacity := undo_capacity e; undo_top := undo_top e; redo_stack := v;
     redo_capacity := redo_capacity e; redo_top := redo_top e; scroll_x := scroll_x
     e; on_change := on_change e; user_data := user_data e |}.

Definition set_redo_top (v : Z) (e : MiniEntry) : MiniEntry :=
  {| theme := theme e; cfg := cfg e; win := win e; padding := padding e; w := w e;
     text := text e; text_len := text_len e; cursor := cursor e; sel_anchor :=
     sel_anchor e; sel_active := sel_active e; undo_stack := undo_stack e;
     undo_capacity := undo_capacity e; undo_top := undo_top e; redo_stack :=
     redo_stack e; redo_capacity := redo_capacity e; redo_top := v; scroll_x :=
     scroll_x e; on_change := on_change e; user_data := user_data e |}.

Definition set_scroll_x (v : Z) (e : MiniEntry) : MiniEntry :=
  {| theme := theme e; cfg := cfg e; win := win e; padding := padding e; w := w e;
     text := text e; text_len := text_len e; cursor := cursor e; sel_anchor :=
     sel_anchor e; sel_active := sel_active e; undo_stack := undo_stack e;
     undo_capacity := undo_capacity e; undo_top := undo_top e; redo_stack :=
     redo_stack e; redo_capacity := redo_capacity e; redo_top := redo_top e;
     scroll_x := v; on_change := on_change e; user_data := user_data e |}.

(** *** The monad of the editing functions

    A function of entry.c takes the entry, may write to it, may call out,
    and has no defined result when it reads or writes outside an array or
    outside the text buffer: that is [None]. *)
Definition Act (A : Type) : Type := MiniEntry -> option (A * MiniEntry * list Effect).

#[global] Instance Act_ret : MRet Act := fun A a e => Some (a, e, []).

#[global] Instance Act_bind : MBind Act := fun A B k m e =>
  match m e with
  | None => None
  | Some (a, e1, w1) =>
    match k a e1 with
    | None => None
    | Some (b, e2, w2) => Some (b, e2, w1 ++ w2)
    end
  end.

Definition get : Act MiniEntry := fun e => Some (e, e, []).
Definition modify (f : MiniEntry -> MiniEntry) : Act unit := fun e => Some (tt, f e, []).
Definition emit (x : Effect) : Act unit := fun e => Some (tt, e, [x]).
Definition undefined {A} : Act A := fun _ => None.
Definition check (P : Prop) `{Decision P} : Act unit :=
  if decide P then mret tt else undefined.
Definition lift {A} (o : option A) : Act A :=
  match o with Some a => mret a | None => undefined end.

(** *** Arrays of [char*] indexed by an [int] *)

Definition array_read (a : list (option cstring)) (i : Z) : option (option cstring) :=
  if decide (0 <= i) then a !! Z.to_nat i else None.

Definition array_write (a : list (option cstring)) (i : Z) (v : option cstring)
  : option (list (option cstring)) :=
  if decide (0 <= i < Z.of_nat (length a)) then Some (<[Z.to_nat i := v]> a) else None.

(** [memmove(a, a + 1, (n - 1) pointers)] on an array of
    [length a] slots: slots [1 .. n-1] move down by one, slot [n-1] keeps
    its value. The count is converted to [size_t]: a negative [n - 1] becomes huge. *)
Definition array_shift_down (a : list (option cstring)) (n : Z)
  : option (list (option cstring)) :=
  if decide (1 <= n <= Z.of_nat (length a))
  then Some (take (Z.to_nat (n - 1)) (drop 1 a) ++ drop (Z.to_nat (n - 1)) a)
  else None.

(** *** TEXT HELPERS *)

Definition ensure_text : Act unit := mret tt.

(** [e->text_len = strlen(e->text)] when they differ. *)
Definition ensure_text_len : Act unit :=
  ensure_text;;
  modify (fun e => set_text_len (Z.of_nat (length (text e))) e).

(** The bytes of the buffer are only addressed through [text_len]:
    the moves below are defined when [text_len] is the length of the
    string and the offsets lie inside it. *)

(** [memmove(e->text + a, e->text + b, (size_t)(e->text_len - b + 1))] *)
Definition mem_delete (a b : Z) : Act unit :=
  e ← get;
  check (0 <= a /\ a <= b /\ b <= text_len e /\ text_len e = Z.of_nat (length (text e)));;
  modify (set_text (take (Z.to_nat a) (text e) ++ drop (Z.to_nat b) (text e))).

(** [memmove(e->text + pos + n, e->text + pos, (size_t)(e->text_len - pos + 1))]
    followed by the store of the [n] bytes [bytes] at [e->text + pos]. *)
Definition mem_insert (pos : Z) (bytes : cstring) : Act unit :=
  e ← get;
  check (0 <= pos /\ pos <= text_len e /\ text_len e = Z.of_nat (length (text e)));;
  modify (set_text (take (Z.to_nat pos) (text e) ++ bytes ++ drop (Z.to_nat pos) (text e))).

(** [safe_strndup(e->text + a, (size_t)n)]: at most [n] bytes of the
    string that starts at offset [a]. *)
Definition strndup_at (a n : Z) : Act cstring :=
  e ← get;
  check (0 <= a /\ a <= Z.of_nat (length (text e)) /\ 0 <= n);;
  mret (take (Z.to_nat n) (drop (Z.to_nat a) (text e))).

(** *** UNDO/REDO *)

Definition undo_push : Act unit :=
  ensure_text;;
  e ← get;
  (if decide (undo_top e >= undo_capacity e) then
     _ ← lift (array_read (undo_stack e) 0);
     s ← lift (array_shift_down (undo_stack e) (undo_capacity e));
     modify (set_undo_stack s);;
     modify (set_undo_top (undo_capacity e - 1))
   else mret tt);;
  e ← get;
  s ← lift (array_write (undo_stack e) (undo_top e) (Some (text e)));
  modify (set_undo_stack s);;
  modify (set_undo_top (undo_top e + 1));;
  check (redo_top e <= Z.of_nat (length (redo_stack e)));;
  modify (set_redo_top 0).

(** [if (e->cursor > e->text_len) e->cursor = e->text_len;
     e->sel_anchor = e->sel_active = e->cursor;
     if (e->on_change) e->on_change(e, e->user_data);] *)
Definition after_restore : Act unit :=
  e ← get;
  (if decide (cursor e > text_len e) then modify (set_cursor (text_len e)) else mret tt);;
  e ← get;
  modify (set_sel_active (cursor e));;
  modify (set_sel_anchor (cursor e));;
  if decide (on_change e = 0) then mret tt
  else emit (OnChange (on_change e) (user_data e)).

Definition do_undo : Act unit :=
  ensure_text;;
  e ← get;
  if decide (undo_top e = 0) then mret tt
  else
    s ← lift (array_write (redo_stack e) (redo_top e) (Some (text e)));
    modify (set_redo_stack s);;
    modify (set_redo_top (redo_top e + 1));;
    modify (set_undo_top (undo_top e - 1));;
    p ← lift (array_read (undo_stack e) (undo_top e - 1));
    t ← lift p;
    modify (set_text t);;
    modify (set_text_len (Z.of_nat (length t)));;
    after_restore.

Definition do_redo : Act unit :=
  ensure_text;;
  e ← get;
  if decide (redo_top e = 0) then mret tt
  else
    s ← lift (array_write (undo_stack e) (undo_top e) (Some (text e)));
    modify (set_undo_stack s);;
    modify (set_undo_top (undo_top e + 1));;
    modify (set_redo_top (redo_top e - 1));;
    p ← lift (array_read (redo_stack e) (redo_top e - 1));
    t ← lift p;
    modify (set_text t);;
    modify (set_text_len (Z.of_nat (length t)));;
    after_restore.

(** *** SELECTION + EDITING *)

Definition normalize_sel : Act unit :=
  ensure_text_len;;
  e ← get;
  (if decide (sel_anchor e < 0) then modify (set_sel_anchor 0) else mret tt);;
  (if decide (sel_active e < 0) then modify (set_sel_active 0) else mret tt);;
  e ← get;
  (if decide (sel_anchor e > text_len e) then modify (set_sel_anchor (text_len e))
   else mret tt);;
  (if decide (sel_active e > text_len e) then modify (set_sel_active (text_len e))
   else mret tt).

(** [int a = e->sel_anchor, b = e->sel_active; if (a > b) swap]. *)
Definition sel_range (e : MiniEntry) : Z * Z :=
  if decide (sel_anchor e > sel_active e)
  then (sel_active e, sel_anchor e) else (sel_anchor e, sel_active e).

Definition delete_selection : Act unit :=
  ensure_text_len;;
  e ← get;
  if decide (sel_anchor e = sel_active e) then mret tt
  else
    let '(a, b) := sel_range e in
    mem_delete a b;;
    modify (set_text_len (text_len e - (b - a)));;
    modify (set_cursor a);;
    modify (set_sel_active a);;
    modify (set_sel_anchor a).

(** *** VALIDATION *)

(** [validate_char]: [Some out] for return value 1, [None] for 0. *)
Definition validate_char (e : MiniEntry) (ch : ascii) : option ascii :=
  match kind (cfg e) with
  | ENTRY_TEXT =>
    if CType.isprint ch && negb (bool_decide (ch = "013"%char))
       && negb (bool_decide (ch = "010"%char))
    then Some ch else None
  | ENTRY_INT =>
    if CType.isdigit ch || bool_decide (ch = " "%char) || bool_decide (ch = ","%char)
    then Some ch else None
  | ENTRY_FLOAT =>
    if bool_decide (ch = "."%char) || bool_decide (ch = ","%char)
       || bool_decide (ch = " "%char)
    then Some ch
    else if CType.isdigit ch then Some ch else None
  | ENTRY_HEX =>
    if bool_decide (ch = "#"%char) then Some "#"%char
    else if CType.isxdigit ch
    then Some (if decide (hex_uppercase (theme e) = 0)
               then CType.tolower ch else CType.toupper ch)
    else None
  end.

Section WithFont.

(** [xOff text n]: the advance [XftTextExtentsUtf8] measures for the
    first [n] bytes of [text] in the entry's font. *)
Variable xOff : cstring -> Z -> Z.

Definition ensure_cursor_visible : Act unit :=
  e ← get;
  let pad := padding e in
  let cursor_x := pad + 2 + xOff (text e) (cursor e) in
  let visible_w := w e - pad * 2 in
  let right_edge := scroll_x e + visible_w - 8 in
  let left_edge := scroll_x e + pad in
  (if decide (cursor_x > right_edge) then modify (set_scroll_x (cursor_x - visible_w + 8))
   else if decide (cursor_x < left_edge) then modify (set_scroll_x (cursor_x - pad))
   else mret tt);;
  e ← get;
  (if decide (scroll_x e < 0) then modify (set_scroll_x 0) else mret tt);;
  e ← get;
  let text_w := xOff (text e) (text_len e) in
  let max_scroll := if decide (text_w - visible_w < 0) then 0 else text_w - visible_w in
  if decide (scroll_x e > max_scroll) then modify (set_scroll_x max_scroll) else mret tt.

(** [entry_draw]: damage everything, repaint, flush. *)
Definition entry_draw : Act unit := emit Draw.

(** *** CLIPBOARD SYSTEM *)

(** [copy_selection]; [ctx] is the context [e->clipboard_ctx] points to. *)
Definition copy_selection (cut : Z) (e : MiniEntry)
    (ctx : option Clipboard.ClipboardContext)
  : option (MiniEntry * option Clipboard.ClipboardContext * list Effect) :=
  if decide (sel_anchor e = sel_active e) then Some (e, ctx, [])
  else
    let '(a, b) := sel_range e in
    match strndup_at a (b - a) e with
    | None => None
    | Some (txt, _, _) =>
      let '(ctx1, w1) := Clipboard.clipboard_set_text ctx (win e) (Some txt) SELECTION_CLIPBOARD in
      let '(ctx2, w2) := Clipboard.clipboard_set_text ctx1 (win e) (Some txt) SELECTION_PRIMARY in
      if decide (cut = 0) then Some (e, ctx2, w1 ++ w2)
      else
        match (undo_push;; delete_selection;; entry_draw) e with
        | None => None
        | Some (_, e', w3) => Some (e', ctx2, w1 ++ w2 ++ w3)
        end
    end.

(** The loop of [filtered_paste]: [out] holds the [o] bytes accepted so
    far; the loop stops once [base_len + o] reaches a positive
    [max_length]. *)
Fixpoint paste_filter (e : MiniEntry) (base_len : Z) (data out : cstring) : cstring :=
  match data with
  | [] => out
  | ch :: rest =>
    match validate_char e ch with
    | Some v =>
      let out' := out ++ [v] in
      if decide (max_length (cfg e) > 0 /\
                 base_len + Z.of_nat (length out') >= max_length (cfg e))
      then out' else paste_filter e base_len rest out'
    | None => paste_filter e base_len rest out
    end
  end.

(** [base_len] of [filtered_paste]. *)
Definition paste_base_len (e : MiniEntry) : Z :=
  if decide (sel_anchor e = sel_active e) then text_len e
  else
    let '(a, b) := sel_range e in
    let base_len := text_len e - (b - a) in
    if decide (base_len < 0) then 0 else base_len.

(** [filtered_paste]; [malloc] is taken to succeed. *)
Definition filtered_paste (data : option cstring) : Act unit :=
  match data with
  | None => mret tt
  | Some d =>
    if decide (length d = 0%nat) then mret tt
    else
      e ← get;
      let out := paste_filter e (paste_base_len e) d [] in
      let o := Z.of_nat (length out) in
      if decide (o = 0) then mret tt
      else
        undo_push;;
        e ← get;
        (if decide (sel_anchor e = sel_active e) then mret tt else delete_selection);;
        e ← get;
        mem_insert (cursor e) out;;
        modify (set_text_len (text_len e + o));;
        modify (set_cursor (cursor e + o));;
        ensure_cursor_visible;;
        entry_draw
  end.

(** [paste_callback]; [user_data] is the entry the function runs on. *)
Definition paste_callback (txt : option cstring) : Act unit :=
  match txt with
  | Some t => filtered_paste (Some t)
  | None => mret tt
  end.

(** *** PUBLIC API *)

(** The editing state [entry_create] sets up; [win0] is the window
    [XCreateWindow] returns. *)
Definition entry_init (th : MiniTheme) (c : MiniEntryConfig) (win0 : Window)
  : MiniEntry :=
  {| theme := th; cfg := c; win := win0; padding := cfg_padding c; w := cfg_width c;
     text := []; text_len := 0; cursor := 0; sel_anchor := 0; sel_active := 0;
     undo_stack := replicate (Z.to_nat (undo_depth th)) None;
     undo_capacity := undo_depth th; undo_top := 0;
     redo_stack := replicate (Z.to_nat (undo_depth th)) None;
     redo_capacity := undo_depth th; redo_top := 0;
     scroll_x := 0; on_change := cfg_on_change c; user_data := cfg_user_data c |}.

(** [entry_create]. A negative [undo_depth] converts to a size [calloc]
    refuses, and the function returns NULL. *)
Definition entry_create (th : MiniTheme) (c : MiniEntryConfig) (win0 : Window)
  : option MiniEntry :=
  if decide (undo_depth th < 0) then None else Some (entry_init th c win0).

(** [entry_set_text_no_draw]; a NULL [t] stands for the empty string. *)
Definition entry_set_text_no_draw (t : option cstring) : Act unit :=
  let s := default [] t in
  modify (set_text s);;
  modify (set_text_len (Z.of_nat (length s)));;
  modify (set_cursor (Z.of_nat (length s)));;
  modify (set_sel_active (Z.of_nat (length s)));;
  modify (set_sel_anchor (Z.of_nat (length s))).

Definition entry_set_text (t : option cstring) : Act unit :=
  entry_set_text_no_draw t;;
  entry_draw.

(** *** KEY HANDLING *)

Definition insert_char (ch : ascii) : Act unit :=
  ensure_text_len;;
  e ← get;
  match validate_char e ch with
  | None => mret tt
  | Some out =>
    undo_push;;
    e ← get;
    (if decide (sel_anchor e = sel_active e) then mret tt else delete_selection);;
    e ← get;
    if decide (max_length (cfg e) > 0 /\ text_len e >= max_length (cfg e)) then mret tt
    else
      mem_insert (cursor e) [out];;
      modify (set_text_len (text_len e + 1));;
      modify (set_cursor (cursor e + 1));;
      ensure_cursor_visible;;
      entry_draw
  end.

End WithFont.

(** *** Vocabulary of the properties *)

(** The snapshots a stack holds: the slots below its top. *)
Definition live_undo (e : MiniEntry) : list (option cstring) :=
  take (Z.to_nat (undo_top e)) (undo_stack e).
Definition live_redo (e : MiniEntry) : list (option cstring) :=
  take (Z.to_nat (redo_top e)) (redo_stack e).

(** The last [n] elements of a list. *)
Definition lastn {A} (n : nat) (l : list A) : list A := drop (length l - n) l.

(** The two arrays as [entry_create] allocates them for a positive
    [undo_depth]: [undo_capacity] slots each. *)
Definition arrays_ok (e : MiniEntry) : Prop :=
  1 <= undo_capacity e /\
  Z.of_nat (length (undo_stack e)) = undo_capacity e /\
  Z.of_nat (length (redo_stack e)) = undo_capacity e.

(** Every slot below the top of a stack holds a string. *)
Definition all_strings (l : list (option cstring)) : Prop :=
  Forall (fun p => p <> None) l.

(** The invariant of the two stacks. *)
Definition history_ok (e : MiniEntry) : Prop :=
  arrays_ok e /\
  0 <= undo_top e /\ 0 <= redo_top e /\
  undo_top e + redo_top e <= undo_capacity e /\
  all_strings (live_undo e) /\ all_strings (live_redo e).

(** The invariant of the text buffer: the cached length is the length of
    the string, and cursor and selection lie inside it. *)
Definition buffer_ok (e : MiniEntry) : Prop :=
  text_len e = Z.of_nat (length (text e)) /\
  0 <= cursor e <= text_len e /\
  0 <= sel_anchor e <= text_len e /\
  0 <= sel_active e <= text_len e.

(** The text without the selected range, and where the cursor stands
    once the range is gone. *)
Definition without_selection (e : MiniEntry) : cstring :=
  let '(a, b) := sel_range e in
  take (Z.to_nat a) (text e) ++ drop (Z.to_nat b) (text e).

Definition cursor_without_selection (e : MiniEntry) : Z :=
  if decide (sel_anchor e = sel_active e) then cursor e else (sel_range e).1.

(** The selected substring. *)
Definition selected_text (e : MiniEntry) : cstring :=
  let '(a, b) := sel_range e in
  take (Z.to_nat (b - a)) (drop (Z.to_nat a) (text e)).

(** The entry once [do_undo] or [do_redo] has put [t] in the buffer. *)
Definition restore_text (t : cstring) (e : MiniEntry) : MiniEntry :=
  let n := Z.of_nat (length t) in
  let c := if decide (cursor e > n) then n else cursor e in
  set_sel_anchor c (set_sel_active c (set_cursor c (set_text_len n (set_text t e)))).

(** The change notification of an entry, if it has a handler. *)
Definition notify (e : MiniEntry) : list Effect :=
  if decide (on_change e = 0) then [] else [OnChange (on_change e) (user_data e)].

(** The entry once [entry_set_text_no_draw] has replaced the buffer. *)
Definition set_whole_text (s : cstring) (e : MiniEntry) : MiniEntry :=
  let n := Z.of_nat (length s) in
  set_sel_anchor n (set_sel_active n (set_cursor n (set_text_len n (set_text s e)))).

(** The entry once [delete_selection] has removed a non-empty selection. *)
Definition selection_deleted (e : MiniEntry) : MiniEntry :=
  let a := (sel_range e).1 in
  let b := (sel_range e).2 in
  set_sel_anchor a (set_sel_active a (set_cursor a
    (set_text_len (text_len e - (b - a)) (set_text (without_selection e) e)))).

(** A character the kind accepts but the maximum length does not: the
    text is already that long once the selection is gone. *)
Definition rejected_by_max_length (e : MiniEntry) (ch : ascii) : Prop :=
  validate_char e ch <> None /\
  max_length (cfg e) > 0 /\
  Z.of_nat (length (without_selection e)) >= max_length (cfg e).

(** "No buffer mutation" and "no change to the undo/redo stacks". *)
Definition same_buffer (e e' : MiniEntry) : Prop :=
  text e' = text e /\ cursor e' = cursor e /\
  sel_anchor e' = sel_anchor e /\ sel_active e' = sel_active e.

Definition same_history (e e' : MiniEntry) : Prop :=
  live_undo e' = live_undo e /\ live_redo e' = live_redo e.

(** *** Sessions with the history

    A snapshot is pushed while the buffer holds the text to remember;
    [push_snapshot t] puts [t] in the buffer and pushes. *)
Definition push_snapshot (t : cstring) : Act unit :=
  entry_set_text_no_draw (Some t);;
  undo_push.

Fixpoint push_all (ts : list cstring) : Act unit :=
  match ts with
  | [] => mret tt
  | t :: ts' => push_snapshot t;; push_all ts'
  end.

(** [n] undos in a row, with the text each of them restores. *)
Fixpoint undo_trace (n : nat) : Act (list cstring) :=
  match n with
  | O => mret []
  | S n' =>
    do_undo;;
    e ← get;
    rest ← undo_trace n';
    mret (text e :: rest)
  end.

(** The operations on the history, and an edit of the buffer between
    them. *)
Inductive HistOp :=
| HPush
| HUndo
| HRedo
| HEdit (t : cstring).

Definition hist_step (op : HistOp) : Act unit :=
  match op with
  | HPush => undo_push
  | HUndo => do_undo
  | HRedo => do_redo
  | HEdit t => entry_set_text_no_draw (Some t)
  end.

Fixpoint hist_run (ops : list HistOp) : Act unit :=
  match ops with
  | [] => mret tt
  | op :: ops' => hist_step op;; hist_run ops'
  end.

(** *** Concrete entries *)

(** Advances of a fixed-width font, 8 pixels a byte. *)
Definition xOff8 (t : cstring) (n : Z) : Z := 8 * n.

Definition theme0 : MiniTheme :=
  {| hex_uppercase := 1; auto_copy_primary := 1; undo_depth := 4 |}.

(** An integer entry of at most three characters. *)
Definition cfg_int3 : MiniEntryConfig :=
  {| kind := ENTRY_INT; cfg_width := 120; cfg_padding := 4; max_length := 3;
     cfg_on_change := 50; cfg_user_data := 60 |}.

(** A hex-colour entry of at most seven characters. *)
Definition cfg_hex : MiniEntryConfig :=
  {| kind := ENTRY_HEX; cfg_width := 120; cfg_padding := 4; max_length := 7;
     cfg_on_change := 50; cfg_user_data := 60 |}.

(** A free-text entry without a length limit. *)
Definition cfg_text : MiniEntryConfig :=
  {| kind := ENTRY_TEXT; cfg_width := 120; cfg_padding := 4; max_length := 0;
     cfg_on_change := 50; cfg_user_data := 60 |}.

Definition str (s : string) : cstring := list_ascii_of_string s.

(** The state an action leaves, from a state it is defined on. *)
Definition after {A} (m : Act A) (e : MiniEntry) : MiniEntry :=
  match m e with
  | Some (_, e', _) => e'
  | None => e
  end.

(** A fresh entry of configuration [c]. *)
Definition fresh (c : MiniEntryConfig) : MiniEntry := entry_init theme0 c 7.

(** The integer entry holding "255", nothing selected, no history. *)
Definition int_255 : MiniEntry :=
  after (entry_set_text_no_draw (Some (str "255"))) (fresh cfg_int3).

(** The text entry holding "abcdef" with "bcd" selected. *)
Definition abcdef_bcd : MiniEntry :=
  set_sel_active 4 (set_sel_anchor 1
    (after (entry_set_text_no_draw (Some (str "abcdef"))) (fresh cfg_text))).

(** The integer entry holding "255" after the text "2556" was undone:
    nothing to undo, "2556" to redo. *)
Definition int_255_redo : MiniEntry :=
  after do_undo
    (after (entry_set_text_no_draw (Some (str "2556"))) (after undo_push int_255)).

(** The text entry after four snapshots, its undo stack full. *)
Definition full_history : MiniEntry :=
  after (push_all [str "a"; str "b"; str "c"; str "d"]) (fresh cfg_text).

(** The theme a configuration file with the line "undo-depth = 0" gives:
    [atoi] of the value is stored unchecked. *)
Definition theme_depth0 : MiniTheme :=
  {| hex_uppercase := 1; auto_copy_primary := 1; undo_depth := 0 |}.

End Entry.

(** ** keysymdef.h: the key symbols [key_shortcuts] tests *)

Module XK.

Definition XK_BackSpace : Z := 0xff08.
Definition XK_Return : Z := 0xff0d.
Definition XK_Home : Z := 0xff50.
Definition XK_Left : Z := 0xff51.
Definition XK_Right : Z := 0xff53.
Definition XK_End : Z := 0xff57.
Definition XK_KP_Enter : Z := 0xff8d.
Definition XK_Delete : Z := 0xffff.
Definition XK_A : Z := 0x41.
Definition XK_C : Z := 0x43.
Definition XK_V : Z := 0x56.
Definition XK_X : Z := 0x58.
Definition XK_Y : Z := 0x59.
Definition XK_Z : Z := 0x5a.
Definition XK_a : Z := 0x61.
Definition XK_c : Z := 0x63.
Definition XK_v : Z := 0x76.
Definition XK_x : Z := 0x78.
Definition XK_y : Z := 0x79.
Definition XK_z : Z := 0x7a.

End XK.

(** ** entry.c, continued: the rest of the editing core *)

Module Editing.
Import Entry.

(** *** DAMAGE HELPERS

    The four fields [dmg_x], [dmg_y], [dmg_w], [dmg_h] of the entry, the
    only ones these helpers read or write besides [e->w] and [e->h]. *)
Record Damage := {
  dmg_x : Z;
  dmg_y : Z;
  dmg_w : Z;
  dmg_h : Z
}.

Definition damage_reset : Damage := {| dmg_x := 0; dmg_y := 0; dmg_w := 0; dmg_h := 0 |}.

Definition damage_add (d : Damage) (x y w h : Z) : Damage :=
  if decide (w <= 0 \/ h <= 0) then d
  else if decide (dmg_w d = 0 \/ dmg_h d = 0)
  then {| dmg_x := x; dmg_y := y; dmg_w := w; dmg_h := h |}
  else
    let x1 := if decide (x < dmg_x d) then x else dmg_x d in
    let y1 := if decide (y < dmg_y d) then y else dmg_y d in
    let x2 := if decide (x + w > dmg_x d + dmg_w d) then x + w else dmg_x d + dmg_w d in
    let y2 := if decide (y + h > dmg_y d + dmg_h d) then y + h else dmg_y d + dmg_h d in
    {| dmg_x := x1; dmg_y := y1; dmg_w := x2 - x1; dmg_h := y2 - y1 |}.

(** [damage_all]; [ew] and [eh] are [e->w] and [e->h]. *)
Definition damage_all (d : Damage) (ew eh : Z) : Damage := damage_add d 0 0 ew eh.

(** *** FONTS / BUFFERS: [reserve_text]

    The loop [while (cap < need)] with its [break], for at most [fuel]
    rounds. [cap / 2] is C division. *)
Fixpoint reserve_loop (fuel : nat) (cap need : Z) : Z :=
  match fuel with
  | O => cap
  | S fuel' =>
    if decide (cap < need) then
      let cap1 := cap + Z.quot cap 2 in
      let cap2 := if decide (cap1 < 8) then 8 else cap1 in
      if decide (cap2 > Z.shiftl 1 30) then cap2 else reserve_loop fuel' cap2 need
    else cap
  end.

(** The value [reserve_text] leaves in [e->text_cap], the size of the
    buffer it has [safe_realloc] return. 128 rounds are more than the
    loop can take: each round multiplies [cap] by at least 5/4. *)
Definition reserve_text (text_cap need : Z) : Z :=
  if decide (need <= text_cap) then text_cap
  else reserve_loop 128 (if decide (text_cap > 0) then text_cap else 1) need.

(** *** WORD SELECTION *)

Definition is_word_char (c : ascii) : bool :=
  CType.isalnum c || bool_decide (c = "_"%char).

(** [while (s > 0 && is_word_char(e->text[s - 1])) s--;] *)
Fixpoint scan_left (t : cstring) (s : nat) : nat :=
  match s with
  | O => O
  | S s' =>
    match t !! s' with
    | Some c => if is_word_char c then scan_left t s' else s
    | None => s
    end
  end.

(** [while (t < e->text_len && is_word_char(e->text[t])) t++;] for at
    most [fuel] rounds; the text has no byte at [i] exactly when
    [i >= text_len]. *)
Fixpoint scan_right (t : cstring) (i : nat) (fuel : nat) : nat :=
  match fuel with
  | O => i
  | S fuel' =>
    match t !! i with
    | Some c => if is_word_char c then scan_right t (S i) fuel' else i
    | None => i
    end
  end.

(** [update_selection_clipboard]: the entry is only read. *)
Definition update_selection_clipboard (e : MiniEntry)
    (ctx : option Clipboard.ClipboardContext)
  : option (option Clipboard.ClipboardContext * list Effect) :=
  if decide (auto_copy_primary (theme e) = 0) then Some (ctx, [])
  else if decide (sel_anchor e = sel_active e)
  then Some (Clipboard.clipboard_set_text ctx (win e) None SELECTION_PRIMARY)
  else
    let '(a, b) := sel_range e in
    match strndup_at a (b - a) e with
    | None => None
    | Some (txt, _, _) =>
      Some (Clipboard.clipboard_set_text ctx (win e) (Some txt) SELECTION_PRIMARY)
    end.

(** An action on the entry followed by [update_selection_clipboard]. *)
Definition then_update_selection (m : Act unit) (e : MiniEntry)
    (ctx : option Clipboard.ClipboardContext)
  : option (MiniEntry * option Clipboard.ClipboardContext * list Effect) :=
  match m e with
  | None => None
  | Some (_, e', w1) =>
    match update_selection_clipboard e' ctx with
    | None => None
    | Some (ctx', w2) => Some (e', ctx', w1 ++ w2)
    end
  end.

Section WithFont.

Variable xOff : cstring -> Z -> Z.

Definition select_word (pos : Z) : MiniEntry -> option Clipboard.ClipboardContext ->
    option (MiniEntry * option Clipboard.ClipboardContext * list Effect) :=
  then_update_selection
    (ensure_text_len;;
     e ← get;
     let pos := if decide (pos < 0) then 0 else pos in
     let pos := if decide (pos > text_len e) then text_len e else pos in
     let s := scan_left (text e) (Z.to_nat pos) in
     let t := scan_right (text e) (Z.to_nat pos) (Z.to_nat (text_len e - pos)) in
     modify (set_sel_anchor (Z.of_nat s));;
     modify (set_sel_active (Z.of_nat t));;
     modify (set_cursor (Z.of_nat t));;
     ensure_cursor_visible xOff).

(** The assignments [select_all_text] and the Ctrl+A branch of
    [key_shortcuts] share. *)
Definition select_whole : Act unit :=
  ensure_text_len;;
  e ← get;
  modify (set_sel_anchor 0);;
  modify (set_sel_active (text_len e));;
  modify (set_cursor (text_len e));;
  ensure_cursor_visible xOff.

Definition select_all_text : MiniEntry -> option Clipboard.ClipboardContext ->
    option (MiniEntry * option Clipboard.ClipboardContext * list Effect) :=
  then_update_selection select_whole.

(** *** MAPPING x->index *)

(** The loop of [x_to_index] from index [i], for at most [fuel] rounds. *)
Fixpoint x_to_index_from (e : MiniEntry) (x i : Z) (fuel : nat) : Z :=
  match fuel with
  | O => text_len e
  | S fuel' =>
    if decide (x < padding e + 2 + xOff (text e) i) then i
    else x_to_index_from e x (i + 1) fuel'
  end.

(** [x_to_index]: [i] runs from 0 to [text_len] inclusive. *)
Definition x_to_index (x : Z) : Act Z :=
  ensure_text_len;;
  e ← get;
  mret (x_to_index_from e x 0 (Z.to_nat (text_len e + 1))).

(** *** KEY HANDLING, continued *)

Definition do_backspace : Act unit :=
  ensure_text_len;;
  e ← get;
  if decide (sel_anchor e = sel_active e) then
    if decide (cursor e > 0) then
      undo_push;;
      e ← get;
      mem_delete (cursor e - 1) (cursor e);;
      modify (set_text_len (text_len e - 1));;
      modify (set_cursor (cursor e - 1));;
      ensure_cursor_visible xOff;;
      entry_draw
    else mret tt
  else
    undo_push;;
    delete_selection;;
    entry_draw.

Definition do_delete : Act unit :=
  ensure_text_len;;
  e ← get;
  if decide (sel_anchor e = sel_active e) then
    if decide (cursor e < text_len e) then
      undo_push;;
      e ← get;
      mem_delete (cursor e) (cursor e + 1);;
      modify (set_text_len (text_len e - 1));;
      ensure_cursor_visible xOff;;
      entry_draw
    else mret tt
  else
    undo_push;;
    delete_selection;;
    entry_draw.

(** The four navigation keys of [key_shortcuts]. *)
Definition key_left (shift : bool) : Act unit :=
  ensure_text_len;;
  e ← get;
  (if shift then
     if decide (cursor e > 0) then
       modify (set_cursor (cursor e - 1));;
       modify (set_sel_active (cursor e - 1))
     else mret tt
   else
     (if decide (cursor e > 0) then modify (set_cursor (cursor e - 1)) else mret tt);;
     e ← get;
     modify (set_sel_anchor (cursor e));;
     modify (set_sel_active (cursor e)));;
  ensure_cursor_visible xOff;;
  entry_draw.

Definition key_right (shift : bool) : Act unit :=
  ensure_text_len;;
  e ← get;
  (if shift then
     if decide (cursor e < text_len e) then
       modify (set_cursor (cursor e + 1));;
       modify (set_sel_active (cursor e + 1))
     else mret tt
   else
     (if decide (cursor e < text_len e) then modify (set_cursor (cursor e + 1))
      else mret tt);;
     e ← get;
     modify (set_sel_anchor (cursor e));;
     modify (set_sel_active (cursor e)));;
  ensure_cursor_visible xOff;;
  entry_draw.

Definition key_home (shift : bool) : Act unit :=
  ensure_text_len;;
  modify (set_cursor 0);;
  (if shift then modify (set_sel_active 0)
   else modify (set_sel_active 0);; modify (set_sel_anchor 0));;
  ensure_cursor_visible xOff;;
  entry_draw.

Definition key_end (shift : bool) : Act unit :=
  ensure_text_len;;
  e ← get;
  modify (set_cursor (text_len e));;
  (if shift then modify (set_sel_active (text_len e))
   else modify (set_sel_anchor (text_len e));; modify (set_sel_active (text_len e)));;
  ensure_cursor_visible xOff;;
  entry_draw.

(** *** Paste

    [paste_cb] is the address of [paste_callback], [self] the address of
    the entry, which [paste_request] passes as user data, and
    [xa_clipboard] the field [e->XA_CLIPBOARD], the atom [entry_create]
    interns for "CLIPBOARD". *)
Variable paste_cb : Z.
Variable self : Z.
Variable xa_clipboard : Atom.

(** The calls the clipboard module makes on its way: a callback that is
    [paste_callback] on this entry runs on the entry, everything else is
    passed on. *)
Fixpoint deliver (effs : list Effect) : Act unit :=
  match effs with
  | [] => mret tt
  | Callback cb t ud :: rest =>
    (if decide (cb = paste_cb /\ ud = self) then paste_callback xOff t
     else emit (Callback cb t ud));;
    deliver rest
  | x :: rest => emit x;; deliver rest
  end.

(** [paste_request]; [owner] is what the X server answers to
    [XGetSelectionOwner]. *)
Definition paste_request (which : Atom) (owner : Window) (e : MiniEntry)
    (ctx : option Clipboard.ClipboardContext)
  : option (MiniEntry * option Clipboard.ClipboardContext * list Effect) :=
  let ty := if decide (which = xa_clipboard) then SELECTION_CLIPBOARD
            else SELECTION_PRIMARY in
  let '(ctx', effs) :=
    Clipboard.clipboard_request_text ctx (win e) paste_cb self ty owner in
  match deliver effs e with
  | None => None
  | Some (_, e', w) => Some (e', ctx', w)
  end.


(** What [key_shortcuts] reads of the key event: the key symbol and the
    [n] bytes [XLookupString] returns, of which only [buf[0]] is used,
    and the two modifier bits. *)
Record KeyPress := {
  key_sym : Z;
  key_n : Z;
  key_buf0 : ascii;
  key_ctrl : bool;
  key_shift : bool
}.

(** An action that leaves the clipboard context alone. *)
Definition on_entry (m : Act unit) (e : MiniEntry)
    (ctx : option Clipboard.ClipboardContext)
  : option (MiniEntry * option Clipboard.ClipboardContext * list Effect) :=
  match m e with
  | None => None
  | Some (_, e', w) => Some (e', ctx, w)
  end.

Definition is_key (k : KeyPress) (lower upper : Z) : bool :=
  bool_decide (key_sym k = lower \/ key_sym k = upper).

(** [key_shortcuts]; [owner] answers the [XGetSelectionOwner] of a
    paste. *)
Definition key_shortcuts (k : KeyPress) (owner : Window) (e : MiniEntry)
    (ctx : option Clipboard.ClipboardContext)
  : option (MiniEntry * option Clipboard.ClipboardContext * list Effect) :=
  let ks := key_sym k in
  if decide (ks = XK.XK_Return \/ ks = XK.XK_KP_Enter) then
    Some (e, ctx, notify e)
  else if key_ctrl k && is_key k XK.XK_c XK.XK_C then copy_selection 0 e ctx
  else if key_ctrl k && is_key k XK.XK_x XK.XK_X then copy_selection 1 e ctx
  else if key_ctrl k && is_key k XK.XK_v XK.XK_V then paste_request xa_clipboard owner e ctx
  else if key_ctrl k && is_key k XK.XK_a XK.XK_A then on_entry (select_whole;; entry_draw) e ctx
  else if key_ctrl k && is_key k XK.XK_z XK.XK_Z
  then on_entry (do_undo;; ensure_cursor_visible xOff;; entry_draw) e ctx
  else if key_ctrl k && is_key k XK.XK_y XK.XK_Y
  then on_entry (do_redo;; ensure_cursor_visible xOff;; entry_draw) e ctx
  else if decide (ks = XK.XK_Left) then on_entry (key_left (key_shift k)) e ctx
  else if decide (ks = XK.XK_Right) then on_entry (key_right (key_shift k)) e ctx
  else if decide (ks = XK.XK_Home) then on_entry (key_home (key_shift k)) e ctx
  else if decide (ks = XK.XK_End) then on_entry (key_end (key_shift k)) e ctx
  else if decide (ks = XK.XK_BackSpace) then on_entry do_backspace e ctx
  else if decide (ks = XK.XK_Delete) then on_entry do_delete e ctx
  else if decide (key_n k = 1 /\ CType.code (key_buf0 k) >= 32 /\ CType.code (key_buf0 k) < 127)
  then on_entry (insert_char xOff (key_buf0 k)) e ctx
  else Some (e, ctx, []).

End WithFont.

End Editing.

(** ** Vocabulary of the further properties *)

Module ClipboardTerms.
Import Clipboard.

(** A table entry once its request is resolved: only [active] changes. *)
Definition resolved (r : PendingRequest) : PendingRequest :=
  {| window := window r; callback := callback r; user_data := user_data r;
     type := type r; property := property r; active := false |}.


(** The callbacks, the events sent and the properties written among the
    calls a function makes, in order. *)
Definition callbacks_of (effs : list Effect) : list (Z * option cstring * Z) :=
  omap (fun e => match e with Callback cb t ud => Some (cb, t, ud) | _ => None end) effs.

Definition answers_of (effs : list Effect) : list (Window * XSelectionEvent) :=
  omap (fun e => match e with XSendEvent w ev => Some (w, ev) | _ => None end) effs.

Definition writes_of (effs : list Effect) : list (Window * Atom * Atom * PropData) :=
  omap (fun e => match e with
                 | XChangeProperty w p ty _ d => Some (w, p, ty, d)
                 | _ => None end) effs.



End ClipboardTerms.

Module EditingTerms.
Import Entry Editing.

(** The damage rectangle [d] contains the rectangle [x, y, w, h]. *)
Definition covers (d : Damage) (x y w h : Z) : Prop :=
  dmg_x d <= x /\ dmg_y d <= y /\ x + w <= dmg_x d + dmg_w d /\ y + h <= dmg_y d + dmg_h d.

(** [validate_char] as a function of the kind of the entry and of
    whether hex digits are put in upper case. *)
Definition accepts (k : EntryKind) (up : bool) (ch : ascii) : option ascii :=
  match k with
  | ENTRY_TEXT =>
    if CType.isprint ch && negb (bool_decide (ch = "013"%char))
       && negb (bool_decide (ch = "010"%char))
    then Some ch else None
  | ENTRY_INT =>
    if CType.isdigit ch || bool_decide (ch = " "%char) || bool_decide (ch = ","%char)
    then Some ch else None
  | ENTRY_FLOAT =>
    if bool_decide (ch = "."%char) || bool_decide (ch = ","%char)
       || bool_decide (ch = " "%char)
    then Some ch
    else if CType.isdigit ch then Some ch else None
  | ENTRY_HEX =>
    if bool_decide (ch = "#"%char) then Some "#"%char
    else if CType.isxdigit ch
    then Some (if up then CType.toupper ch else CType.tolower ch)
    else None
  end.

(** The 256 values of a [char]. *)
Definition all_chars : list ascii := ascii_of_nat <$> seq 0 256.

(** An accepted character and what it is stored as are printable, the
    stored character is accepted as itself, and only a hex entry stores
    something else than what was typed. *)
Definition accepted_ok (k : EntryKind) (up : bool) (ch : ascii) : bool :=
  match accepts k up ch with
  | None => true
  | Some out =>
    CType.isprint ch && CType.isprint out &&
    bool_decide (accepts k up out = Some out) &&
    match k with ENTRY_HEX => true | _ => bool_decide (out = ch) end
  end.

(** The part of [buffer_ok] every key keeps: the cached length and the
    cursor. *)
Definition cursor_ok (e : MiniEntry) : Prop :=
  text_len e = Z.of_nat (length (text e)) /\ 0 <= cursor e <= text_len e.

(** The entry once [undo_push] has left [s] in the undo array. *)
Definition pushed (s : list (option cstring)) (e : MiniEntry) : MiniEntry :=
  set_redo_top 0 (set_undo_top (Z.min (undo_top e + 1) (undo_capacity e))
    (set_undo_stack s e)).

(** [e'] differs from [e] in the buffer at most: text, cached length,
    cursor, selection and scroll offset. *)
Definition same_frame (e e' : MiniEntry) : Prop :=
  theme e' = theme e /\ cfg e' = cfg e /\ win e' = win e /\
  padding e' = padding e /\ w e' = w e /\
  undo_stack e' = undo_stack e /\ undo_capacity e' = undo_capacity e /\
  undo_top e' = undo_top e /\
  redo_stack e' = redo_stack e /\ redo_capacity e' = redo_capacity e /\
  redo_top e' = redo_top e /\
  on_change e' = on_change e /\ user_data e' = user_data e.

(** What a navigation key does when it takes the cursor to [target]:
    the text and the history stay; without Shift the selection collapses
    onto the cursor, with Shift the anchor stays and the active end
    follows the cursor (Left and Right leave it alone when the cursor
    cannot move). *)
Definition cursor_moved (target : Z) (shift : bool) (e e' : MiniEntry) : Prop :=
  same_frame e e' /\ text e' = text e /\ text_len e' = text_len e /\
  cursor e' = target /\
  if shift
  then sel_anchor e' = sel_anchor e /\
       (sel_active e' = target \/ target = cursor e /\ sel_active e' = sel_active e)
  else sel_anchor e' = target /\ sel_active e' = target.

(** A key without Control that carries no character. *)
Definition plain_key (sym : Z) (shift : bool) : KeyPress :=
  {| key_sym := sym; key_n := 0; key_buf0 := "000"%char;
     key_ctrl := false; key_shift := shift |}.

(** The key that types the character [ch]. *)
Definition char_key (ch : ascii) : KeyPress :=
  {| key_sym := CType.code ch; key_n := 1; key_buf0 := ch;
     key_ctrl := false; key_shift := false |}.


(** The text entry holding "abc", cursor at the end, no history. *)
Definition abc_end : MiniEntry :=
  after (entry_set_text_no_draw (Some (str "abc"))) (fresh cfg_text).

(** The text entry holding "ab cd", cursor at the end, no history. *)
Definition two_words : MiniEntry :=
  after (entry_set_text_no_draw (Some (str "ab cd"))) (fresh cfg_text).


Section Keys.

Variable xOff : cstring -> Z -> Z.
Variable paste_cb self : Z.
Variable xa_clipboard : Atom.

(** Key presses in a row, as [entry_handle_event] passes them to
    [key_shortcuts] one after the other. *)
Fixpoint keys_run (ks : list KeyPress) (owner : Window) (e : MiniEntry)
    (ctx : option Clipboard.ClipboardContext)
  : option (MiniEntry * option Clipboard.ClipboardContext * list Effect) :=
  match ks with
  | [] => Some (e, ctx, [])
  | k :: rest =>
    match key_shortcuts xOff paste_cb self xa_clipboard k owner e ctx with
    | None => None
    | Some (e1, ctx1, w1) =>
      match keys_run rest owner e1 ctx1 with
      | None => None
      | Some (e2, ctx2, w2) => Some (e2, ctx2, w1 ++ w2)
      end
    end
  end.

End Keys.

End EditingTerms.

(** * Properties of the clipboard module *)

Module ClipboardProofs.
Import Clipboard.

Lemma get_data_for_type (c : ClipboardContext) (ty : SelectionType) :
  clipboard_atom c <> XA_PRIMARY ->
  exists slot, get_data_for_selection c (selection_atom c ty) = Some slot /\
               read_slot c slot = data_for c ty.
Proof.
  intros Hne. unfold get_data_for_selection, selection_atom.
  destruct ty.
  - exists ClipboardSlot. rewrite decide_True by reflexivity. done.
  - exists PrimarySlot. rewrite decide_False by congruence.
    rewrite decide_True by reflexivity. done.
Qed.

Lemma local_text_for_type (c : ClipboardContext) (ty : SelectionType) (owner : Window) :
  clipboard_atom c <> XA_PRIMARY ->
  local_text c (selection_atom c ty) owner =
    if decide (owner = owner_window (data_for c ty)) then text (data_for c ty) else None.
Proof.
  intros Hne. unfold local_text.
  destruct (get_data_for_type c ty Hne) as (slot & -> & ->). reflexivity.
Qed.

Lemma find_free_Some (rs : list PendingRequest) (i : nat) :
  find_free rs = Some i ->
  exists r, rs !! i = Some r /\ active r = false /\
            forall j y, rs !! j = Some y -> (j < i)%nat -> active y = true.
Proof.
  unfold find_free. intros H.
  destruct (list_find _ rs) as [[k r]|] eqn:E; simplify_eq/=.
  apply list_find_Some in E as (Hk & Hr & Hlt).
  exists r. split_and!; [done..|].
  intros j y Hj Hji. specialize (Hlt j y Hj Hji).
  destruct (active y); congruence.
Qed.

Lemma find_free_None (rs : list PendingRequest) :
  find_free rs = None <-> Forall (fun r => active r = true) rs.
Proof.
  unfold find_free. rewrite fmap_None, list_find_None.
  split; intros H; eapply Forall_impl; try exact H; simpl; intros r;
    destruct (active r); congruence.
Qed.

Lemma table_ok_create (a : InternedAtoms) :
  valid_atoms a -> table_ok (clipboard_create a).
Proof.
  intros (Hc & _ & _ & _ & _ & Hp & _). unfold table_ok; simpl.
  split_and!; [done..|].
  repeat (constructor; [intros H; discriminate H|]). constructor.
Qed.

Lemma table_ok_write_slot (c : ClipboardContext) (s : DataSlot) (d : ClipboardData) :
  table_ok c -> table_ok (write_slot c s d).
Proof. intros H; exact H. Qed.

Lemma table_ok_deactivate (c : ClipboardContext) (i : nat) :
  table_ok c -> table_ok (deactivate c i).
Proof.
  intros (Hlen & Hp & Hc & Hall). unfold table_ok, deactivate; simpl.
  split_and!; [by rewrite length_alter | done.. |].
  apply Forall_alter; [exact Hall|].
  intros r _ _ H; discriminate H.
Qed.

Lemma table_ok_notify (c : ClipboardContext) (sev : XSelectionEvent) (r1 r2 : PropReply) :
  table_ok c -> table_ok (handle_selection_notify c sev r1 r2).1.
Proof.
  intros H. unfold handle_selection_notify.
  destruct (find_request _ _ _) as [[i req]|]; [|exact H].
  repeat case_decide; simpl; by apply table_ok_deactivate.
Qed.

Lemma table_ok_step (c : ClipboardContext) (op : Op) :
  table_ok c -> exists c', (step (Some c) op).1 = Some c' /\ table_ok c'.
Proof.
  intros H. destruct op as [win txt ty|win cb ud ty owner|ev r1 r2]; simpl.
  - destruct (get_data_for_selection _ _); [|by eauto].
    destruct txt; simpl; eauto using table_ok_write_slot.
  - case_decide; [by eauto|]. case_decide; [by eauto|].
    destruct (local_text _ _ _); [by eauto|].
    destruct (find_free _) as [i|] eqn:Hfree; [|by eauto].
    simpl. eexists; split; [reflexivity|].
    destruct H as (Hlen & Hp & Hc & Hall). unfold table_ok; simpl.
    split_and!; [by rewrite length_insert | done.. |].
    apply Forall_insert; [exact Hall|]. intros _; simpl. done.
  - destruct ev as [req|sev|sel|]; simpl; eauto.
    + pose proof (table_ok_notify c sev r1 r2 H) as H'.
      destruct (handle_selection_notify c sev r1 r2) as [c' effs]; simpl in *. eauto.
    + eexists; split; [reflexivity|]. unfold handle_selection_clear.
      destruct (get_data_for_selection _ _); [by apply table_ok_write_slot|done].
Qed.

Lemma table_ok_run (ops : list Op) (c : ClipboardContext) :
  table_ok c -> exists c', (run ops (Some c)).1 = Some c' /\ table_ok c'.
Proof.
  revert c. induction ops as [|op ops IH]; intros c H; simpl; [by eauto|].
  destruct (table_ok_step c op H) as (c1 & Hstep & H1).
  destruct (step (Some c) op) as [ctx1 e1]; simpl in Hstep; subst ctx1.
  destruct (IH c1 H1) as (c2 & Hrun & H2).
  destruct (run ops (Some c1)) as [ctx2 e2]; simpl in *. eauto.
Qed.

Lemma reachable_table_ok (c : ClipboardContext) : reachable c -> table_ok c.
Proof.
  intros (a & ops & Ha & Hrun).
  destruct (table_ok_run ops _ (table_ok_create a Ha)) as (c' & Hc' & H).
  congruence.
Qed.

Lemma run_snoc (ops : list Op) (op : Op) (ctx : option ClipboardContext) :
  (run (ops ++ [op]) ctx).1 = (step (run ops ctx).1 op).1.
Proof.
  revert ctx. induction ops as [|o ops IH]; intros ctx; simpl.
  - by destruct (step ctx op).
  - destruct (step ctx o) as [ctx1 e1]. specialize (IH ctx1).
    destruct (run (ops ++ [op]) ctx1), (run ops ctx1). exact IH.
Qed.

(** A denial names no property, and no active entry of a reachable table
    is filed under "no property". *)
Lemma find_request_none (c : ClipboardContext) (win : Window) :
  table_ok c -> find_request c win XNone = None.
Proof.
  intros (_ & Hp & _ & Hall). unfold find_request. apply list_find_None.
  eapply Forall_impl; [exact Hall|]. intros r Hr (Hact & _ & Hprop).
  destruct (Hr Hact) as [_ Heq]. unfold XNone in *. lia.
Qed.

Lemma valid_atoms0 : valid_atoms atoms0.
Proof.
  unfold valid_atoms, atoms0; simpl. split_and!; try lia.
  change (NoDup ([300; 301; 302; 303; 304; 305] : list Z)).
  compute_done.
Defined.

Lemma session_reachable (ops : list Op) : reachable (session ops).
Proof.
  exists atoms0, ops. split; [exact valid_atoms0|].
  unfold session.
  destruct (table_ok_run ops _ (table_ok_create _ valid_atoms0)) as (c & -> & _).
  reflexivity.
Defined.

(** ** C4: the two synchronous paths of a paste request *)

(** C4. A paste request with a callback, on a context whose CLIPBOARD atom
    is not the predefined PRIMARY atom: when the X server reports no owner
    for the selection, the call invokes the callback once with no data and
    returns the context unchanged; when the owner is the window recorded
    for that slot and the slot holds text, the call invokes the callback
    once with that text and returns the context unchanged. In both cases
    the callback is the only effect: no entry of the table is written and
    no conversion request is sent. *)
Theorem request_text_fast_paths (c : ClipboardContext) (win : Window) (cb ud : Z)
    (ty : SelectionType) (owner : Window) :
  cb <> 0 ->
  clipboard_atom c <> XA_PRIMARY ->
  (owner = XNone ->
   clipboard_request_text (Some c) win cb ud ty owner = (Some c, [Callback cb None ud]))
  /\
  (forall t, owner <> XNone ->
     owner = owner_window (data_for c ty) ->
     text (data_for c ty) = Some t ->
     clipboard_request_text (Some c) win cb ud ty owner
       = (Some c, [Callback cb (Some t) ud])).
Proof.
  intros Hcb Hne. unfold clipboard_request_text.
  rewrite (decide_False (P := cb = 0)) by done. split.
  - intros ->. by rewrite decide_True.
  - intros t Hown Heq Ht. rewrite (decide_False (P := owner = XNone)) by done.
    rewrite local_text_for_type by done.
    rewrite decide_True by done. by rewrite Ht.
Qed.

Lemma request_text_fast_paths_witness :
  clipboard_request_text (Some owning_bcd) 8 1 100 SELECTION_CLIPBOARD XNone
    = (Some owning_bcd, [Callback 1 None 100]) /\
  clipboard_request_text (Some owning_bcd) 8 1 100 SELECTION_CLIPBOARD 7
    = (Some owning_bcd, [Callback 1 (Some bcd) 100]).
Proof.
  split.
  - apply (request_text_fast_paths owning_bcd 8 1 100 SELECTION_CLIPBOARD XNone);
      [lia | vm_compute; lia | reflexivity].
  - apply (request_text_fast_paths owning_bcd 8 1 100 SELECTION_CLIPBOARD 7);
      [lia | vm_compute; lia | vm_compute; lia | reflexivity | reflexivity].
Defined.

(** ** C6: a paste request on a full table *)

(** C6. When the table has its eight entries and all of them are active, a
    paste request with a callback that takes neither synchronous path (the
    selection has an owner, and the owner is not a window of this context
    holding text for the slot) logs the overflow, invokes the callback
    once with no data and returns the context, hence every entry of the
    table, unchanged. *)
Theorem request_text_table_full (c : ClipboardContext) (win : Window) (cb ud : Z)
    (ty : SelectionType) (owner : Window) :
  cb <> 0 ->
  owner <> XNone ->
  local_text c (selection_atom c ty) owner = None ->
  length (requests c) = MAX_PENDING_REQUESTS ->
  Forall (fun r => active r = true) (requests c) ->
  clipboard_request_text (Some c) win cb ud ty owner
    = (Some c, [Stderr "clipboard: too many pending requests"; Callback cb None ud]).
Proof.
  intros Hcb Hown Hloc _ Hfull. unfold clipboard_request_text.
  rewrite (decide_False (P := cb = 0)) by done.
  rewrite (decide_False (P := owner = XNone)) by done.
  rewrite Hloc.
  apply find_free_None in Hfull. by rewrite Hfull.
Qed.

Lemma request_text_table_full_witness :
  clipboard_request_text (Some full_table) 12 2 200 SELECTION_PRIMARY 9
    = (Some full_table,
       [Stderr "clipboard: too many pending requests"; Callback 2 None 200]).
Proof.
  apply request_text_table_full.
  - lia.
  - unfold XNone; lia.
  - reflexivity.
  - reflexivity.
  - compute_done.
Defined.

(** *** Callbacks against requests

    Over a whole session, the calls of a callback and the entries still
    waiting for it add up to the requests that named it. *)

Lemma tally_cons {A} (p : A -> bool) (x : A) (l : list A) :
  tally p (x :: l) = ((if p x then 1 else 0) + tally p l)%nat.
Proof. unfold tally. rewrite filter_cons. by destruct (p x). Qed.

Lemma tally_app {A} (p : A -> bool) (l1 l2 : list A) :
  tally p (l1 ++ l2) = (tally p l1 + tally p l2)%nat.
Proof. unfold tally. by rewrite filter_app, length_app. Qed.

Lemma tally_insert {A} (p : A -> bool) (l : list A) (i : nat) (x y : A) :
  l !! i = Some x ->
  (tally p (<[i:=y]> l) + (if p x then 1 else 0)
   = tally p l + (if p y then 1 else 0))%nat.
Proof.
  revert i. induction l as [|z l IH]; intros [|i] H; simplify_eq/=.
  - rewrite !tally_cons. lia.
  - rewrite !tally_cons. specialize (IH i H). lia.
Qed.

Lemma alter_as_insert {A} (f : A -> A) (l : list A) (i : nat) (x : A) :
  l !! i = Some x -> alter f i l = <[i:=f x]> l.
Proof.
  revert i. induction l as [|z l IH]; intros [|i] H; simplify_eq/=; [done|].
  f_equal. by apply IH.
Qed.

Lemma calls_as_tally cb ud effs : calls cb ud effs = tally (is_call cb ud) effs.
Proof. reflexivity. Qed.

Lemma pending_as_tally cb ud c : pending cb ud c = tally (waits_for cb ud) (requests c).
Proof. reflexivity. Qed.

Lemma notify_accounts (c : ClipboardContext) (sev : XSelectionEvent) (r1 r2 : PropReply)
    (cb ud : Z) :
  (calls cb ud (handle_selection_notify c sev r1 r2).2
   + pending cb ud (handle_selection_notify c sev r1 r2).1
   = pending cb ud c)%nat.
Proof.
  unfold handle_selection_notify.
  destruct (find_request _ _ _) as [[i req]|] eqn:Hfind; [|reflexivity].
  apply list_find_Some in Hfind as (Hi & (Hact & _) & _).
  assert (forall t effs1 effs2,
            tally (is_call cb ud) effs1 = 0%nat ->
            tally (is_call cb ud) effs2 = 0%nat ->
            (calls cb ud (effs1 ++ Callback (callback req) t (user_data req) :: effs2)
             + pending cb ud (deactivate c i) = pending cb ud c)%nat) as Hgen.
  { intros t effs1 effs2 H1 H2.
    rewrite calls_as_tally, !pending_as_tally, tally_app, tally_cons, H1, H2.
    unfold deactivate; simpl. rewrite (alter_as_insert _ _ _ _ Hi).
    pose proof (tally_insert (waits_for cb ud) (requests c) i req
                  {| window := window req; callback := callback req;
                     user_data := user_data req; type := type req;
                     property := property req; active := false |} Hi) as Hins.
    unfold waits_for in *. simpl in *. rewrite Hact in Hins. simpl in Hins.
    destruct (bool_decide _); simpl in *; lia. }
  repeat case_decide; simpl.
  all: first
    [ by apply (Hgen None [] [])
    | by apply (Hgen None [_; _] [])
    | by apply (Hgen _ [] [_]) ].
Qed.

Lemma step_accounts (c : ClipboardContext) (op : Op) (cb ud : Z) :
  cb <> 0 ->
  exists c' effs,
    step (Some c) op = (Some c', effs) /\
    (calls cb ud effs + pending cb ud c'
     = pending cb ud c + one_if (is_request cb ud op))%nat.
Proof.
  intros Hcb. destruct op as [win txt ty|win cb' ud' ty owner|ev r1 r2]; simpl.
  - destruct (get_data_for_selection _ _); [|eexists _, _; split; [done|simpl; lia]].
    destruct txt; eexists _, _; (split; [done|]);
      unfold calls, pending; simpl; lia.
  - destruct (decide (cb' = 0)) as [Hz|Hz].
    { eexists _, _. split; [done|]. subst cb'.
      rewrite bool_decide_eq_false_2 by (intros [? _]; congruence). simpl. lia. }
    assert (forall t, calls cb ud [Callback cb' t ud']
                      = one_if (bool_decide (cb' = cb /\ ud' = ud))) as Hone.
    { intros t. rewrite calls_as_tally, tally_cons. simpl.
      unfold tally; simpl. destruct (bool_decide _); simpl; lia. }
    destruct (decide (owner = XNone));
      [eexists _, _; split; [done|]; rewrite Hone; lia|].
    destruct (local_text _ _ _); [eexists _, _; split; [done|]; rewrite Hone; lia|].
    destruct (find_free _) as [i|] eqn:Hfree.
    + eexists _, _. split; [done|].
      destruct (find_free_Some _ _ Hfree) as (r & Hi & Hr & _).
      rewrite calls_as_tally, !pending_as_tally; simpl.
      pose proof (tally_insert (waits_for cb ud) (requests c) i r
        {| window := win; callback := cb'; user_data := ud'; type := ty;
           property := property_atom c; active := true |} Hi) as Hins.
      assert (waits_for cb ud r = false) as Hold
        by (unfold waits_for; by rewrite Hr).
      rewrite Hold in Hins.
      change (waits_for cb ud _) with (bool_decide (cb' = cb /\ ud' = ud)) in Hins.
      change (tally (is_call cb ud) _) with 0%nat.
      unfold one_if. destruct (bool_decide _); lia.
    + eexists _, _. split; [done|].
      change (calls cb ud [Stderr _; Callback cb' None ud'])
        with (calls cb ud [Callback cb' None ud']).
      rewrite Hone. lia.
  - destruct ev as [req|sev|sel|]; simpl.
    + eexists _, _. split; [done|]. simpl.
      assert (calls cb ud (handle_selection_request c req) = 0%nat) as ->; [|lia].
      unfold handle_selection_request, send_selection_notify.
      destruct (get_data_for_selection _ _); [|done].
      destruct (text _); [|done].
      repeat case_decide; done.
    + pose proof (notify_accounts c sev r1 r2 cb ud) as H.
      destruct (handle_selection_notify c sev r1 r2) as [c' effs]; simpl in *.
      eexists _, _. split; [done|]. lia.
    + eexists _, _. split; [done|]. simpl.
      unfold handle_selection_clear.
      destruct (get_data_for_selection _ _); simpl; unfold calls, pending; simpl; lia.
    + eexists _, _. split; [done|]. simpl. unfold calls; simpl. lia.
Qed.

Lemma run_accounts (ops : list Op) (c : ClipboardContext) (cb ud : Z) :
  cb <> 0 ->
  exists c' effs,
    run ops (Some c) = (Some c', effs) /\
    (calls cb ud effs + pending cb ud c' = pending cb ud c + issued cb ud ops)%nat.
Proof.
  intros Hcb. revert c. induction ops as [|op ops IH]; intros c; simpl.
  - eexists _, _. split; [done|]. unfold calls, issued; simpl. lia.
  - destruct (step_accounts c op cb ud Hcb) as (c1 & e1 & Hstep & H1).
    destruct (IH c1) as (c2 & e2 & Hrun & H2).
    rewrite Hstep, Hrun. eexists _, _. split; [done|].
    rewrite calls_as_tally, tally_app, <- !calls_as_tally.
    assert (issued cb ud (op :: ops) = (one_if (is_request cb ud op) + issued cb ud ops)%nat)
      as ->.
    { unfold issued. rewrite filter_cons. by destruct (is_request cb ud op). }
    lia.
Qed.

Lemma destroy_accounts (c : ClipboardContext) (cb ud : Z) :
  table_ok c ->
  calls cb ud (clipboard_destroy (Some c)) = pending cb ud c.
Proof.
  intros (_ & _ & _ & Hall). unfold clipboard_destroy.
  rewrite calls_as_tally, pending_as_tally.
  induction Hall as [|r rs Hr _ IH]; [done|].
  rewrite (tally_cons (waits_for cb ud)), <- IH. clear IH.
  unfold waits_for. cbn [omap list_omap].
  destruct (active r) eqn:Hact; [|done].
  destruct (Hr Hact) as [Hcb _]. rewrite decide_False by done.
  by rewrite tally_cons.
Qed.

(** X1. Over any session on a fresh context with atoms as the X server
    interns them, the calls of a non-NULL callback and the entries still
    waiting for it add up to the requests that named it: every request
    is answered at most once while the session runs, and exactly once by
    the time the context is destroyed. *)
Lemma callbacks_match_requests (a : InternedAtoms) (ops : list Op) (cb ud : Z) :
  valid_atoms a -> cb <> 0 ->
  exists c effs,
    run ops (Some (clipboard_create a)) = (Some c, effs) /\
    (calls cb ud effs + pending cb ud c = issued cb ud ops)%nat /\
    calls cb ud (effs ++ clipboard_destroy (Some c)) = issued cb ud ops.
Proof.
  intros Ha Hcb.
  destruct (run_accounts ops (clipboard_create a) cb ud Hcb) as (c & effs & Hrun & Hacc).
  exists c, effs. split; [done|].
  assert (pending cb ud (clipboard_create a) = 0%nat) as Hzero by reflexivity.
  split; [lia|].
  rewrite calls_as_tally, tally_app, <- !calls_as_tally.
  rewrite destroy_accounts; [lia|].
  destruct (table_ok_run ops _ (table_ok_create a Ha)) as (c' & Hc' & Hok).
  rewrite Hrun in Hc'. simpl in Hc'. by simplify_eq.
Qed.

(** ** C1: what the table holds for one window *)

(** C1, as stated, fails: after two paste requests from window 7 with no
    answer in between, entries 0 and 1 are both active for window 7 and
    the one transfer property. *)
Lemma pending_not_unique : reachable two_pastes /\ ~ unique_pending two_pastes.
Proof.
  split; [apply session_reachable|].
  intros H.
  specialize (H 0%nat 1%nat _ _ eq_refl eq_refl eq_refl eq_refl eq_refl eq_refl).
  discriminate H.
Qed.

(** C1, amended. In every reachable context the table has eight entries
    and every active entry names the one transfer property of the
    context. A paste request with a callback that takes the asynchronous
    path while some entry is inactive sends one conversion request,
    activates the first inactive entry for its window and that property,
    and leaves every other entry as it was, whether or not one of them is
    already active for the same window: the table holds one active entry
    per outstanding request, not per (window, property) pair. *)
Theorem request_text_takes_first_free (c : ClipboardContext) (win : Window) (cb ud : Z)
    (ty : SelectionType) (owner : Window) (i : nat) :
  reachable c ->
  cb <> 0 ->
  owner <> XNone ->
  local_text c (selection_atom c ty) owner = None ->
  find_free (requests c) = Some i ->
  length (requests c) = MAX_PENDING_REQUESTS /\
  (forall r, r ∈ requests c -> active r = true -> property r = property_atom c) /\
  exists c',
    clipboard_request_text (Some c) win cb ud ty owner
      = (Some c', [XConvertSelection (selection_atom c ty) (utf8_atom c)
                     (property_atom c) win; XFlush]) /\
    (exists r, requests c !! i = Some r /\ active r = false) /\
    (forall j r, (j < i)%nat -> requests c !! j = Some r -> active r = true) /\
    requests c' !! i =
      Some {| window := win; callback := cb; user_data := ud; type := ty;
              property := property_atom c; active := true |} /\
    (forall j, j <> i -> requests c' !! j = requests c !! j) /\
    reachable c'.
Proof.
  intros Hreach Hcb Hown Hloc Hfree.
  pose proof (reachable_table_ok c Hreach) as (Hlen & _ & _ & Hall).
  split; [exact Hlen|]. split.
  { intros r Hr Hact. rewrite Forall_forall in Hall. by destruct (Hall r Hr Hact). }
  destruct (find_free_Some _ _ Hfree) as (r & Hi & Hr & Hbelow).
  eexists. split.
  { unfold clipboard_request_text.
    rewrite (decide_False (P := cb = 0)) by done.
    rewrite (decide_False (P := owner = XNone)) by done.
    rewrite Hloc, Hfree. reflexivity. }
  split; [by eauto|]. split; [by eauto|]. simpl. split.
  { apply list_lookup_insert_eq. by eapply lookup_lt_Some. }
  split.
  { intros j Hj. by apply list_lookup_insert_ne. }
  destruct Hreach as (a & ops & Ha & Hrun).
  exists a, (ops ++ [OpRequestText win cb ud ty owner]). split; [exact Ha|].
  rewrite run_snoc, Hrun. unfold step, clipboard_request_text.
  rewrite (decide_False (P := cb = 0)) by done.
  rewrite (decide_False (P := owner = XNone)) by done.
  rewrite Hloc, Hfree. reflexivity.
Qed.

Lemma request_text_takes_first_free_witness :
  exists c',
    clipboard_request_text (Some (session [paste7])) 7 1 100 SELECTION_CLIPBOARD 9
      = (Some c', [XConvertSelection 300 301 305 7; XFlush]) /\
    requests c' !! 1%nat =
      Some {| window := 7; callback := 1; user_data := 100; type := SELECTION_CLIPBOARD;
              property := 305; active := true |} /\
    requests c' !! 0%nat = requests (session [paste7]) !! 0%nat.
Proof.
  destruct (request_text_takes_first_free (session [paste7]) 7 1 100
              SELECTION_CLIPBOARD 9 1%nat) as (_ & _ & c' & Hcall & _ & _ & Hnew & Hold & _).
  - apply session_reachable.
  - lia.
  - unfold XNone; lia.
  - reflexivity.
  - reflexivity.
  - exists c'. split; [exact Hcall|]. split; [exact Hnew|]. apply Hold. lia.
Defined.

(** ** C3: resolution of a pending request *)

(** C3 fails on the denial path. The answer to a refused conversion is a
    SelectionNotify event whose property is [None]; [find_request] is
    asked for an active entry filed under that property, and in a
    reachable context every active entry is filed under the transfer
    property of the context, which is a real atom. So the event finds no
    entry: no callback is invoked and the context is returned unchanged,
    the refused request still active in it. *)
Theorem denial_resolves_nothing (c : ClipboardContext) (sev : XSelectionEvent)
    (r1 r2 : PropReply) :
  reachable c ->
  sev_property sev = XNone ->
  handle_selection_notify c sev r1 r2 = (c, []).
Proof.
  intros Hreach Hprop. unfold handle_selection_notify.
  rewrite Hprop. by rewrite find_request_none by by apply reachable_table_ok.
Qed.

Lemma denial_resolves_nothing_witness :
  handle_selection_notify (session [paste7]) denial7 no_reply no_reply
    = (session [paste7], []) /\
  pending 1 100 (session [paste7]) = 1%nat.
Proof.
  split.
  - apply denial_resolves_nothing; [apply session_reachable | reflexivity].
  - reflexivity.
Defined.

End ClipboardProofs.

(** * Properties of the editing engine *)

Module EntryProofs.
Import Entry.

Ltac act_unfold :=
  unfold mbind, mret, Act_bind, Act_ret, get, modify, emit, check, lift, undefined,
    ensure_text.

(** *** The model at work *)

Example hex_digit_is_uppercased :
  validate_char (fresh cfg_hex) "f" = Some "F"%char /\
  validate_char (fresh cfg_hex) "#" = Some "#"%char /\
  validate_char (fresh cfg_hex) "g" = None.
Proof. by split_and!. Qed.

Example typing_into_integer_entry :
  exists e' w,
    insert_char xOff8 "5"
      (after (entry_set_text_no_draw (Some (str "25"))) (fresh cfg_int3)) = Some (tt, e', w) /\
    text e' = str "255" /\ cursor e' = 3 /\ live_undo e' = [Some (str "25")].
Proof. eexists _, _. split; [vm_compute; reflexivity|]. by split_and!. Qed.

(** Copy of "bcd" out of "abcdef", then a paste request of another
    window of the process: answered at once with "bcd". *)
Example copy_then_paste_in_process :
  exists c effs,
    copy_selection 0 abcdef_bcd (Some (Clipboard.clipboard_create Clipboard.atoms0))
      = Some (abcdef_bcd, Some c, effs) /\
    Clipboard.clipboard_request_text (Some c) 8 1 100 SELECTION_CLIPBOARD 7
      = (Some c, [Callback 1 (Some (str "bcd")) 100]).
Proof. eexists _, _. split; [vm_compute; reflexivity|]. reflexivity. Qed.

Example paste_filters_and_stops_at_max_length :
  exists e' w,
    paste_callback xOff8 (Some (str "1a2b3c4"))
      (after (entry_set_text_no_draw (Some (str "9"))) (fresh cfg_int3)) = Some (tt, e', w) /\
    text e' = str "912".
Proof. eexists _, _. split; [vm_compute; reflexivity|]. reflexivity. Qed.

(** Undo, then type: the redo stack is gone. *)
Example redo_after_insert_is_noop :
  exists e1 w1 e2 w2,
    (push_snapshot (str "a");; entry_set_text_no_draw (Some (str "ab"));; do_undo)
      (fresh cfg_text) = Some (tt, e1, w1) /\
    text e1 = str "a" /\ live_redo e1 = [Some (str "ab")] /\
    insert_char xOff8 "x" e1 = Some (tt, e2, w2) /\
    text e2 = str "ax" /\ do_redo e2 = Some (tt, e2, []).
Proof.
  eexists _, _, _, _. split; [vm_compute; reflexivity|].
  split; [reflexivity|]. split; [reflexivity|].
  split; [vm_compute; reflexivity|]. split; reflexivity.
Qed.

(** *** The monad *)

Lemma bind_unit {B} (m : Act unit) (k : unit -> Act B) (e e1 : MiniEntry) :
  m e = Some (tt, e1, []) -> (m ≫= k) e = k tt e1.
Proof.
  intros H. unfold mbind, Act_bind. rewrite H.
  by destruct (k tt e1) as [[[b e2] w2]|].
Qed.

Lemma bind_get {B} (k : MiniEntry -> Act B) (e : MiniEntry) : (get ≫= k) e = k e e.
Proof.
  unfold mbind, Act_bind, get. by destruct (k e e) as [[[b e2] w2]|].
Qed.

Lemma modify_spec (f : MiniEntry -> MiniEntry) (e : MiniEntry) :
  modify f e = Some (tt, f e, []).
Proof. reflexivity. Qed.

(** *** Lists *)

Lemma lastn_short {A} (n : nat) (l : list A) : (length l <= n)%nat -> lastn n l = l.
Proof. intros H. unfold lastn. replace (length l - n)%nat with 0%nat by lia. done. Qed.

Lemma lastn_snoc_full {A} (n : nat) (l : list A) (x : A) :
  length l = n -> (1 <= n)%nat -> lastn n (l ++ [x]) = drop 1 l ++ [x].
Proof.
  intros H Hn. unfold lastn. rewrite length_app; simpl.
  replace (length l + 1 - n)%nat with 1%nat by lia.
  destruct l; simpl in *; [lia|done].
Qed.

Lemma lastn_lastn_app {A} (n : nat) (l1 l2 : list A) :
  lastn n (lastn n l1 ++ l2) = lastn n (l1 ++ l2).
Proof.
  unfold lastn. rewrite !length_app, length_drop.
  rewrite <- (drop_app_le l1 l2 (length l1 - n)) by lia.
  rewrite drop_drop. f_equal. lia.
Qed.

Lemma top_slot (stack : list (option cstring)) (top : Z) :
  0 < top -> top <= Z.of_nat (length stack) ->
  all_strings (take (Z.to_nat top) stack) ->
  exists t, stack !! Z.to_nat (top - 1) = Some (Some t).
Proof.
  intros H0 Hlen Hall.
  destruct (lookup_lt_is_Some_2 stack (Z.to_nat (top - 1))) as [p Hp]; [lia|].
  assert (take (Z.to_nat top) stack !! Z.to_nat (top - 1) = Some p) as Hp'.
  { rewrite lookup_take_lt by lia. exact Hp. }
  unfold all_strings in Hall. rewrite Forall_lookup in Hall.
  specialize (Hall _ _ Hp'). destruct p as [t|]; [by eauto|done].
Qed.

Lemma all_strings_snoc (l : list (option cstring)) (t : cstring) :
  all_strings l -> all_strings (l ++ [Some t]).
Proof. intros H. apply Forall_app. split; [done|]. by constructor. Qed.

Lemma take_snoc_insert (stack : list (option cstring)) (top : Z) (p : option cstring) :
  0 <= top < Z.of_nat (length stack) ->
  take (Z.to_nat (top + 1)) (<[Z.to_nat top := p]> stack)
    = take (Z.to_nat top) stack ++ [p].
Proof.
  intros H.
  replace (Z.to_nat (top + 1)) with (S (Z.to_nat top)) by lia.
  erewrite take_S_r by (apply list_lookup_insert_eq; lia).
  by rewrite take_insert_ge by lia.
Qed.

Lemma take_pred_prefix (stack : list (option cstring)) (top : Z) :
  0 < top ->
  all_strings (take (Z.to_nat top) stack) ->
  all_strings (take (Z.to_nat (top - 1)) stack).
Proof.
  intros H Hall.
  replace (Z.to_nat (top - 1)) with (Z.to_nat (top - 1) `min` Z.to_nat top)%nat by lia.
  rewrite <- take_take. by apply Forall_take.
Qed.

(** *** What each function computes *)

Lemma set_scroll_x_id (e : MiniEntry) : set_scroll_x (scroll_x e) e = e.
Proof. by destruct e. Qed.

Lemma set_text_len_id (e : MiniEntry) (n : Z) : text_len e = n -> set_text_len n e = e.
Proof. destruct e; simpl. by intros ->. Qed.

Lemma ensure_text_len_ok (e : MiniEntry) :
  text_len e = Z.of_nat (length (text e)) -> ensure_text_len e = Some (tt, e, []).
Proof.
  intros H. unfold ensure_text_len. act_unfold. simpl.
  by rewrite set_text_len_id.
Qed.

Lemma mem_insert_spec (pos : Z) (bytes : cstring) (e : MiniEntry) :
  0 <= pos /\ pos <= text_len e /\ text_len e = Z.of_nat (length (text e)) ->
  mem_insert pos bytes e
    = Some (tt, set_text (take (Z.to_nat pos) (text e) ++ bytes ++ drop (Z.to_nat pos) (text e)) e,
            []).
Proof.
  intros H. unfold mem_insert. rewrite bind_get.
  unfold check. by rewrite decide_True.
Qed.

Lemma entry_set_text_no_draw_spec (t : option cstring) (e : MiniEntry) :
  entry_set_text_no_draw t e = Some (tt, set_whole_text (default [] t) e, []).
Proof. reflexivity. Qed.

Lemma undo_push_spec (e : MiniEntry) :
  arrays_ok e ->
  0 <= undo_top e <= undo_capacity e ->
  redo_top e <= undo_capacity e ->
  exists s,
    undo_push e = Some (tt,
      set_redo_top 0 (set_undo_top (Z.min (undo_top e + 1) (undo_capacity e))
        (set_undo_stack s e)), []) /\
    length s = length (undo_stack e) /\
    take (Z.to_nat (Z.min (undo_top e + 1) (undo_capacity e))) s
      = lastn (Z.to_nat (undo_capacity e)) (live_undo e ++ [Some (text e)]).
Proof.
  intros (Hcap & Hlu & Hlr) Htop Hredo.
  unfold undo_push. act_unfold. simpl.
  destruct (decide (undo_top e >= undo_capacity e)) as [Hfull|Hroom]; simpl.
  - assert (undo_top e = undo_capacity e) as Heq by lia.
    destruct (lookup_lt_is_Some_2 (undo_stack e) 0) as [p0 Hp0]; [lia|].
    unfold array_read. rewrite decide_True by lia.
    change (Z.to_nat 0) with 0%nat. rewrite Hp0. simpl.
    unfold array_shift_down. rewrite decide_True by lia. simpl.
    unfold array_write. rewrite decide_True.
    2:{ rewrite length_app, length_take, !length_drop. lia. }
    simpl. rewrite decide_True by lia. simpl.
    rewrite Z.min_r by lia.
    replace (undo_capacity e - 1 + 1) with (undo_capacity e) by lia.
    match goal with |- context [set_undo_top _ (set_undo_stack ?s (set_undo_top _ _))] =>
      exists s end.
    split; [reflexivity|].
    split.
    { rewrite length_insert, length_app, length_take, !length_drop. lia. }
    set (n := Z.to_nat (undo_capacity e)).
    assert (length (undo_stack e) = n) as Hn by lia.
    assert (1 <= n)%nat as Hn1 by lia.
    unfold live_undo. fold n.
    rewrite (take_ge (undo_stack e)) by lia.
    rewrite lastn_snoc_full by done.
    replace (Z.to_nat (undo_capacity e - 1)) with (n - 1)%nat by lia.
    rewrite (take_ge (drop 1 _)) by (rewrite length_drop; lia).
    rewrite insert_app_r_alt by (rewrite length_drop; lia).
    rewrite length_drop. replace (n - 1 - (length (undo_stack e) - 1))%nat with 0%nat by lia.
    rewrite take_ge.
    2:{ rewrite length_app, length_insert, !length_drop. lia. }
    f_equal.
    destruct (drop (n - 1) (undo_stack e)) as [|x [|y l]] eqn:Hd; simpl.
    + apply (f_equal length) in Hd. rewrite length_drop in Hd. simpl in Hd. lia.
    + done.
    + apply (f_equal length) in Hd. rewrite length_drop in Hd. simpl in Hd. lia.
  - unfold array_write. rewrite decide_True by lia. simpl.
    rewrite decide_True by lia. simpl.
    rewrite Z.min_l by lia.
    match goal with |- context [set_undo_top _ (set_undo_stack ?s _)] => exists s end.
    split; [reflexivity|].
    split; [by rewrite length_insert|].
    unfold live_undo.
    rewrite lastn_short.
    2:{ rewrite length_app, length_take; simpl. lia. }
    replace (Z.to_nat (undo_top e + 1)) with (S (Z.to_nat (undo_top e))) by lia.
    erewrite take_S_r.
    2:{ apply list_lookup_insert_eq. lia. }
    by rewrite take_insert_ge by lia.
Qed.

Lemma do_undo_empty (e : MiniEntry) : undo_top e = 0 -> do_undo e = Some (tt, e, []).
Proof.
  intros H. unfold do_undo. act_unfold. simpl.
  by rewrite decide_True.
Qed.

Lemma do_redo_empty (e : MiniEntry) : redo_top e = 0 -> do_redo e = Some (tt, e, []).
Proof.
  intros H. unfold do_redo. act_unfold. simpl.
  by rewrite decide_True.
Qed.

Lemma do_undo_spec (e : MiniEntry) (t : cstring) :
  undo_top e <> 0 ->
  0 <= redo_top e < Z.of_nat (length (redo_stack e)) ->
  0 <= undo_top e - 1 ->
  undo_stack e !! Z.to_nat (undo_top e - 1) = Some (Some t) ->
  do_undo e = Some (tt,
    restore_text t
      (set_undo_top (undo_top e - 1) (set_redo_top (redo_top e + 1)
        (set_redo_stack (<[Z.to_nat (redo_top e) := Some (text e)]> (redo_stack e)) e))),
    notify e).
Proof.
  intros Hne Hredo Htop Hlook.
  unfold do_undo. act_unfold. simpl.
  rewrite decide_False by done.
  unfold array_write. rewrite decide_True by lia. simpl.
  unfold array_read. rewrite decide_True by lia. rewrite Hlook. simpl.
  unfold after_restore. act_unfold. simpl.
  unfold restore_text, notify. simpl.
  destruct (decide (cursor e > Z.of_nat (length t))); simpl;
    destruct (decide (on_change e = 0)); reflexivity.
Qed.

Lemma do_redo_spec (e : MiniEntry) (t : cstring) :
  redo_top e <> 0 ->
  0 <= undo_top e < Z.of_nat (length (undo_stack e)) ->
  0 <= redo_top e - 1 ->
  redo_stack e !! Z.to_nat (redo_top e - 1) = Some (Some t) ->
  do_redo e = Some (tt,
    restore_text t
      (set_redo_top (redo_top e - 1) (set_undo_top (undo_top e + 1)
        (set_undo_stack (<[Z.to_nat (undo_top e) := Some (text e)]> (undo_stack e)) e))),
    notify e).
Proof.
  intros Hne Hundo Htop Hlook.
  unfold do_redo. act_unfold. simpl.
  rewrite decide_False by done.
  unfold array_write. rewrite decide_True by lia. simpl.
  unfold array_read. rewrite decide_True by lia. rewrite Hlook. simpl.
  unfold after_restore. act_unfold. simpl.
  unfold restore_text, notify. simpl.
  destruct (decide (cursor e > Z.of_nat (length t))); simpl;
    destruct (decide (on_change e = 0)); reflexivity.
Qed.

Lemma sel_range_ordered (e : MiniEntry) :
  (sel_range e).1 <= (sel_range e).2 /\
  ((sel_range e).1 = sel_anchor e /\ (sel_range e).2 = sel_active e \/
   (sel_range e).1 = sel_active e /\ (sel_range e).2 = sel_anchor e).
Proof. unfold sel_range. case_decide; simpl; lia. Qed.

Lemma without_selection_empty (e : MiniEntry) :
  sel_anchor e = sel_active e -> without_selection e = text e.
Proof.
  intros H. unfold without_selection, sel_range.
  rewrite decide_False by lia. rewrite H. apply take_drop.
Qed.

Lemma delete_selection_spec (e : MiniEntry) :
  buffer_ok e ->
  sel_anchor e <> sel_active e ->
  delete_selection e = Some (tt, selection_deleted e, []).
Proof.
  intros (Hlen & Hc & Ha & Hb) Hne.
  unfold delete_selection, mbind, Act_bind.
  rewrite ensure_text_len_ok by done.
  unfold get at 1. rewrite decide_False by done.
  unfold selection_deleted, without_selection.
  pose proof (sel_range_ordered e) as Hord.
  destruct (sel_range e) as [a b]; simpl in *.
  unfold mem_delete. act_unfold. simpl.
  rewrite decide_True by lia. reflexivity.
Qed.

Lemma length_without_selection (e : MiniEntry) :
  buffer_ok e ->
  Z.of_nat (length (without_selection e))
    = text_len e - ((sel_range e).2 - (sel_range e).1).
Proof.
  intros (Hlen & Hc & Ha & Hb).
  pose proof (sel_range_ordered e) as Hord.
  unfold without_selection. destruct (sel_range e) as [a b]; simpl in *.
  rewrite length_app, length_take, length_drop. lia.
Qed.

(** What [insert_char] and [filtered_paste] do to the selection before
    they write: nothing when it is empty. *)
Lemma maybe_delete_spec (e : MiniEntry) :
  buffer_ok e ->
  exists e2,
    (if decide (sel_anchor e = sel_active e) then mret tt else delete_selection) e
      = Some (tt, e2, []) /\
    text e2 = without_selection e /\
    text_len e2 = Z.of_nat (length (without_selection e)) /\
    cursor e2 = cursor_without_selection e /\
    0 <= cursor e2 <= text_len e2 /\
    undo_stack e2 = undo_stack e /\ undo_top e2 = undo_top e /\
    redo_top e2 = redo_top e /\ cfg e2 = cfg e.
Proof.
  intros Hbuf. pose proof Hbuf as (Hl & Hc & Ha & Hb).
  pose proof (sel_range_ordered e) as Hord.
  unfold cursor_without_selection.
  destruct (decide (sel_anchor e = sel_active e)) as [Hemp|Hsel].
  - exists e. rewrite without_selection_empty by done.
    split_and!; try done; lia.
  - rewrite delete_selection_spec by done.
    eexists. split; [reflexivity|]. unfold selection_deleted; simpl.
    pose proof (length_without_selection e Hbuf) as Hlw.
    split_and!; try done; lia.
Qed.

Lemma paste_filter_all_rejected (e : MiniEntry) (base : Z) (data out : cstring) :
  Forall (fun ch => validate_char e ch = None) data ->
  paste_filter e base data out = out.
Proof.
  induction 1 as [|ch rest Hch _ IH]; simpl; [done|].
  by rewrite Hch.
Qed.

Lemma set_text_clipboard (c : Clipboard.ClipboardContext) (win0 : Window) (t : cstring) :
  Clipboard.clipboard_set_text (Some c) win0 (Some t) SELECTION_CLIPBOARD
    = (Some (Clipboard.write_slot c Clipboard.ClipboardSlot
               {| Clipboard.text := Some t; Clipboard.owner_window := win0 |}),
       [XSetSelectionOwner (Clipboard.clipboard_atom c) win0]).
Proof.
  unfold Clipboard.clipboard_set_text, Clipboard.selection_atom,
    Clipboard.get_data_for_selection.
  by rewrite decide_True.
Qed.

Lemma set_text_primary (c : Clipboard.ClipboardContext) (win0 : Window) (t : cstring) :
  Clipboard.clipboard_atom c <> XA_PRIMARY ->
  Clipboard.clipboard_set_text (Some c) win0 (Some t) SELECTION_PRIMARY
    = (Some (Clipboard.write_slot c Clipboard.PrimarySlot
               {| Clipboard.text := Some t; Clipboard.owner_window := win0 |}),
       [XSetSelectionOwner XA_PRIMARY win0]).
Proof.
  intros H.
  unfold Clipboard.clipboard_set_text, Clipboard.selection_atom,
    Clipboard.get_data_for_selection.
  rewrite decide_False by done. by rewrite decide_True.
Qed.

(** *** The invariant of the history *)

Lemma history_ok_step (op : HistOp) (e : MiniEntry) :
  history_ok e ->
  exists e' w, hist_step op e = Some (tt, e', w) /\ history_ok e' /\
               undo_capacity e' = undo_capacity e.
Proof.
  intros (Harr & Hu & Hr & Hsum & Hlu & Hlr).
  pose proof Harr as (Hcap & Hlenu & Hlenr).
  destruct op as [| | |t]; simpl.
  - destruct (undo_push_spec e) as (s & -> & Hlen & Htake); [done|lia|lia|].
    eexists _, _. split; [reflexivity|]. split; [|done].
    unfold history_ok, arrays_ok, live_undo, live_redo; simpl.
    split_and!; try lia.
    + rewrite Htake. unfold lastn. apply Forall_drop. by apply all_strings_snoc.
    + constructor.
  - destruct (decide (undo_top e = 0)) as [H0|H0].
    { rewrite do_undo_empty by done. eexists _, _. split; [reflexivity|].
      split; [|done]. by split_and!. }
    destruct (top_slot (undo_stack e) (undo_top e)) as [t Ht]; [lia|lia|done|].
    rewrite (do_undo_spec e t) by (done || lia).
    eexists _, _. split; [reflexivity|]. split; [|done].
    unfold history_ok, arrays_ok, live_undo, live_redo, restore_text; simpl.
    rewrite length_insert. split_and!; try lia.
    + by apply take_pred_prefix; [lia|].
    + rewrite take_snoc_insert by lia. by apply all_strings_snoc.
  - destruct (decide (redo_top e = 0)) as [H0|H0].
    { rewrite do_redo_empty by done. eexists _, _. split; [reflexivity|].
      split; [|done]. by split_and!. }
    destruct (top_slot (redo_stack e) (redo_top e)) as [t Ht]; [lia|lia|done|].
    rewrite (do_redo_spec e t) by (done || lia).
    eexists _, _. split; [reflexivity|]. split; [|done].
    unfold history_ok, arrays_ok, live_undo, live_redo, restore_text; simpl.
    rewrite length_insert. split_and!; try lia.
    + rewrite take_snoc_insert by lia. by apply all_strings_snoc.
    + by apply take_pred_prefix; [lia|].
  - rewrite entry_set_text_no_draw_spec.
    eexists _, _. split; [reflexivity|]. split; [|done]. by split_and!.
Qed.

Lemma history_ok_run (ops : list HistOp) (e : MiniEntry) :
  history_ok e ->
  exists e' w, hist_run ops e = Some (tt, e', w) /\ history_ok e' /\
               undo_capacity e' = undo_capacity e.
Proof.
  revert e. induction ops as [|op ops IH]; intros e H; simpl.
  - eexists _, _. by split.
  - destruct (history_ok_step op e H) as (e1 & w1 & Hstep & H1 & Hcap1).
    destruct (IH e1 H1) as (e2 & w2 & Hrun & H2 & Hcap2).
    unfold mbind, Act_bind. rewrite Hstep, Hrun.
    eexists _, _. split; [reflexivity|]. split; [done|congruence].
Qed.

Lemma history_ok_empty (e : MiniEntry) :
  arrays_ok e -> undo_top e = 0 -> redo_top e = 0 -> history_ok e.
Proof.
  intros Harr Hu Hr. pose proof Harr as (Hcap & _ & _).
  unfold history_ok, live_undo, live_redo. rewrite Hu, Hr.
  split_and!; try lia; try done; constructor.
Qed.

Lemma live_undo_length (e : MiniEntry) :
  0 <= undo_top e <= Z.of_nat (length (undo_stack e)) ->
  Z.of_nat (length (live_undo e)) = undo_top e.
Proof. intros H. unfold live_undo. rewrite length_take. lia. Qed.

Lemma push_snapshot_spec (t : cstring) (e : MiniEntry) :
  arrays_ok e ->
  0 <= undo_top e <= undo_capacity e ->
  redo_top e <= undo_capacity e ->
  exists e',
    push_snapshot t e = Some (tt, e', []) /\
    arrays_ok e' /\ undo_capacity e' = undo_capacity e /\
    0 <= undo_top e' <= undo_capacity e /\ redo_top e' = 0 /\
    live_undo e' = lastn (Z.to_nat (undo_capacity e)) (live_undo e ++ [Some t]).
Proof.
  intros Harr Hu Hr. unfold push_snapshot.
  unfold mbind, Act_bind. rewrite entry_set_text_no_draw_spec.
  destruct (undo_push_spec (set_whole_text (default [] (Some t)) e))
    as (s & Hpush & Hlen & Htake); [done..|].
  rewrite Hpush. eexists. split; [reflexivity|].
  destruct Harr as (Hcap & Hlu & Hlr). simpl in *.
  unfold arrays_ok, live_undo; simpl.
  split_and!; try lia. exact Htake.
Qed.

Lemma push_all_spec (ts : list cstring) (e : MiniEntry) :
  arrays_ok e ->
  0 <= undo_top e <= undo_capacity e ->
  redo_top e = 0 ->
  exists e' w,
    push_all ts e = Some (tt, e', w) /\
    arrays_ok e' /\ undo_capacity e' = undo_capacity e /\
    0 <= undo_top e' <= undo_capacity e /\ redo_top e' = 0 /\
    live_undo e' = lastn (Z.to_nat (undo_capacity e)) (live_undo e ++ (Some <$> ts)).
Proof.
  revert e. induction ts as [|t ts IH]; intros e Harr Hu Hr; simpl.
  - eexists _, _. split; [reflexivity|]. split_and!; try done; try lia.
    rewrite app_nil_r. rewrite lastn_short; [done|].
    destruct Harr as (_ & Hlu & _). unfold live_undo. rewrite length_take. lia.
  - destruct (push_snapshot_spec t e) as (e1 & Hpush & Harr1 & Hcap1 & Hu1 & Hr1 & Hlive1);
      [done|done|lia|].
    destruct (IH e1) as (e2 & w2 & Hrun & Harr2 & Hcap2 & Hu2 & Hr2 & Hlive2);
      [done|lia|done|].
    unfold mbind, Act_bind. rewrite Hpush, Hrun.
    eexists _, _. split; [reflexivity|].
    split_and!; try done; try lia.
    rewrite Hlive2, Hlive1, Hcap1. rewrite lastn_lastn_app.
    by rewrite <- app_assoc.
Qed.

Lemma undo_trace_spec (L : list cstring) :
  forall e : MiniEntry,
    live_undo e = Some <$> L ->
    undo_top e = Z.of_nat (length L) ->
    undo_top e <= Z.of_nat (length (undo_stack e)) ->
    0 <= redo_top e ->
    redo_top e + undo_top e <= Z.of_nat (length (redo_stack e)) ->
    exists e' w, undo_trace (length L) e = Some (rev L, e', w) /\ undo_top e' = 0.
Proof.
  induction L as [|t L IH] using rev_ind; intros e Hlive Htop Hlen Hr Hsum.
  - simpl. eexists _, _. split; [reflexivity|done].
  - rewrite length_app in *. simpl in *.
    replace (length L + 1)%nat with (S (length L)) by lia. simpl.
    assert (undo_stack e !! Z.to_nat (undo_top e - 1) = Some (Some t)) as Hslot.
    { assert (live_undo e !! length L = Some (Some t)) as H.
      { rewrite Hlive, list_lookup_fmap, lookup_app_r by lia.
        by replace (length L - length L)%nat with 0%nat by lia. }
      unfold live_undo in H. apply lookup_take_Some in H as [H _].
      by replace (Z.to_nat (undo_top e - 1)) with (length L) by lia. }
    unfold mbind, Act_bind.
    rewrite (do_undo_spec e t) by (done || lia).
    set (e1 := restore_text t _).
    destruct (IH e1) as (e2 & w2 & Hrun & Htop2).
    + unfold e1, live_undo, restore_text; simpl.
      replace (Z.to_nat (undo_top e - 1)) with (length L) by lia.
      unfold live_undo in Hlive. rewrite fmap_app in Hlive.
      apply (f_equal (take (length L))) in Hlive.
      rewrite take_take in Hlive.
      rewrite take_app_length' in Hlive by (by rewrite length_fmap).
      by replace (length L `min` Z.to_nat (undo_top e))%nat with (length L) in Hlive by lia.
    + unfold e1, restore_text; simpl. lia.
    + unfold e1, restore_text; simpl. lia.
    + unfold e1, restore_text; simpl. lia.
    + unfold e1, restore_text; simpl. rewrite length_insert. lia.
    + unfold get, mret, Act_ret. simpl. rewrite Hrun.
      eexists _, _. split; [|exact Htop2].
      rewrite rev_app_distr. simpl. reflexivity.
Qed.

Section WithFont.
Variable xOff : cstring -> Z -> Z.

Lemma ensure_cursor_visible_spec (e : MiniEntry) :
  exists x, ensure_cursor_visible xOff e = Some (tt, set_scroll_x x e, []).
Proof.
  unfold ensure_cursor_visible. act_unfold. simpl.
  repeat (case_decide; simpl); eexists; try reflexivity.
  all: by rewrite <- (set_scroll_x_id e) at 1.
Qed.

Lemma ensure_cursor_visible_draw (e : MiniEntry) :
  exists x, (ensure_cursor_visible xOff;; entry_draw) e = Some (tt, set_scroll_x x e, [Draw]).
Proof.
  destruct (ensure_cursor_visible_spec e) as [x Hx].
  exists x. by rewrite (bind_unit _ _ _ _ Hx).
Qed.

(** ** The steps of a typed character *)

(** X7. On an entry whose buffer and stacks are well formed,
    [insert_char] first validates the character: a character the kind
    rejects leaves the entry as it is, without any effect. For an
    accepted character a snapshot of the text as it is, selection
    included, is pushed and the redo stack is emptied, whatever happens
    next; then the selection, if any, is removed, and only then is the
    maximum length checked, against the text without the selection. If
    that text is already as long as a positive maximum, the character is
    not inserted: the buffer holds the text without the selection, the
    cursor stands where the selection began, and nothing is redrawn.
    Otherwise the character is inserted at that cursor, the cursor moves
    one byte right and the entry is redrawn. *)
Theorem insert_char_steps (e : MiniEntry) (ch : ascii) :
  buffer_ok e -> arrays_ok e ->
  0 <= undo_top e <= undo_capacity e ->
  0 <= redo_top e <= undo_capacity e ->
  match validate_char e ch with
  | None => insert_char xOff ch e = Some (tt, e, [])
  | Some out =>
    exists e' w,
      insert_char xOff ch e = Some (tt, e', w) /\
      text_len e' = Z.of_nat (length (text e')) /\
      live_undo e' = lastn (Z.to_nat (undo_capacity e)) (live_undo e ++ [Some (text e)]) /\
      redo_top e' = 0 /\
      let t := without_selection e in
      let c := cursor_without_selection e in
      if decide (max_length (cfg e) > 0 /\ Z.of_nat (length t) >= max_length (cfg e))
      then text e' = t /\ cursor e' = c /\ w = []
      else text e' = take (Z.to_nat c) t ++ [out] ++ drop (Z.to_nat c) t /\
           cursor e' = c + 1 /\ w = [Draw]
  end.
Proof.
  intros Hbuf Harr Hu Hr.
  pose proof Hbuf as (Hl & _).
  unfold insert_char.
  rewrite (bind_unit _ _ _ _ (ensure_text_len_ok e Hl)), bind_get.
  destruct (validate_char e ch) as [out|]; [|reflexivity].
  destruct (undo_push_spec e) as (s & Hpush & Hlen & Htake); [done|lia|lia|].
  rewrite (bind_unit _ _ _ _ Hpush), bind_get.
  set (e1 := set_redo_top 0 _).
  destruct (maybe_delete_spec e1 Hbuf)
    as (e2 & Hdel & Ht & Htl & Hcur & Hc2 & Hus & Hut & Hrt & Hcfg).
  rewrite (bind_unit _ _ _ _ Hdel), bind_get.
  change (without_selection e1) with (without_selection e) in *.
  change (cursor_without_selection e1) with (cursor_without_selection e) in *.
  assert (live_undo e2
          = lastn (Z.to_nat (undo_capacity e)) (live_undo e ++ [Some (text e)])) as Hlive.
  { unfold live_undo at 1. rewrite Hus, Hut. exact Htake. }
  simpl. rewrite Hcfg, Htl. change (cfg e1) with (cfg e).
  destruct (decide (max_length (cfg e) > 0 /\
                    Z.of_nat (length (without_selection e)) >= max_length (cfg e)))
    as [Hmax|Hmax].
  - exists e2, []. split; [reflexivity|].
    split_and!; try done. by rewrite Ht.
  - assert (0 <= cursor e2 /\ cursor e2 <= text_len e2 /\
            text_len e2 = Z.of_nat (length (text e2))) as Hpre by (rewrite Ht; lia).
    rewrite (bind_unit _ _ _ _ (mem_insert_spec _ [out] e2 Hpre)).
    rewrite (bind_unit _ _ _ _ (modify_spec _ _)).
    rewrite (bind_unit _ _ _ _ (modify_spec _ _)).
    match goal with |- context [(_ ≫= _) ?e3] =>
      destruct (ensure_cursor_visible_draw e3) as [x ->] end.
    eexists _, _. split; [reflexivity|]. simpl.
    unfold live_undo in *. simpl. rewrite Ht, Hcur.
    split_and!; try done.
    rewrite length_app, length_take. simpl. rewrite length_drop. lia.
Qed.

(** ** C10: a paste of which nothing is accepted *)

(** C10. When the kind of the entry rejects every character of the
    pasted text, and in particular when the text is empty, the paste
    callback returns the entry as it was and has no effect: text, cursor,
    selection and both stacks are unchanged, nothing is pushed, the redo
    stack is not cleared and nothing is redrawn. *)
Theorem paste_of_rejected_text (e : MiniEntry) (data : cstring) :
  Forall (fun ch => validate_char e ch = None) data ->
  paste_callback xOff (Some data) e = Some (tt, e, []).
Proof.
  intros H. unfold paste_callback, filtered_paste.
  case_decide; [done|].
  act_unfold. simpl.
  rewrite paste_filter_all_rejected by done. simpl. done.
Qed.

End WithFont.

(** ** C2: a key refused by the maximum length *)

(** C2. The failing input: the integer entry of at most three characters
    holds "255", nothing is selected, the undo stack is empty and the
    redo stack holds "2556"; the key "7" is typed. The kind accepts the
    digit and the maximum length refuses it: the buffer, the cursor and
    the selection are left alone and nothing is redrawn. The two stacks
    are not left alone: "255" is now on the undo stack and the redo stack
    is empty, so the redo that was available is gone. The sibling paths
    of the same entry that change nothing (Delete at the end of the text,
    a paste of which nothing is accepted) leave both stacks as they
    were. *)
Theorem refused_key_rewrites_history :
  rejected_by_max_length int_255_redo "7" /\
  sel_anchor int_255_redo = sel_active int_255_redo /\
  live_undo int_255_redo = [] /\
  live_redo int_255_redo = [Some (str "2556")] /\
  (exists e3, do_redo int_255_redo = Some (tt, e3, notify int_255_redo) /\
              text e3 = str "2556") /\
  (exists e',
     insert_char xOff8 "7" int_255_redo = Some (tt, e', []) /\
     same_buffer int_255_redo e' /\
     live_undo e' = [Some (str "255")] /\
     live_redo e' = [] /\
     ~ same_history int_255_redo e' /\
     do_redo e' = Some (tt, e', [])) /\
  Editing.do_delete xOff8 int_255_redo = Some (tt, int_255_redo, []) /\
  paste_callback xOff8 (Some (str "ab")) int_255_redo = Some (tt, int_255_redo, []).
Proof.
  split.
  { split; [discriminate|]. split; [reflexivity | vm_compute; discriminate]. }
  split; [reflexivity|]. split; [reflexivity|]. split; [reflexivity|].
  split.
  { eexists. split; [vm_compute; reflexivity|]. reflexivity. }
  split.
  { eexists. split; [vm_compute; reflexivity|].
    split; [vm_compute; tauto|].
    split; [reflexivity|]. split; [reflexivity|].
    split; [|vm_compute; reflexivity].
    intros [H _]. vm_compute in H. discriminate H. }
  split; vm_compute; reflexivity.
Qed.

Lemma insert_char_steps_witness :
  (exists e' w,
     insert_char xOff8 "x" abcdef_bcd = Some (tt, e', w) /\
     text e' = str "axef" /\ cursor e' = 2 /\ w = [Draw] /\
     live_undo e' = [Some (str "abcdef")] /\ redo_top e' = 0) /\
  (exists e' w,
     insert_char xOff8 "7" int_255_redo = Some (tt, e', w) /\
     text e' = str "255" /\ cursor e' = 3 /\ w = [] /\
     live_undo e' = [Some (str "255")] /\ redo_top e' = 0).
Proof.
  split.
  - pose proof (insert_char_steps xOff8 abcdef_bcd "x") as H.
    destruct H as (e' & w & Hrun & _ & Hlive & Hredo & Htext & Hcur & Hw).
    + vm_compute. intuition discriminate.
    + vm_compute. intuition discriminate.
    + vm_compute. intuition discriminate.
    + vm_compute. intuition discriminate.
    + exists e', w. split; [exact Hrun|]. split; [exact Htext|]. split; [exact Hcur|].
      split; [exact Hw|]. split; [exact Hlive|exact Hredo].
  - pose proof (insert_char_steps xOff8 int_255_redo "7") as H.
    destruct H as (e' & w & Hrun & _ & Hlive & Hredo & Htext & Hcur & Hw).
    + vm_compute. intuition discriminate.
    + vm_compute. intuition discriminate.
    + vm_compute. intuition discriminate.
    + vm_compute. intuition discriminate.
    + exists e', w. split; [exact Hrun|]. split; [exact Htext|]. split; [exact Hcur|].
      split; [exact Hw|]. split; [exact Hlive|exact Hredo].
Defined.

Lemma paste_of_rejected_text_witness :
  paste_callback xOff8 (Some (str "ab-c")) int_255 = Some (tt, int_255, []) /\
  paste_callback xOff8 (Some []) int_255 = Some (tt, int_255, []).
Proof.
  split.
  - apply paste_of_rejected_text. compute_done.
  - apply paste_of_rejected_text. constructor.
Defined.

(** ** C5: a push on a full undo stack *)

(** C5. On an entry whose two arrays have [undo_capacity] slots, with a
    redo top inside its array: when the undo stack holds [undo_capacity]
    snapshots, [undo_push] drops the snapshot in slot 0, keeps the others
    in order, appends the current text, and empties the redo stack. Hence
    after more than [undo_capacity] snapshots are pushed one after the
    other onto empty stacks, the undo stack holds the last
    [undo_capacity] of them; that many undos restore them, newest first,
    and the next undo finds the stack empty and does nothing. *)
Theorem push_at_capacity_evicts_oldest (e : MiniEntry) (ts : list cstring) :
  arrays_ok e ->
  0 <= redo_top e <= undo_capacity e ->
  (undo_top e = undo_capacity e ->
   exists e',
     undo_push e = Some (tt, e', []) /\
     live_undo e' = drop 1 (live_undo e) ++ [Some (text e)] /\
     undo_top e' = undo_capacity e /\
     redo_top e' = 0 /\ live_redo e' = []) /\
  (undo_top e = 0 -> redo_top e = 0 ->
   (Z.to_nat (undo_capacity e) < length ts)%nat ->
   exists e1 w1,
     push_all ts e = Some (tt, e1, w1) /\
     live_undo e1 = Some <$> lastn (Z.to_nat (undo_capacity e)) ts /\
     exists e2 w2,
       undo_trace (Z.to_nat (undo_capacity e)) e1
         = Some (rev (lastn (Z.to_nat (undo_capacity e)) ts), e2, w2) /\
       undo_top e2 = 0 /\
       do_undo e2 = Some (tt, e2, [])).
Proof.
  intros Harr Hr. pose proof Harr as (Hcap & Hlu & Hlr). split.
  - intros Hfull.
    destruct (undo_push_spec e) as (s & Hpush & Hlen & Htake); [done|lia|lia|].
    rewrite Hpush. eexists. split; [reflexivity|].
    rewrite Z.min_r in Htake by lia.
    unfold live_undo, live_redo in *; simpl. rewrite Z.min_r by lia.
    split_and!; try done.
    rewrite Htake. apply lastn_snoc_full; [|lia].
    rewrite length_take. lia.
  - intros Hu0 Hr0 Hlong.
    destruct (push_all_spec ts e) as (e1 & w1 & Hrun & Harr1 & Hcap1 & Hu1 & Hr1 & Hlive1);
      [done|lia|done|].
    assert (live_undo e = []) as Hnil.
    { unfold live_undo. by rewrite Hu0. }
    rewrite Hnil in Hlive1. simpl in Hlive1.
    assert (lastn (Z.to_nat (undo_capacity e)) (Some <$> ts)
            = Some <$> lastn (Z.to_nat (undo_capacity e)) ts) as Hmap.
    { unfold lastn. by rewrite fmap_drop, length_fmap. }
    rewrite Hmap in Hlive1.
    exists e1, w1. split; [done|]. split; [done|].
    destruct Harr1 as (_ & Hlu1 & Hlr1).
    assert (length (lastn (Z.to_nat (undo_capacity e)) ts) = Z.to_nat (undo_capacity e))
      as Hlast.
    { unfold lastn. rewrite length_drop. lia. }
    assert (undo_top e1 = undo_capacity e) as Htop1.
    { rewrite <- (live_undo_length e1) by lia. rewrite Hlive1, length_fmap, Hlast. lia. }
    destruct (undo_trace_spec (lastn (Z.to_nat (undo_capacity e)) ts) e1)
      as (e2 & w2 & Htrace & Htop2); [done|lia|lia|lia|lia|].
    rewrite Hlast in Htrace.
    exists e2, w2. split; [done|]. split; [done|]. by apply do_undo_empty.
Qed.

Lemma push_at_capacity_evicts_oldest_witness :
  (exists e',
     undo_push (after (entry_set_text_no_draw (Some (str "e"))) full_history)
       = Some (tt, e', []) /\
     live_undo e' = [Some (str "b"); Some (str "c"); Some (str "d"); Some (str "e")] /\
     redo_top e' = 0) /\
  (exists e1 w1 e2 w2,
     push_all [str "a"; str "b"; str "c"; str "d"; str "e"; str "f"] (fresh cfg_text)
       = Some (tt, e1, w1) /\
     live_undo e1 = [Some (str "c"); Some (str "d"); Some (str "e"); Some (str "f")] /\
     undo_trace 4 e1 = Some ([str "f"; str "e"; str "d"; str "c"], e2, w2) /\
     do_undo e2 = Some (tt, e2, [])).
Proof.
  split.
  - destruct (push_at_capacity_evicts_oldest
                (after (entry_set_text_no_draw (Some (str "e"))) full_history) [])
      as [H _].
    + vm_compute. intuition discriminate.
    + vm_compute. intuition discriminate.
    + destruct H as (e' & Hpush & Hlive & _ & Hredo & _); [reflexivity|].
      exists e'. split; [exact Hpush|]. split; [exact Hlive|exact Hredo].
  - destruct (push_at_capacity_evicts_oldest (fresh cfg_text)
                [str "a"; str "b"; str "c"; str "d"; str "e"; str "f"]) as [_ H].
    + vm_compute. intuition discriminate.
    + vm_compute. intuition discriminate.
    + destruct H as (e1 & w1 & Hrun & Hlive & e2 & w2 & Htrace & _ & Hstop);
        [reflexivity | reflexivity | vm_compute; lia |].
      exists e1, w1, e2, w2. split; [exact Hrun|]. split; [exact Hlive|].
      split; [exact Htrace|exact Hstop].
Defined.

(** ** C7: undo and redo on an empty stack *)

(** C7. [do_undo] on an entry whose undo stack is empty returns the entry
    as it was and has no effect: text, cursor, selection and both stacks
    are unchanged and the change handler is not called. The same holds
    for [do_redo] on an entry whose redo stack is empty. *)
Theorem undo_redo_on_empty_stack (e : MiniEntry) :
  (undo_top e = 0 -> do_undo e = Some (tt, e, [])) /\
  (redo_top e = 0 -> do_redo e = Some (tt, e, [])).
Proof. split; [apply do_undo_empty | apply do_redo_empty]. Qed.

Lemma undo_redo_on_empty_stack_witness :
  do_undo int_255 = Some (tt, int_255, []) /\
  do_redo int_255 = Some (tt, int_255, []) /\
  text int_255 = str "255".
Proof.
  split; [|split].
  - apply (proj1 (undo_redo_on_empty_stack int_255)). reflexivity.
  - apply (proj2 (undo_redo_on_empty_stack int_255)). reflexivity.
  - reflexivity.
Defined.

(** ** C8: copy *)

(** C8. [copy_selection] without the cut flag returns the entry as it
    was. With an empty selection it also leaves the clipboard context as
    it was and has no effect. With a non-empty selection in a well-formed
    buffer, on a context whose CLIPBOARD atom is not the predefined
    PRIMARY atom, it claims both selections for the window of the entry
    and stores the selected bytes, with that window as owner, in the
    CLIPBOARD slot and in the PRIMARY slot; the table of pending requests
    is not touched. *)
Theorem copy_selection_frame (e : MiniEntry) (ctx : option Clipboard.ClipboardContext)
    (c : Clipboard.ClipboardContext) :
  (sel_anchor e = sel_active e -> copy_selection 0 e ctx = Some (e, ctx, [])) /\
  (sel_anchor e <> sel_active e ->
   buffer_ok e ->
   Clipboard.clipboard_atom c <> XA_PRIMARY ->
   exists c',
     copy_selection 0 e (Some c)
       = Some (e, Some c',
               [XSetSelectionOwner (Clipboard.clipboard_atom c) (win e);
                XSetSelectionOwner XA_PRIMARY (win e)]) /\
     Clipboard.clipboard_data c'
       = {| Clipboard.text := Some (selected_text e); Clipboard.owner_window := win e |} /\
     Clipboard.primary_data c'
       = {| Clipboard.text := Some (selected_text e); Clipboard.owner_window := win e |} /\
     Clipboard.requests c' = Clipboard.requests c).
Proof.
  unfold copy_selection. split.
  - intros H. by rewrite decide_True.
  - intros Hsel (Hl & Hc & Ha & Hb) Hatom.
    rewrite decide_False by done.
    pose proof (sel_range_ordered e) as Hord.
    unfold selected_text.
    destruct (sel_range e) as [a b]; simpl in Hord.
    unfold strndup_at. rewrite bind_get.
    unfold check. rewrite decide_True by lia.
    rewrite (bind_unit _ _ _ _ eq_refl).
    unfold mret, Act_ret.
    rewrite set_text_clipboard, set_text_primary by done.
    rewrite decide_True by done.
    eexists. split; [reflexivity|]. by split_and!.
Qed.

Lemma copy_selection_frame_witness :
  copy_selection 0 int_255 None = Some (int_255, None, []) /\
  exists c',
    copy_selection 0 abcdef_bcd (Some (Clipboard.clipboard_create Clipboard.atoms0))
      = Some (abcdef_bcd, Some c', [XSetSelectionOwner 300 7; XSetSelectionOwner 1 7]) /\
    Clipboard.clipboard_data c'
      = {| Clipboard.text := Some (str "bcd"); Clipboard.owner_window := 7 |} /\
    Clipboard.primary_data c'
      = {| Clipboard.text := Some (str "bcd"); Clipboard.owner_window := 7 |}.
Proof.
  split.
  - apply (proj1 (copy_selection_frame int_255 None
                    (Clipboard.clipboard_create Clipboard.atoms0))).
    reflexivity.
  - destruct (proj2 (copy_selection_frame abcdef_bcd None
                       (Clipboard.clipboard_create Clipboard.atoms0)))
      as (c' & Hcopy & Hclip & Hprim & _).
    + vm_compute. discriminate.
    + vm_compute. intuition discriminate.
    + vm_compute. discriminate.
    + exists c'. split; [exact Hcopy|]. split; [exact Hclip|exact Hprim].
Defined.

(** ** C9: the tops of the two stacks *)

(** C9. The failing input: the configuration says "undo-depth = 0".
    [entry_create] accepts it and returns an entry whose two arrays have
    no slot, with both stacks empty. The first push (the first key typed)
    finds [undo_top >= undo_capacity], reads [undo_stack[0]], which the
    array does not have, and asks [memmove] for [undo_capacity - 1 = -1]
    pointers: the access is out of bounds and the push has no defined
    result. *)
Theorem zero_depth_push_out_of_bounds :
  exists e0,
    entry_create theme_depth0 cfg_text 7 = Some e0 /\
    undo_capacity e0 = 0 /\ undo_top e0 = 0 /\ redo_top e0 = 0 /\
    undo_stack e0 = [] /\ redo_stack e0 = [] /\
    buffer_ok e0 /\
    array_read (undo_stack e0) 0 = None /\
    array_shift_down (undo_stack e0) (undo_capacity e0) = None /\
    undo_capacity e0 - 1 = -1 /\
    undo_push e0 = None /\
    hist_run [HPush] e0 = None /\
    insert_char xOff8 "x" e0 = None.
Proof.
  exists (entry_init theme_depth0 cfg_text 7).
  split; [reflexivity|].
  split; [reflexivity|]. split; [reflexivity|]. split; [reflexivity|].
  split; [reflexivity|]. split; [reflexivity|].
  split; [vm_compute; intuition discriminate|].
  repeat split; vm_compute; reflexivity.
Qed.

(** X8. From an entry whose two arrays have [undo_capacity >= 1] slots
    and whose stacks are empty, every sequence of pushes, undos, redos
    and edits of the buffer is defined (no array is read or written
    outside its slots) and ends with both tops non-negative and
    [undo_top + redo_top <= undo_capacity]. In particular, whenever an
    undo has something to pop, the slot of the redo stack it writes is
    inside the array, and likewise for a redo and the undo stack. *)
Theorem history_tops_stay_in_bounds (ops : list HistOp) (e : MiniEntry) :
  arrays_ok e -> undo_top e = 0 -> redo_top e = 0 ->
  exists e' w,
    hist_run ops e = Some (tt, e', w) /\
    0 <= undo_top e' /\ 0 <= redo_top e' /\
    undo_top e' + redo_top e' <= undo_capacity e' /\
    undo_capacity e' = undo_capacity e /\
    (undo_top e' <> 0 -> 0 <= redo_top e' < Z.of_nat (length (redo_stack e'))) /\
    (redo_top e' <> 0 -> 0 <= undo_top e' < Z.of_nat (length (undo_stack e'))).
Proof.
  intros Harr Hu Hr.
  destruct (history_ok_run ops e (history_ok_empty e Harr Hu Hr))
    as (e' & w & Hrun & ((Hcap & Hlu & Hlr) & Hu' & Hr' & Hsum & _) & Hsame).
  exists e', w. split_and!; try done; lia.
Qed.

Lemma history_tops_stay_in_bounds_witness :
  exists e' w,
    hist_run [HPush; HEdit (str "x"); HPush; HUndo; HUndo; HRedo; HPush] (fresh cfg_text)
      = Some (tt, e', w) /\
    0 <= undo_top e' /\ 0 <= redo_top e' /\
    undo_top e' + redo_top e' <= undo_capacity e'.
Proof.
  destruct (history_tops_stay_in_bounds
              [HPush; HEdit (str "x"); HPush; HUndo; HUndo; HRedo; HPush] (fresh cfg_text))
    as (e' & w & Hrun & Hu & Hr & Hsum & _).
  - vm_compute. intuition discriminate.
  - reflexivity.
  - reflexivity.
  - exists e', w. split; [exact Hrun|]. split; [exact Hu|]. split; [exact Hr|exact Hsum].
Defined.

End EntryProofs.

(** * Further properties of the clipboard module *)

Module ClipboardFacts.
Import Clipboard ClipboardProofs ClipboardTerms.

Lemma set_text_some (c : ClipboardContext) (win : Window) (t : cstring)
    (ty : SelectionType) :
  clipboard_atom c <> XA_PRIMARY ->
  exists c',
    clipboard_set_text (Some c) win (Some t) ty
      = (Some c', [XSetSelectionOwner (selection_atom c ty) win]) /\
    data_for c' ty = {| text := Some t; owner_window := win |} /\
    (forall ty', ty' <> ty -> data_for c' ty' = data_for c ty') /\
    requests c' = requests c /\
    clipboard_atom c' = clipboard_atom c /\ utf8_atom c' = utf8_atom c /\
    targets_atom c' = targets_atom c /\ property_atom c' = property_atom c /\
    incr_atom c' = incr_atom c.
Proof.
  intros Hne. unfold clipboard_set_text.
  destruct (get_data_for_type c ty Hne) as (slot & Hslot & Hread).
  rewrite Hslot. eexists. split; [reflexivity|].
  unfold get_data_for_selection, selection_atom in Hslot.
  destruct ty; simpl.
  - rewrite decide_True in Hslot by done. simplify_eq. split_and!; try done.
    intros []; done.
  - rewrite decide_False, decide_True in Hslot by done. simplify_eq.
    split_and!; try done. intros []; done.
Qed.

Lemma set_text_none (c : ClipboardContext) (win : Window) (ty : SelectionType) :
  clipboard_atom c <> XA_PRIMARY ->
  exists c',
    clipboard_set_text (Some c) win None ty
      = (Some c', [XSetSelectionOwner (selection_atom c ty) XNone]) /\
    data_for c' ty = {| text := None; owner_window := XNone |} /\
    (forall ty', ty' <> ty -> data_for c' ty' = data_for c ty') /\
    requests c' = requests c /\
    clipboard_atom c' = clipboard_atom c.
Proof.
  intros Hne. unfold clipboard_set_text.
  destruct (get_data_for_type c ty Hne) as (slot & Hslot & Hread).
  rewrite Hslot. eexists. split; [reflexivity|].
  unfold get_data_for_selection, selection_atom in Hslot.
  destruct ty; simpl.
  - rewrite decide_True in Hslot by done. simplify_eq. split_and!; try done.
    intros []; done.
  - rewrite decide_False, decide_True in Hslot by done. simplify_eq.
    split_and!; try done. intros []; done.
Qed.

(** X2. A text set for a selection on behalf of a window comes back
    unchanged to a paste request on the same context, when the X server
    names that window as the owner: the callback is called at once with
    the text, nothing is asked of the server, and the context the
    request returns is the one it was given. *)
Theorem copy_then_paste_loops_back (c : ClipboardContext) (win win' : Window)
    (t : cstring) (ty : SelectionType) (cb ud : Z) :
  clipboard_atom c <> XA_PRIMARY ->
  win <> XNone ->
  cb <> 0 ->
  exists c',
    (clipboard_set_text (Some c) win (Some t) ty).1 = Some c' /\
    clipboard_request_text (Some c') win' cb ud ty win
      = (Some c', [Callback cb (Some t) ud]).
Proof.
  intros Hne Hwin Hcb.
  destruct (set_text_some c win t ty Hne) as (c' & Hset & Hdata & _ & _ & Hatom & _).
  exists c'. split; [by rewrite Hset|].
  unfold clipboard_request_text.
  rewrite (decide_False (P := cb = 0)) by done.
  rewrite (decide_False (P := win = XNone)) by done.
  rewrite local_text_for_type by congruence.
  rewrite Hdata. simpl. by rewrite decide_True.
Qed.


Lemma requests_denied_when_empty (c : ClipboardContext) (ty : SelectionType)
    (req : XSelectionRequestEvent) :
  clipboard_atom c <> XA_PRIMARY ->
  text (data_for c ty) = None ->
  req_selection req = selection_atom c ty ->
  handle_selection_request c req = send_selection_notify req XNone.
Proof.
  intros Hne Hnone Hsel. unfold handle_selection_request. rewrite Hsel.
  destruct (get_data_for_type c ty Hne) as (slot & -> & ->).
  by rewrite Hnone.
Qed.

Lemma selection_clear_spec (c : ClipboardContext) (ty : SelectionType) :
  clipboard_atom c <> XA_PRIMARY ->
  let c' := handle_selection_clear c (selection_atom c ty) in
  data_for c' ty = {| text := None; owner_window := XNone |} /\
  (forall ty', ty' <> ty -> data_for c' ty' = data_for c ty') /\
  requests c' = requests c /\
  clipboard_atom c' = clipboard_atom c.
Proof.
  intros Hne. unfold handle_selection_clear.
  destruct (get_data_for_type c ty Hne) as (slot & Hslot & Hread).
  rewrite Hslot.
  unfold get_data_for_selection, selection_atom in Hslot.
  destruct ty; simpl.
  - rewrite decide_True in Hslot by done. simplify_eq. split_and!; try done.
    intros []; done.
  - rewrite decide_False, decide_True in Hslot by done. simplify_eq.
    split_and!; try done. intros []; done.
Qed.

(** X3. After a selection is given up ([clipboard_set_text] with NULL) or
    lost (SelectionClear), its slot holds neither text nor owner, the
    other slot and the table are as before, every SelectionRequest for
    that selection is refused with property None, and no paste request
    is answered from the slot, whatever owner the server names. *)
Theorem released_selection_is_forgotten (c : ClipboardContext) (win : Window)
    (ty : SelectionType) (c' : ClipboardContext) :
  clipboard_atom c <> XA_PRIMARY ->
  (clipboard_set_text (Some c) win None ty).1 = Some c' \/
  c' = handle_selection_clear c (selection_atom c ty) ->
  data_for c' ty = {| text := None; owner_window := XNone |} /\
  (forall ty', ty' <> ty -> data_for c' ty' = data_for c ty') /\
  requests c' = requests c /\
  (forall req, req_selection req = selection_atom c' ty ->
     handle_selection_request c' req = send_selection_notify req XNone) /\
  (forall owner, local_text c' (selection_atom c' ty) owner = None).
Proof.
  intros Hne Hc'.
  assert (data_for c' ty = {| text := None; owner_window := XNone |} /\
          (forall ty', ty' <> ty -> data_for c' ty' = data_for c ty') /\
          requests c' = requests c /\ clipboard_atom c' = clipboard_atom c)
    as (Hdata & Hother & Hreq & Hatom).
  { destruct Hc' as [Hset| ->].
    - destruct (set_text_none c win ty Hne) as (c1 & Hset1 & H).
      rewrite Hset1 in Hset. simpl in Hset. by simplify_eq.
    - by apply selection_clear_spec. }
  split_and!; try done.
  - intros req Hsel. apply (requests_denied_when_empty c' ty); [congruence| |done].
    by rewrite Hdata.
  - intros owner. rewrite local_text_for_type by congruence.
    rewrite Hdata. simpl. by case_decide.
Qed.

(** X4. [handle_selection_notify] never touches the two data slots. When
    no active entry has the window and the property of the event, the
    table is unchanged and nothing is called. Otherwise the entry
    resolved is the first such entry: no earlier entry matches, it alone
    changes, only its [active] flag changes, and exactly one callback is
    called, its own with its own user data. *)
Theorem notify_resolves_first_match_only (c : ClipboardContext) (sev : XSelectionEvent)
    (r1 r2 : PropReply) :
  let c' := (handle_selection_notify c sev r1 r2).1 in
  let effs := (handle_selection_notify c sev r1 r2).2 in
  clipboard_data c' = clipboard_data c /\
  primary_data c' = primary_data c /\
  match find_request c (sev_requestor sev) (sev_property sev) with
  | None => requests c' = requests c /\ effs = []
  | Some (i, r) =>
    requests c !! i = Some r /\
    requests c' = <[i := resolved r]> (requests c) /\
    (forall j r', (j < i)%nat -> requests c !! j = Some r' ->
       ~ (active r' = true /\ window r' = sev_requestor sev /\
          property r' = sev_property sev)) /\
    exists t, callbacks_of effs = [(callback r, t, user_data r)]
  end.
Proof.
  simpl. unfold handle_selection_notify.
  destruct (find_request _ _ _) as [[i r]|] eqn:Hfind; [|done].
  apply list_find_Some in Hfind as (Hi & _ & Hfirst).
  assert (requests (deactivate c i) = <[i := resolved r]> (requests c)) as Hdeact.
  { unfold deactivate; simpl. by rewrite (alter_as_insert _ _ _ _ Hi). }
  repeat case_decide; simpl; (split; [done|]); (split; [done|]);
    (split; [done|]); (split; [exact Hdeact|]); (split; [by eauto|]); by eexists.
Qed.

(** X5. Every SelectionRequest is answered by exactly one SelectionNotify,
    sent to the requestor with the selection and the target of the
    request. Either its property is None and no property was written, or
    it is the property of the request and exactly one property was
    written, on the requestor's window: the atoms TARGETS, UTF8_STRING
    and STRING for the target TARGETS, the bytes of the owned text for
    the targets UTF8_STRING and STRING. The second case needs a slot for
    the selection that holds a text and is owned by another window than
    the requestor. *)
Theorem selection_request_is_answered_once (c : ClipboardContext)
    (req : XSelectionRequestEvent) :
  let effs := handle_selection_request c req in
  exists prop,
    answers_of effs =
      [(req_requestor req,
        {| sev_requestor := req_requestor req; sev_selection := req_selection req;
           sev_target := req_target req; sev_property := prop |})] /\
    ((prop = XNone /\ writes_of effs = []) \/
     (prop = req_property req /\
      exists slot t,
        get_data_for_selection c (req_selection req) = Some slot /\
        text (read_slot c slot) = Some t /\
        req_requestor req <> owner_window (read_slot c slot) /\
        ((req_target req = targets_atom c /\
          writes_of effs = [(req_requestor req, req_property req, XA_ATOM,
                             PropAtoms [targets_atom c; utf8_atom c; XA_STRING])]) \/
         (req_target req <> targets_atom c /\
          (req_target req = utf8_atom c \/ req_target req = XA_STRING) /\
          writes_of effs = [(req_requestor req, req_property req, req_target req,
                             PropBytes t)])))).
Proof.
  simpl. unfold handle_selection_request.
  destruct (get_data_for_selection _ _) as [slot|] eqn:Hslot;
    [|exists XNone; split; [done|by left]].
  destruct (text (read_slot c slot)) as [t|] eqn:Ht;
    [|exists XNone; split; [done|by left]].
  destruct (decide (req_requestor req = _)); [exists XNone; split; [done|by left]|].
  destruct (decide (req_target req = targets_atom c)).
  { exists (req_property req). split; [done|]. right. split; [done|].
    exists slot, t. split_and!; try done. by left. }
  destruct (decide (_ \/ _)); [|exists XNone; split; [done|by left]].
  exists (req_property req). split; [done|]. right. split; [done|].
  exists slot, t. split_and!; try done. by right.
Qed.




End ClipboardFacts.

(** * Further properties of the editing engine *)

Module EditingFacts.
Import Entry Editing EntryProofs EditingTerms.

(** ** Validation of characters *)

Lemma validate_char_accepts (e : MiniEntry) (ch : ascii) :
  validate_char e ch
    = accepts (kind (cfg e)) (if decide (hex_uppercase (theme e) = 0) then false else true) ch.
Proof.
  unfold validate_char, accepts.
  destruct (kind (cfg e)); try reflexivity.
  by destruct (decide (hex_uppercase (theme e) = 0)).
Qed.

Lemma all_chars_complete (ch : ascii) : ch ∈ all_chars.
Proof.
  unfold all_chars. apply list_elem_of_fmap.
  exists (nat_of_ascii ch). split; [by rewrite ascii_nat_embedding|].
  apply elem_of_seq. pose proof (nat_ascii_bounded ch). lia.
Qed.

Lemma accepted_ok_everywhere :
  forallb (fun k => forallb (fun up => forallb (accepted_ok k up) all_chars) [true; false])
    [ENTRY_TEXT; ENTRY_INT; ENTRY_FLOAT; ENTRY_HEX] = true.
Proof. vm_compute. reflexivity. Qed.

Lemma accepted_ok_holds (k : EntryKind) (up : bool) (ch : ascii) : accepted_ok k up ch = true.
Proof.
  pose proof accepted_ok_everywhere as H.
  rewrite forallb_forall in H.
  assert (In k [ENTRY_TEXT; ENTRY_INT; ENTRY_FLOAT; ENTRY_HEX]) as Hk
    by (destruct k; simpl; tauto).
  specialize (H k Hk). rewrite forallb_forall in H.
  assert (In up [true; false]) as Hup by (destruct up; simpl; tauto).
  specialize (H up Hup). rewrite forallb_forall in H.
  apply H. apply list_elem_of_In, all_chars_complete.
Qed.


(** X9. Whatever the kind of the entry, a character [validate_char]
    accepts is printable ASCII (32 to 126), and so is the character it
    stores; the stored character is accepted again and stored as itself;
    and only a hex entry stores another character than the one typed. *)
Theorem validate_char_printable_and_stable (e : MiniEntry) (ch out : ascii) :
  validate_char e ch = Some out ->
  32 <= CType.code ch <= 126 /\
  32 <= CType.code out <= 126 /\
  validate_char e out = Some out /\
  (kind (cfg e) <> ENTRY_HEX -> out = ch).
Proof.
  rewrite !validate_char_accepts. intros H.
  pose proof (accepted_ok_holds (kind (cfg e))
                (if decide (hex_uppercase (theme e) = 0) then false else true) ch) as Hok.
  unfold accepted_ok in Hok. rewrite H in Hok.
  apply andb_true_iff in Hok as [Hok Hsame]. apply andb_true_iff in Hok as [Hok Hstable].
  apply andb_true_iff in Hok as [Hp1 Hp2].
  apply bool_decide_eq_true in Hstable.
  unfold CType.isprint in Hp1, Hp2.
  split; [lia|]. split; [lia|]. split; [exact Hstable|].
  intros Hk. destruct (kind (cfg e)); try done; by apply bool_decide_eq_true in Hsame.
Qed.

(** ** The text buffer and the damage rectangle *)

Lemma reserve_loop_S (fuel : nat) (cap need : Z) :
  reserve_loop (S fuel) cap need =
    if decide (cap < need) then
      let cap1 := cap + Z.quot cap 2 in
      let cap2 := if decide (cap1 < 8) then 8 else cap1 in
      if decide (cap2 > 2 ^ 30) then cap2 else reserve_loop fuel cap2 need
    else cap.
Proof. reflexivity. Qed.

Lemma reserve_loop_grows (need : Z) (fuel : nat) :
  forall cap,
    8 <= cap <= 2 ^ 30 ->
    cap * 5 ^ Z.of_nat fuel > 2 ^ 30 * 4 ^ Z.of_nat fuel ->
    let r := reserve_loop fuel cap need in
    cap <= r /\ (need <= r \/ 2 ^ 30 < r) /\ (need <= cap -> r = cap) /\
    2 * r <= 3 * 2 ^ 30 /\
    reserve_loop (S fuel) cap need = r.
Proof.
  pose proof (eq_refl : 2 ^ 30 = 1073741824) as H30.
  induction fuel as [|fuel IH]; intros cap H8 Hfuel.
  - simpl in Hfuel. lia.
  - replace (Z.of_nat (S fuel)) with (Z.of_nat fuel + 1) in Hfuel by lia.
    rewrite !Z.pow_add_r in Hfuel by lia.
    rewrite (reserve_loop_S (S fuel)), (reserve_loop_S fuel).
    destruct (decide (cap < need)) as [Hlt|Hge]; [|by (split_and!; try done; try lia)].
    assert (Z.quot cap 2 = cap / 2) as -> by (apply Z.quot_div_nonneg; lia).
    assert (2 * (cap / 2) <= cap < 2 * (cap / 2) + 2) as Hdiv
      by (pose proof (Z.div_mod cap 2); pose proof (Z.mod_pos_bound cap 2); lia).
    cbv zeta.
    rewrite (decide_False (P := cap + cap / 2 < 8)) by lia.
    destruct (decide (cap + cap / 2 > 2 ^ 30)) as [Hbig|Hsmall].
    { split_and!; try lia. }
    destruct (IH (cap + cap / 2)) as (H1 & H2 & H3 & H4 & H5); [lia| |].
    { assert (0 < 5 ^ Z.of_nat fuel) by (apply Z.pow_pos_nonneg; lia).
      assert (0 < 4 ^ Z.of_nat fuel) by (apply Z.pow_pos_nonneg; lia).
      nia. }
    split_and!; lia.
Qed.

(** X10. For a capacity of at most 2^30, [reserve_text] never shrinks the
    buffer, leaves it alone when it is large enough, makes it at least
    [need] bytes for every [need] up to 2^30, and never asks for more
    than 1.5 * 2^30 bytes: the loop terminates and the arithmetic stays
    inside an [int]. *)
Theorem reserve_text_makes_room (text_cap need : Z) :
  text_cap <= 2 ^ 30 ->
  let r := reserve_text text_cap need in
  text_cap <= r /\
  (need <= text_cap -> r = text_cap) /\
  (need <= 2 ^ 30 -> need <= r) /\
  2 * r <= 3 * 2 ^ 30.
Proof.
  intros Hcap. unfold reserve_text. cbv zeta.
  pose proof (eq_refl : 2 ^ 30 = 1073741824) as H30.
  destruct (decide (need <= text_cap)) as [Hle|Hgt]; [split_and!; try done; lia|].
  set (cap := if decide (text_cap > 0) then text_cap else 1).
  assert (1 <= cap <= 2 ^ 30 /\ text_cap <= cap) as (Hc1 & Hc2)
    by (unfold cap; destruct (decide (text_cap > 0)); lia).
  rewrite (reserve_loop_S 127).
  destruct (decide (cap < need)) as [Hc3|Hc3]; [|split_and!; lia].
  assert (Z.quot cap 2 = cap / 2) as -> by (apply Z.quot_div_nonneg; lia).
  assert (2 * (cap / 2) <= cap < 2 * (cap / 2) + 2) as Hdiv
    by (pose proof (Z.div_mod cap 2); pose proof (Z.mod_pos_bound cap 2); lia).
  cbv zeta.
  set (cap2 := if decide (cap + cap / 2 < 8) then 8 else cap + cap / 2).
  assert (8 <= cap2 /\ cap <= cap2 /\ 2 * cap2 <= 3 * 2 ^ 30) as (H8 & Hge & Hle)
    by (unfold cap2; case_decide; lia).
  destruct (decide (cap2 > 2 ^ 30)); [split_and!; lia|].
  destruct (reserve_loop_grows need 127 cap2) as (H1 & H2 & _ & H4 & _); [done| |].
  { assert (8 * 5 ^ Z.of_nat 127 > 2 ^ 30 * 4 ^ Z.of_nat 127) as Hfuel
      by (vm_compute; reflexivity).
    assert (0 < 5 ^ Z.of_nat 127) as Hpos by (vm_compute; reflexivity).
    revert Hfuel Hpos.
    generalize (5 ^ Z.of_nat 127) (2 ^ 30 * 4 ^ Z.of_nat 127). clear -H8.
    intros p q Hfuel Hpos. nia. }
  split_and!; try lia.
Qed.

(** X11. [damage_add] ignores an empty rectangle. A non-empty one is
    covered by the new damage rectangle, which is non-empty; when the
    old one was non-empty it is covered too, and the new one is exactly
    the bounding box of the two; when the old one was empty the new one
    is the rectangle added. *)
Theorem damage_add_is_bounding_box (d : Damage) (x y w h : Z) :
  (w <= 0 \/ h <= 0 -> damage_add d x y w h = d) /\
  (0 < w -> 0 < h ->
   let d' := damage_add d x y w h in
   covers d' x y w h /\
   0 < dmg_w d' /\ 0 < dmg_h d' /\
   (0 < dmg_w d -> 0 < dmg_h d ->
    covers d' (dmg_x d) (dmg_y d) (dmg_w d) (dmg_h d) /\
    dmg_x d' = Z.min x (dmg_x d) /\ dmg_y d' = Z.min y (dmg_y d) /\
    dmg_x d' + dmg_w d' = Z.max (x + w) (dmg_x d + dmg_w d) /\
    dmg_y d' + dmg_h d' = Z.max (y + h) (dmg_y d + dmg_h d)) /\
   (dmg_w d = 0 \/ dmg_h d = 0 ->
    d' = {| dmg_x := x; dmg_y := y; dmg_w := w; dmg_h := h |})).
Proof.
  unfold damage_add, covers. split.
  - intros H. by rewrite decide_True.
  - intros Hw Hh. rewrite decide_False by lia.
    destruct (decide (dmg_w d = 0 \/ dmg_h d = 0)) as [He|Hne]; simpl.
    + split_and!; try lia; done.
    + repeat case_decide; simpl; split_and!; try lia; intros; try lia; split_and!; lia.
Qed.

(** ** Positions and the selection *)

Section WithFont.
Variable xOff : cstring -> Z -> Z.

Lemma x_to_index_from_range (e : MiniEntry) (x : Z) (fuel : nat) (i : Z) :
  0 <= i -> i + Z.of_nat fuel <= text_len e + 1 -> 0 <= text_len e ->
  0 <= x_to_index_from xOff e x i fuel <= text_len e.
Proof.
  revert i. induction fuel as [|fuel IH]; intros i Hi Hfuel Hlen; simpl; [lia|].
  case_decide; [lia|]. apply IH; lia.
Qed.

(** X12. [x_to_index] always returns an index between 0 and the length of
    the text, and changes nothing but the cached length. The index is
    the first one whose glyph position lies right of [x]: every earlier
    index lies at or left of [x], and the result is the length of the
    text only when no index inside the text qualifies. *)
Theorem x_to_index_inside_text (e : MiniEntry) (x : Z) :
  exists i,
    x_to_index xOff x e = Some (i, set_text_len (Z.of_nat (length (text e))) e, []) /\
    0 <= i <= Z.of_nat (length (text e)) /\
    (i < Z.of_nat (length (text e)) -> x < padding e + 2 + xOff (text e) i) /\
    (forall j, 0 <= j < i -> padding e + 2 + xOff (text e) j <= x).
Proof.
  unfold x_to_index. act_unfold. simpl.
  set (e1 := set_text_len _ e). set (n := length (text e)).
  eexists. split; [reflexivity|].
  assert (forall fuel i, 0 <= i -> i + Z.of_nat fuel = Z.of_nat n + 1 ->
            let r := x_to_index_from xOff e1 x i fuel in
            0 <= r <= Z.of_nat n /\
            (r < Z.of_nat n -> x < padding e + 2 + xOff (text e) r) /\
            (forall j, i <= j < r -> padding e + 2 + xOff (text e) j <= x)) as Hloop.
  { induction fuel as [|fuel IH]; intros i Hi Hfuel; simpl.
    - split; [lia|]. split; [lia|]. intros j Hj. lia.
    - destruct (decide (x < padding e + 2 + xOff (text e) i)) as [Hx|Hx].
      + split; [lia|]. split; [done|]. intros j Hj. lia.
      + destruct (IH (i + 1)) as (H1 & H2 & H3); [lia|lia|].
        split; [lia|]. split; [done|]. intros j Hj.
        destruct (decide (j = i)) as [->|]; [lia|]. apply H3. lia. }
  destruct (Hloop (Z.to_nat (Z.of_nat n + 1)) 0) as (H1 & H2 & H3); [lia|lia|].
  split_and!; try done; try lia.
Qed.

End WithFont.

(** X13. [normalize_sel] is always defined, has no effect outside the
    entry, clamps both ends of the selection into 0 .. length of the
    text, leaves text, cursor and both stacks alone, and is idempotent. *)
Theorem normalize_sel_clamps (e : MiniEntry) :
  exists e',
    normalize_sel e = Some (tt, e', []) /\
    text_len e' = Z.of_nat (length (text e)) /\
    sel_anchor e' = Z.max 0 (Z.min (sel_anchor e) (text_len e')) /\
    sel_active e' = Z.max 0 (Z.min (sel_active e) (text_len e')) /\
    text e' = text e /\ cursor e' = cursor e /\
    undo_stack e' = undo_stack e /\ undo_top e' = undo_top e /\
    redo_stack e' = redo_stack e /\ redo_top e' = redo_top e /\
    normalize_sel e' = Some (tt, e', []).
Proof.
  unfold normalize_sel, ensure_text_len. act_unfold. simpl.
  repeat (case_decide; simpl); eexists; (split; [reflexivity|]); simpl;
    split_and!; try done; try lia.
  all: repeat (case_decide; simpl); try lia.
  all: try (f_equal; f_equal; destruct e; simpl in *; f_equal; lia).
Qed.

End EditingFacts.

Module HistoryFacts.
Import Entry Editing EntryProofs EditingTerms.

Lemma same_frame_refl (e : MiniEntry) : same_frame e e.
Proof. by repeat split. Qed.

Lemma same_frame_trans (e1 e2 e3 : MiniEntry) :
  same_frame e1 e2 -> same_frame e2 e3 -> same_frame e1 e3.
Proof. unfold same_frame. intros H1 H2. decompose [and] H1. decompose [and] H2.
  split_and!; congruence. Qed.

Lemma same_frame_history (e e' : MiniEntry) :
  same_frame e e' -> history_ok e -> history_ok e'.
Proof.
  intros (_ & _ & _ & _ & _ & Hus & Huc & Hut & Hrs & Hrc & Hrt & _) H.
  unfold history_ok, arrays_ok, live_undo, live_redo in *.
  by rewrite Hus, Huc, Hut, Hrs, Hrt.
Qed.

Lemma same_frame_live (e e' : MiniEntry) :
  same_frame e e' -> live_undo e' = live_undo e /\ live_redo e' = live_redo e.
Proof.
  intros (_ & _ & _ & _ & _ & Hus & Huc & Hut & Hrs & Hrc & Hrt & _).
  unfold live_undo, live_redo. by rewrite Hus, Hut, Hrs, Hrt.
Qed.

Lemma lastn_length {A} (n : nat) (l : list A) : length (lastn n l) = (length l `min` n)%nat.
Proof. unfold lastn. rewrite length_drop. lia. Qed.

Lemma lastn_snoc_last {A} (n : nat) (l : list A) (x : A) :
  (1 <= n)%nat ->
  lastn n (l ++ [x]) = lastn (n - 1) l ++ [x].
Proof.
  intros Hn. unfold lastn. rewrite length_app. simpl.
  rewrite drop_app_le by lia. f_equal. f_equal. lia.
Qed.

(** What [undo_push] leaves: the text on top of the stack, at most
    [undo_capacity] snapshots, the redo stack empty. *)
Lemma undo_push_ok (e : MiniEntry) :
  history_ok e ->
  exists s,
    undo_push e = Some (tt, pushed s e, []) /\
    history_ok (pushed s e) /\
    1 <= undo_top (pushed s e) /\
    s !! Z.to_nat (undo_top (pushed s e) - 1) = Some (Some (text e)) /\
    take (Z.to_nat (undo_top (pushed s e) - 1)) s
      = lastn (Z.to_nat (undo_capacity e - 1)) (live_undo e) /\
    live_undo (pushed s e)
      = lastn (Z.to_nat (undo_capacity e)) (live_undo e ++ [Some (text e)]).
Proof.
  intros (Harr & Hu & Hr & Hsum & Hlu & Hlr).
  pose proof Harr as (Hcap & Hlenu & Hlenr).
  destruct (undo_push_spec e) as (s & Hpush & Hlen & Htake); [done|lia|lia|].
  exists s. split; [exact Hpush|].
  set (k := Z.min (undo_top e + 1) (undo_capacity e)) in *.
  assert (1 <= k <= undo_capacity e) as Hk by lia.
  rewrite lastn_snoc_last in Htake by lia.
  replace (Z.to_nat (undo_capacity e) - 1)%nat with (Z.to_nat (undo_capacity e - 1))
    in Htake by lia.
  assert (length (lastn (Z.to_nat (undo_capacity e - 1)) (live_undo e))
          = Z.to_nat (k - 1)) as Hll.
  { rewrite lastn_length. unfold live_undo. rewrite length_take. lia. }
  assert (take (Z.to_nat (k - 1)) s
          = lastn (Z.to_nat (undo_capacity e - 1)) (live_undo e)) as Hpre.
  { apply (f_equal (take (Z.to_nat (k - 1)))) in Htake.
    rewrite take_take in Htake.
    rewrite take_app_length' in Htake by done.
    by replace (Z.to_nat (k - 1) `min` Z.to_nat k)%nat with (Z.to_nat (k - 1)) in Htake by lia. }
  assert (s !! Z.to_nat (k - 1) = Some (Some (text e))) as Htop.
  { assert (take (Z.to_nat k) s !! Z.to_nat (k - 1) = Some (Some (text e))) as H.
    { rewrite Htake. rewrite lookup_app_r by lia. rewrite Hll.
      by replace (Z.to_nat (k - 1) - Z.to_nat (k - 1))%nat with 0%nat by lia. }
    by apply lookup_take_Some in H as [H _]. }
  unfold pushed, history_ok, arrays_ok, live_undo, live_redo; simpl. fold k.
  split_and!; try lia; try done.
  - rewrite Htake. apply Forall_app. split.
    + unfold lastn. by apply Forall_drop.
    + by repeat constructor.
  - constructor.
  - rewrite Htake. rewrite lastn_snoc_last by lia.
    by replace (Z.to_nat (undo_capacity e) - 1)%nat with (Z.to_nat (undo_capacity e - 1)) by lia.
Qed.

Lemma restore_text_ok (t : cstring) (e : MiniEntry) :
  0 <= cursor e ->
  buffer_ok (restore_text t e) /\ text (restore_text t e) = t /\
  same_frame e (restore_text t e).
Proof.
  intros Hc. unfold buffer_ok, same_frame, restore_text; simpl.
  case_decide; split_and!; try done; lia.
Qed.



End HistoryFacts.

Module KeyFacts.
Import Entry Editing EntryProofs EditingTerms HistoryFacts.

(** ** What each key computes *)

Lemma mem_delete_spec (a b : Z) (e : MiniEntry) :
  0 <= a /\ a <= b /\ b <= text_len e /\ text_len e = Z.of_nat (length (text e)) ->
  mem_delete a b e
    = Some (tt, set_text (take (Z.to_nat a) (text e) ++ drop (Z.to_nat b) (text e)) e, []).
Proof.
  intros H. unfold mem_delete. rewrite bind_get.
  unfold check. by rewrite decide_True.
Qed.

Lemma bind_some {A B} (m : Act A) (k : A -> Act B) (e e1 : MiniEntry) (a : A)
    (w1 : list Effect) :
  m e = Some (a, e1, w1) ->
  (m ≫= k) e = match k a e1 with
               | None => None
               | Some (b, e2, w2) => Some (b, e2, w1 ++ w2)
               end.
Proof. intros H. unfold mbind, Act_bind. by rewrite H. Qed.

Lemma selection_deleted_ok (e : MiniEntry) :
  buffer_ok e ->
  buffer_ok (selection_deleted e) /\ same_frame e (selection_deleted e) /\
  text (selection_deleted e) = without_selection e /\
  cursor (selection_deleted e) = (sel_range e).1.
Proof.
  intros Hbuf. pose proof (length_without_selection e Hbuf) as Hlw.
  destruct Hbuf as (Hl & Hc & Ha & Hb).
  pose proof (sel_range_ordered e) as Hord.
  unfold buffer_ok, same_frame, selection_deleted; simpl.
  split_and!; try done; lia.
Qed.

Lemma maybe_delete_ok (e : MiniEntry) :
  buffer_ok e ->
  exists e2,
    (if decide (sel_anchor e = sel_active e) then mret tt else delete_selection) e
      = Some (tt, e2, []) /\
    same_frame e e2 /\ buffer_ok e2 /\
    text e2 = without_selection e /\
    cursor e2 = cursor_without_selection e /\
    (sel_anchor e = sel_active e -> e2 = e).
Proof.
  intros Hbuf. unfold cursor_without_selection.
  destruct (decide (sel_anchor e = sel_active e)) as [Hemp|Hsel].
  - exists e. rewrite without_selection_empty by done.
    split_and!; try done.
  - rewrite delete_selection_spec by done.
    destruct (selection_deleted_ok e Hbuf) as (? & ? & ? & ?).
    eexists. split; [reflexivity|]. split_and!; try done.
Qed.

Lemma same_frame_scroll (x : Z) (e : MiniEntry) : same_frame e (set_scroll_x x e).
Proof. by repeat split. Qed.

Lemma same_frame_text (t : cstring) (n c x : Z) (e : MiniEntry) :
  same_frame e (set_scroll_x x (set_cursor c (set_text_len n (set_text t e)))).
Proof. by repeat split. Qed.

Lemma same_frame_cursor (c a b x : Z) (e : MiniEntry) :
  same_frame e (set_scroll_x x (set_sel_active a (set_cursor c e))) /\
  same_frame e (set_scroll_x x (set_sel_active a (set_sel_anchor b (set_cursor c e)))).
Proof. by repeat split. Qed.

Lemma buffer_ok_scroll (x : Z) (e : MiniEntry) : buffer_ok e -> buffer_ok (set_scroll_x x e).
Proof. done. Qed.

Section WithFont.
Variable xOff : cstring -> Z -> Z.

(** [insert_char] on an accepted character. *)
Lemma insert_char_ok (e : MiniEntry) (ch out : ascii) (s : list (option cstring)) :
  buffer_ok e ->
  undo_push e = Some (tt, pushed s e, []) ->
  validate_char e ch = Some out ->
  exists e' w,
    insert_char xOff ch e = Some (tt, e', w) /\
    same_frame (pushed s e) e' /\ buffer_ok e' /\
    (sel_anchor e = sel_active e ->
     sel_anchor e' = sel_anchor e /\ sel_active e' = sel_active e) /\
    let t := without_selection e in
    let c := cursor_without_selection e in
    if decide (max_length (cfg e) > 0 /\ Z.of_nat (length t) >= max_length (cfg e))
    then text e' = t /\ cursor e' = c /\ w = []
    else text e' = take (Z.to_nat c) t ++ [out] ++ drop (Z.to_nat c) t /\
         cursor e' = c + 1 /\ w = [Draw].
Proof.
  intros Hbuf Hpush Hval.
  pose proof Hbuf as (Hl & _).
  unfold insert_char.
  rewrite (bind_unit _ _ _ _ (ensure_text_len_ok e Hl)), bind_get.
  rewrite Hval.
  rewrite (bind_unit _ _ _ _ Hpush), bind_get.
  set (e1 := pushed s e).
  destruct (maybe_delete_ok e1 Hbuf) as (e2 & Hdel & Hf2 & Hb2 & Ht & Hcur & Hsame).
  rewrite (bind_unit _ _ _ _ Hdel), bind_get.
  change (without_selection e1) with (without_selection e) in *.
  change (cursor_without_selection e1) with (cursor_without_selection e) in *.
  change (sel_anchor e1) with (sel_anchor e) in *.
  change (sel_active e1) with (sel_active e) in *.
  pose proof Hb2 as (Hl2 & Hc2 & Ha2 & Hs2).
  assert (cfg e2 = cfg e) as Hcfg by (by destruct Hf2 as (_ & -> & _)).
  assert (text_len e2 = Z.of_nat (length (without_selection e))) as Htl by (by rewrite <- Ht).
  simpl. rewrite Hcfg, Htl.
  destruct (decide (max_length (cfg e) > 0 /\
                    Z.of_nat (length (without_selection e)) >= max_length (cfg e)))
    as [Hmax|Hmax].
  - exists e2, []. split; [reflexivity|].
    split_and!; try done. intros Hemp. by rewrite (Hsame Hemp).
  - assert (0 <= cursor e2 /\ cursor e2 <= text_len e2 /\
            text_len e2 = Z.of_nat (length (text e2))) as Hpre by lia.
    rewrite (bind_unit _ _ _ _ (mem_insert_spec _ [out] e2 Hpre)).
    rewrite (bind_unit _ _ _ _ (modify_spec _ _)).
    rewrite (bind_unit _ _ _ _ (modify_spec _ _)).
    match goal with |- context [(_ ≫= _) ?e3] =>
      destruct (ensure_cursor_visible_draw xOff e3) as [x ->] end.
    eexists _, _. split; [reflexivity|].
    split. { eapply same_frame_trans; [exact Hf2|]. by repeat split. }
    split.
    { unfold buffer_ok; simpl. rewrite Ht.
      rewrite length_app, length_take. simpl. rewrite length_drop.
      rewrite Hcur in Hc2. rewrite Htl in *.
      split_and!; try lia. }
    split. { intros Hemp. by rewrite (Hsame Hemp). }
    simpl. rewrite Ht, Hcur. done.
Qed.

Lemma insert_char_rejected (e : MiniEntry) (ch : ascii) :
  validate_char e ch = None -> insert_char xOff ch e = Some (tt, set_text_len (Z.of_nat (length (text e))) e, []).
Proof.
  intros H. unfold insert_char.
  rewrite (bind_unit _ _ _ (set_text_len (Z.of_nat (length (text e))) e) eq_refl), bind_get.
  change (validate_char (set_text_len _ e) ch) with (validate_char e ch).
  by rewrite H.
Qed.

(** [do_backspace] and [do_delete] on a selection. *)
Lemma delete_key_on_selection (e : MiniEntry) (s : list (option cstring)) :
  buffer_ok e ->
  undo_push e = Some (tt, pushed s e, []) ->
  sel_anchor e <> sel_active e ->
  do_backspace xOff e = Some (tt, selection_deleted (pushed s e), [Draw]) /\
  do_delete xOff e = Some (tt, selection_deleted (pushed s e), [Draw]).
Proof.
  intros Hbuf Hpush Hsel. pose proof Hbuf as (Hl & _).
  split; [unfold do_backspace|unfold do_delete].
  all: rewrite (bind_unit _ _ _ _ (ensure_text_len_ok e Hl)), bind_get.
  all: rewrite decide_False by done.
  all: rewrite (bind_unit _ _ _ _ Hpush).
  all: rewrite (bind_unit _ _ _ _ (delete_selection_spec (pushed s e) Hbuf Hsel)).
  all: done.
Qed.

Lemma backspace_one (e : MiniEntry) (s : list (option cstring)) :
  cursor_ok e ->
  undo_push e = Some (tt, pushed s e, []) ->
  sel_anchor e = sel_active e ->
  cursor e > 0 ->
  exists x,
    do_backspace xOff e = Some (tt,
      set_scroll_x x (set_cursor (cursor e - 1) (set_text_len (text_len e - 1)
        (set_text (take (Z.to_nat (cursor e - 1)) (text e) ++ drop (Z.to_nat (cursor e)) (text e))
           (pushed s e)))), [Draw]).
Proof.
  intros (Hl & Hcur) Hpush Hsel Hc.
  unfold do_backspace.
  rewrite (bind_unit _ _ _ _ (ensure_text_len_ok e Hl)), bind_get.
  rewrite decide_True by done. rewrite decide_True by done.
  rewrite (bind_unit _ _ _ _ Hpush), bind_get.
  assert (0 <= cursor e - 1 /\ cursor e - 1 <= cursor e /\ cursor e <= text_len e /\
          text_len e = Z.of_nat (length (text e))) as Hpre by lia.
  rewrite (bind_unit _ _ _ _ (mem_delete_spec _ _ (pushed s e) Hpre)).
  rewrite (bind_unit _ _ _ _ (modify_spec _ _)).
  rewrite (bind_unit _ _ _ _ (modify_spec _ _)).
  match goal with |- context [(_ ≫= _) ?e3] =>
    destruct (ensure_cursor_visible_draw xOff e3) as [x ->] end.
  by exists x.
Qed.

Lemma delete_one (e : MiniEntry) (s : list (option cstring)) :
  cursor_ok e ->
  undo_push e = Some (tt, pushed s e, []) ->
  sel_anchor e = sel_active e ->
  cursor e < text_len e ->
  exists x,
    do_delete xOff e = Some (tt,
      set_scroll_x x (set_text_len (text_len e - 1)
        (set_text (take (Z.to_nat (cursor e)) (text e) ++ drop (Z.to_nat (cursor e + 1)) (text e))
           (pushed s e))), [Draw]).
Proof.
  intros (Hl & Hcur) Hpush Hsel Hc.
  unfold do_delete.
  rewrite (bind_unit _ _ _ _ (ensure_text_len_ok e Hl)), bind_get.
  rewrite decide_True by done. rewrite decide_True by done.
  rewrite (bind_unit _ _ _ _ Hpush), bind_get.
  assert (0 <= cursor e /\ cursor e <= cursor e + 1 /\ cursor e + 1 <= text_len e /\
          text_len e = Z.of_nat (length (text e))) as Hpre by lia.
  rewrite (bind_unit _ _ _ _ (mem_delete_spec _ _ (pushed s e) Hpre)).
  rewrite (bind_unit _ _ _ _ (modify_spec _ _)).
  match goal with |- context [(_ ≫= _) ?e3] =>
    destruct (ensure_cursor_visible_draw xOff e3) as [x ->] end.
  by exists x.
Qed.

Lemma delete_keys_at_the_edge (e : MiniEntry) :
  buffer_ok e ->
  sel_anchor e = sel_active e ->
  (cursor e = 0 -> do_backspace xOff e = Some (tt, e, [])) /\
  (cursor e = text_len e -> do_delete xOff e = Some (tt, e, [])).
Proof.
  intros Hbuf Hsel. pose proof Hbuf as (Hl & Hcur & _).
  split; intros H; [unfold do_backspace|unfold do_delete].
  all: rewrite (bind_unit _ _ _ _ (ensure_text_len_ok e Hl)), bind_get.
  all: rewrite decide_True by done.
  all: by rewrite decide_False by lia.
Qed.

(** The four navigation keys. *)
Lemma nav_keys_ok (shift : bool) (e : MiniEntry) :
  cursor_ok e ->
  (exists e', key_left xOff shift e = Some (tt, e', [Draw]) /\
     cursor_moved (Z.max 0 (cursor e - 1)) shift e e') /\
  (exists e', key_right xOff shift e = Some (tt, e', [Draw]) /\
     cursor_moved (Z.min (text_len e) (cursor e + 1)) shift e e') /\
  (exists e', key_home xOff shift e = Some (tt, e', [Draw]) /\
     cursor_moved 0 shift e e') /\
  (exists e', key_end xOff shift e = Some (tt, e', [Draw]) /\
     cursor_moved (text_len e) shift e e').
Proof.
  intros (Hl & Hc).
  split_and!.
  all: unfold key_left, key_right, key_home, key_end.
  all: rewrite (bind_unit _ _ _ _ (ensure_text_len_ok e Hl)).
  all: unfold ensure_cursor_visible, entry_draw; act_unfold; simpl.
  all: destruct shift; simpl.
  all: repeat (case_decide; simpl).
  all: eexists; (split; [reflexivity|]).
  all: unfold cursor_moved, same_frame; simpl.
  all: split_and!; try done; try lia; try (left; lia); try (right; lia).
Qed.

Lemma select_whole_ok (e : MiniEntry) :
  buffer_ok e ->
  exists e',
    (select_whole xOff;; entry_draw) e = Some (tt, e', [Draw]) /\
    same_frame e e' /\ text e' = text e /\ buffer_ok e' /\
    sel_anchor e' = 0 /\ sel_active e' = text_len e /\ cursor e' = text_len e.
Proof.
  intros (Hl & Hc & Ha & Hs).
  unfold select_whole, ensure_text_len, ensure_cursor_visible, entry_draw.
  act_unfold; simpl.
  repeat (case_decide; simpl).
  all: eexists; (split; [reflexivity|]).
  all: unfold buffer_ok, same_frame; simpl.
  all: split_and!; try done; try lia.
Qed.

(** Ctrl+Z and Ctrl+Y. *)
Lemma undo_redo_keys_ok (e : MiniEntry) :
  buffer_ok e -> history_ok e ->
  (exists e' w,
     (do_undo;; ensure_cursor_visible xOff;; entry_draw) e = Some (tt, e', w) /\
     buffer_ok e' /\ history_ok e' /\ undo_capacity e' = undo_capacity e) /\
  (exists e' w,
     (do_redo;; ensure_cursor_visible xOff;; entry_draw) e = Some (tt, e', w) /\
     buffer_ok e' /\ history_ok e' /\ undo_capacity e' = undo_capacity e).
Proof.
  intros Hbuf Hok.
  assert (forall op, op = HUndo \/ op = HRedo ->
            exists e1 w1, hist_step op e = Some (tt, e1, w1) /\ buffer_ok e1 /\
                          history_ok e1 /\ undo_capacity e1 = undo_capacity e) as Hstep.
  { intros op Hop.
    destruct (history_ok_step op e Hok) as (e1 & w1 & Hrun & Hok1 & Hcap).
    exists e1, w1. split_and!; try done.
    pose proof Hok as (Harr & Hu & Hr & Hsum & Hlu & Hlr).
    pose proof Harr as (Hcap0 & Hlenu & Hlenr).
    pose proof Hbuf as (_ & Hc & _).
    destruct Hop as [-> | ->]; simpl in Hrun.
    - destruct (decide (undo_top e = 0)) as [H0|H0].
      { rewrite do_undo_empty in Hrun by done. by simplify_eq. }
      destruct (top_slot (undo_stack e) (undo_top e)) as [t Ht]; [lia|lia|done|].
      rewrite (do_undo_spec e t) in Hrun by (done || lia). simplify_eq.
      match goal with |- buffer_ok (restore_text ?t ?E) =>
        destruct (restore_text_ok t E) as (? & _); [simpl; lia|done] end.
    - destruct (decide (redo_top e = 0)) as [H0|H0].
      { rewrite do_redo_empty in Hrun by done. by simplify_eq. }
      destruct (top_slot (redo_stack e) (redo_top e)) as [t Ht]; [lia|lia|done|].
      rewrite (do_redo_spec e t) in Hrun by (done || lia). simplify_eq.
      match goal with |- buffer_ok (restore_text ?t ?E) =>
        destruct (restore_text_ok t E) as (? & _); [simpl; lia|done] end. }
  split.
  - destruct (Hstep HUndo) as (e1 & w1 & Hrun & Hb1 & Hok1 & Hcap); [by left|].
    simpl in Hrun. rewrite (bind_some _ _ _ _ _ _ Hrun).
    destruct (ensure_cursor_visible_draw xOff e1) as [x ->].
    eexists _, _. split; [reflexivity|]. split_and!; try done.
  - destruct (Hstep HRedo) as (e1 & w1 & Hrun & Hb1 & Hok1 & Hcap); [by right|].
    simpl in Hrun. rewrite (bind_some _ _ _ _ _ _ Hrun).
    destruct (ensure_cursor_visible_draw xOff e1) as [x ->].
    eexists _, _. split; [reflexivity|]. split_and!; try done.
Qed.

(** [copy_selection]: the entry part of the result. *)
Lemma copy_selection_entry (cut : Z) (e : MiniEntry) (s : list (option cstring))
    (ctx : option Clipboard.ClipboardContext) :
  buffer_ok e ->
  undo_push e = Some (tt, pushed s e, []) ->
  exists ctx' w,
    copy_selection cut e ctx
      = Some (if decide (sel_anchor e = sel_active e \/ cut = 0) then e
              else selection_deleted (pushed s e), ctx', w).
Proof.
  intros Hbuf Hpush. pose proof Hbuf as (Hl & Hc & Ha & Hs).
  unfold copy_selection.
  destruct (decide (sel_anchor e = sel_active e)) as [Hemp|Hsel].
  { rewrite decide_True by (by left). by eexists _, _. }
  pose proof (sel_range_ordered e) as Hord.
  destruct (sel_range e) as [a b]; simpl in Hord.
  unfold strndup_at. rewrite bind_get. unfold check.
  rewrite decide_True by lia. act_unfold. simpl.
  destruct (Clipboard.clipboard_set_text ctx _ _ SELECTION_CLIPBOARD) as [ctx1 w1].
  destruct (Clipboard.clipboard_set_text ctx1 _ _ SELECTION_PRIMARY) as [ctx2 w2].
  destruct (decide (cut = 0)) as [Hcut|Hcut].
  { rewrite decide_True by (by right). by eexists _, _. }
  rewrite decide_False by tauto.
  rewrite Hpush. rewrite (delete_selection_spec (pushed s e) Hbuf Hsel).
  unfold entry_draw, emit. by eexists _, _.
Qed.

End WithFont.

(** ** Paste *)

(** The loop of [filtered_paste]: it appends a prefix of the accepted
    characters, stops early only when a positive maximum is reached, and
    always takes the first accepted character. *)
Lemma paste_filter_spec (e : MiniEntry) (base : Z) (data out : cstring) :
  exists r,
    paste_filter e base data out = out ++ r /\
    r `prefix_of` omap (validate_char e) data /\
    (max_length (cfg e) <= 0 -> r = omap (validate_char e) data) /\
    (max_length (cfg e) > 0 ->
     Z.of_nat (length r) <= Z.max 1 (max_length (cfg e) - base - Z.of_nat (length out))) /\
    (r <> omap (validate_char e) data ->
     base + Z.of_nat (length out) + Z.of_nat (length r) >= max_length (cfg e)) /\
    (r = [] -> omap (validate_char e) data = []).
Proof.
  revert out. induction data as [|ch rest IH]; intros out; simpl.
  - exists []. rewrite app_nil_r. split_and!; try done. simpl. lia.
  - destruct (validate_char e ch) as [v|] eqn:Hv; [|apply IH].
    destruct (decide (max_length (cfg e) > 0 /\
                      base + Z.of_nat (length (out ++ [v])) >= max_length (cfg e)))
      as [Hfull|Hroom].
    + exists [v]. rewrite length_app in Hfull. simpl in *.
      split_and!; try done; try lia.
      * by apply prefix_cons, prefix_nil.
    + destruct (IH (out ++ [v])) as (r & -> & Hpre & Hall & Hlen & Hstop & Hnil).
      exists (v :: r). rewrite <- app_assoc. simpl.
      rewrite length_app in *. simpl in *.
      split_and!; try done.
      * by apply prefix_cons.
      * intros H. by rewrite Hall.
      * intros H. specialize (Hlen H). lia.
      * intros H. assert (r <> omap (validate_char e) rest) as H' by (intros ->; by apply H).
        specialize (Hstop H'). lia.
Qed.

Lemma paste_base_len_ok (e : MiniEntry) :
  buffer_ok e -> paste_base_len e = Z.of_nat (length (without_selection e)).
Proof.
  intros Hbuf. pose proof (length_without_selection e Hbuf) as Hlw.
  destruct Hbuf as (Hl & Hc & Ha & Hs).
  pose proof (sel_range_ordered e) as Hord.
  unfold paste_base_len.
  destruct (decide (sel_anchor e = sel_active e)) as [Hemp|Hsel].
  - rewrite without_selection_empty by done. done.
  - destruct (sel_range e) as [a b]; simpl in *.
    rewrite decide_False by lia. lia.
Qed.

Section WithFont.
Variable xOff : cstring -> Z -> Z.

Lemma filtered_paste_ok (e : MiniEntry) (d : cstring) (s : list (option cstring)) :
  buffer_ok e ->
  undo_push e = Some (tt, pushed s e, []) ->
  let out := paste_filter e (Z.of_nat (length (without_selection e))) d [] in
  exists e' w,
    filtered_paste xOff (Some d) e = Some (tt, e', w) /\
    buffer_ok e' /\
    (out = [] -> e' = e /\ w = []) /\
    (out <> [] ->
     same_frame (pushed s e) e' /\ w = [Draw] /\
     let t := without_selection e in
     let c := cursor_without_selection e in
     text e' = take (Z.to_nat c) t ++ out ++ drop (Z.to_nat c) t /\
     cursor e' = c + Z.of_nat (length out)).
Proof.
  intros Hbuf Hpush out.
  unfold filtered_paste.
  destruct (decide (length d = 0%nat)) as [Hd|Hd].
  { destruct d; [|done]. exists e, []. by split_and!. }
  rewrite bind_get. rewrite paste_base_len_ok by done. fold out.
  destruct (decide (Z.of_nat (length out) = 0)) as [Ho|Ho].
  { exists e, []. split_and!; try done. intros H. destruct out; done. }
  rewrite (bind_unit _ _ _ _ Hpush), bind_get.
  set (e1 := pushed s e).
  destruct (maybe_delete_ok e1 Hbuf) as (e2 & Hdel & Hf2 & Hb2 & Ht & Hcur & Hsame).
  rewrite (bind_unit _ _ _ _ Hdel), bind_get.
  change (without_selection e1) with (without_selection e) in *.
  change (cursor_without_selection e1) with (cursor_without_selection e) in *.
  pose proof Hb2 as (Hl2 & Hc2 & Ha2 & Hs2).
  assert (0 <= cursor e2 /\ cursor e2 <= text_len e2 /\
          text_len e2 = Z.of_nat (length (text e2))) as Hpre by lia.
  rewrite (bind_unit _ _ _ _ (mem_insert_spec _ out e2 Hpre)).
  rewrite (bind_unit _ _ _ _ (modify_spec _ _)).
  rewrite (bind_unit _ _ _ _ (modify_spec _ _)).
  match goal with |- context [(_ ≫= _) ?e3] =>
    destruct (ensure_cursor_visible_draw xOff e3) as [x ->] end.
  eexists _, _. split; [reflexivity|].
  split.
  { unfold buffer_ok; simpl.
    rewrite !length_app, length_take, length_drop.
    split_and!; lia. }
  split.
  { intros H. rewrite H in Ho. done. }
  intros _. split.
  { eapply same_frame_trans; [exact Hf2|]. by repeat split. }
  split; [done|]. simpl. by rewrite Ht, Hcur.
Qed.

Variable paste_cb self : Z.
Variable xa_clipboard : Atom.

Lemma request_text_shapes (ctx : option Clipboard.ClipboardContext) (win0 : Window)
    (cb ud : Z) (ty : SelectionType) (owner : Window) :
  let effs := (Clipboard.clipboard_request_text ctx win0 cb ud ty owner).2 in
  effs = [] \/ (exists t, effs = [Callback cb t ud]) \/
  (exists m, effs = [Stderr m; Callback cb None ud]) \/
  (exists a b c d, effs = [XConvertSelection a b c d; XFlush]).
Proof.
  unfold Clipboard.clipboard_request_text.
  destruct ctx as [c|]; simpl; [|by left].
  repeat case_decide; simpl; eauto.
  destruct (Clipboard.local_text _ _ _); simpl; eauto.
  destruct (Clipboard.find_free _); simpl; eauto 10.
Qed.

Lemma paste_request_ok (which : Atom) (owner : Window) (e : MiniEntry)
    (ctx : option Clipboard.ClipboardContext) (s : list (option cstring)) :
  buffer_ok e ->
  undo_push e = Some (tt, pushed s e, []) ->
  exists e' ctx' w,
    paste_request xOff paste_cb self xa_clipboard which owner e ctx = Some (e', ctx', w) /\
    buffer_ok e' /\ (e' = e \/ same_frame (pushed s e) e').
Proof.
  intros Hbuf Hpush. unfold paste_request.
  pose proof (request_text_shapes ctx (win e) paste_cb self
                (if decide (which = xa_clipboard) then SELECTION_CLIPBOARD
                 else SELECTION_PRIMARY) owner) as Hshape.
  destruct (Clipboard.clipboard_request_text _ _ _ _ _ _) as [ctx' effs].
  simpl in Hshape.
  destruct Hshape as [-> | [[t ->] | [[m ->] | (a & b & c & d & ->)]]]; simpl.
  - eexists _, _, _. split; [reflexivity|]. split; [done|by left].
  - rewrite decide_True by done.
    destruct t as [t|]; simpl.
    + destruct (filtered_paste_ok e t s Hbuf Hpush) as (e' & w & Hrun & Hb' & Hnil & Hsome).
      rewrite (bind_some _ _ _ _ _ _ Hrun). simpl.
      eexists _, _, _. split; [reflexivity|]. split; [done|].
      destruct (decide (paste_filter e (Z.of_nat (length (without_selection e))) t [] = []))
        as [H|H].
      * left. by apply Hnil.
      * right. by apply Hsome.
    + eexists _, _, _. split; [reflexivity|]. split; [done|by left].
  - rewrite decide_True by done. simpl.
    eexists _, _, _. split; [reflexivity|]. split; [done|by left].
  - eexists _, _, _. split; [reflexivity|]. split; [done|by left].
Qed.

End WithFont.

(** ** The cases of a key press *)

Lemma buffer_ok_cursor_ok (e : MiniEntry) : buffer_ok e -> cursor_ok e.
Proof. by intros (? & ? & _). Qed.

Lemma cursor_moved_ok (target : Z) (shift : bool) (e e' : MiniEntry) :
  buffer_ok e -> 0 <= target <= text_len e ->
  cursor_moved target shift e e' ->
  same_frame e e' /\ text e' = text e /\ buffer_ok e'.
Proof.
  intros (Hl & Hc & Ha & Hs) Ht (Hf & Htx & Htl & Hcur & Hsel).
  split; [done|]. split; [done|].
  unfold buffer_ok. rewrite Htx, Htl, Hcur.
  destruct shift; destruct Hsel as [-> Hact].
  - destruct Hact as [-> | [_ ->]]; split_and!; lia.
  - rewrite Hact. split_and!; lia.
Qed.

Section WithFont.
Variable xOff : cstring -> Z -> Z.
Variable paste_cb self : Z.
Variable xa_clipboard : Atom.

Lemma key_shortcuts_cases (k : KeyPress) (owner : Window) (e : MiniEntry)
    (ctx : option Clipboard.ClipboardContext) (s : list (option cstring)) :
  buffer_ok e -> history_ok e ->
  undo_push e = Some (tt, pushed s e, []) ->
  exists e' ctx' w,
    key_shortcuts xOff paste_cb self xa_clipboard k owner e ctx = Some (e', ctx', w) /\
    (same_frame e e' /\ text e' = text e /\ buffer_ok e' \/
     same_frame (pushed s e) e' /\ cursor_ok e' /\
       ((sel_anchor e = sel_active e ->
         key_sym k <> XK.XK_BackSpace /\ key_sym k <> XK.XK_Delete) -> buffer_ok e') \/
     key_ctrl k = true /\
       (is_key k XK.XK_z XK.XK_Z = true \/ is_key k XK.XK_y XK.XK_Y = true) /\
       buffer_ok e' /\ history_ok e' /\ undo_capacity e' = undo_capacity e).
Proof.
  intros Hbuf Hok Hpush. pose proof Hbuf as (Hl & Hc & Ha & Hs).
  unfold key_shortcuts.
  destruct (decide (_ \/ _)) as [Hret|Hret].
  { eexists _, _, _. split; [reflexivity|]. left. by split_and!. }
  destruct (key_ctrl k && is_key k XK.XK_c XK.XK_C) eqn:Hcopy.
  { destruct (copy_selection_entry 0 e s ctx Hbuf Hpush) as (ctx' & w & ->).
    rewrite decide_True by (by right).
    eexists _, _, _. split; [reflexivity|]. left. by split_and!. }
  destruct (key_ctrl k && is_key k XK.XK_x XK.XK_X) eqn:Hcut.
  { destruct (copy_selection_entry 1 e s ctx Hbuf Hpush) as (ctx' & w & ->).
    eexists _, _, _. split; [reflexivity|].
    destruct (decide (sel_anchor e = sel_active e \/ 1 = 0)) as [[Hemp|?]|Hsel]; [|lia|].
    - left. by split_and!.
    - right; left.
      destruct (selection_deleted_ok (pushed s e) Hbuf) as (Hb' & Hf' & _).
      split; [done|]. split; [by apply buffer_ok_cursor_ok|done]. }
  destruct (key_ctrl k && is_key k XK.XK_v XK.XK_V) eqn:Hpaste.
  { destruct (paste_request_ok xOff paste_cb self xa_clipboard xa_clipboard owner e ctx s
                Hbuf Hpush) as (e' & ctx' & w & -> & Hb' & Hcase).
    eexists _, _, _. split; [reflexivity|].
    destruct Hcase as [-> | Hf'].
    - left. by split_and!.
    - right; left. split; [done|]. split; [by apply buffer_ok_cursor_ok|done]. }
  destruct (key_ctrl k && is_key k XK.XK_a XK.XK_A) eqn:Hall.
  { unfold on_entry.
    destruct (select_whole_ok xOff e Hbuf) as (e' & -> & Hf' & Ht' & Hb' & _).
    eexists _, _, _. split; [reflexivity|]. left. by split_and!. }
  destruct (key_ctrl k && is_key k XK.XK_z XK.XK_Z) eqn:Hundo.
  { unfold on_entry.
    destruct (undo_redo_keys_ok xOff e Hbuf Hok) as [(e' & w & -> & Hb' & Hok' & Hcap) _].
    eexists _, _, _. split; [reflexivity|]. right; right.
    apply andb_true_iff in Hundo as [? ?]. split_and!; try done. by left. }
  destruct (key_ctrl k && is_key k XK.XK_y XK.XK_Y) eqn:Hredo.
  { unfold on_entry.
    destruct (undo_redo_keys_ok xOff e Hbuf Hok) as [_ (e' & w & -> & Hb' & Hok' & Hcap)].
    eexists _, _, _. split; [reflexivity|]. right; right.
    apply andb_true_iff in Hredo as [? ?]. split_and!; try done. by right. }
  destruct (nav_keys_ok xOff (key_shift k) e (buffer_ok_cursor_ok e Hbuf))
    as ((el & Hleft & Hml) & (er & Hright & Hmr) & (eh & Hhome & Hmh) & (ee & Hend & Hme)).
  destruct (decide (key_sym k = XK.XK_Left)) as [Hk|_].
  { unfold on_entry. rewrite Hleft.
    eexists _, _, _. split; [reflexivity|]. left.
    apply (cursor_moved_ok _ _ _ _ Hbuf) in Hml; [done|lia]. }
  destruct (decide (key_sym k = XK.XK_Right)) as [Hk|_].
  { unfold on_entry. rewrite Hright.
    eexists _, _, _. split; [reflexivity|]. left.
    apply (cursor_moved_ok _ _ _ _ Hbuf) in Hmr; [done|lia]. }
  destruct (decide (key_sym k = XK.XK_Home)) as [Hk|_].
  { unfold on_entry. rewrite Hhome.
    eexists _, _, _. split; [reflexivity|]. left.
    apply (cursor_moved_ok _ _ _ _ Hbuf) in Hmh; [done|lia]. }
  destruct (decide (key_sym k = XK.XK_End)) as [Hk|_].
  { unfold on_entry. rewrite Hend.
    eexists _, _, _. split; [reflexivity|]. left.
    apply (cursor_moved_ok _ _ _ _ Hbuf) in Hme; [done|lia]. }
  destruct (decide (key_sym k = XK.XK_BackSpace)) as [Hk|Hnb].
  { unfold on_entry.
    destruct (decide (sel_anchor e = sel_active e)) as [Hemp|Hsel].
    - destruct (decide (cursor e > 0)) as [Hpos|Hzero].
      + destruct (backspace_one xOff e s (buffer_ok_cursor_ok e Hbuf) Hpush Hemp Hpos) as [x ->].
        eexists _, _, _. split; [reflexivity|]. right; left.
        split; [by repeat split|]. split.
        * unfold cursor_ok; simpl. rewrite length_app, length_take, length_drop. lia.
        * intros H. destruct (H Hemp) as [H' _]. done.
      + destruct (delete_keys_at_the_edge xOff e Hbuf Hemp) as [Hedge _].
        rewrite Hedge by lia.
        eexists _, _, _. split; [reflexivity|]. left. by split_and!.
    - destruct (delete_key_on_selection xOff e s Hbuf Hpush Hsel) as [-> _].
      eexists _, _, _. split; [reflexivity|]. right; left.
      destruct (selection_deleted_ok (pushed s e) Hbuf) as (Hb' & Hf' & _).
      split; [done|]. split; [by apply buffer_ok_cursor_ok|done]. }
  destruct (decide (key_sym k = XK.XK_Delete)) as [Hk|Hnd].
  { unfold on_entry.
    destruct (decide (sel_anchor e = sel_active e)) as [Hemp|Hsel].
    - destruct (decide (cursor e < text_len e)) as [Hpos|Hzero].
      + destruct (delete_one xOff e s (buffer_ok_cursor_ok e Hbuf) Hpush Hemp Hpos) as [x ->].
        eexists _, _, _. split; [reflexivity|]. right; left.
        split; [by repeat split|]. split.
        * unfold cursor_ok; simpl. rewrite length_app, length_take, length_drop. lia.
        * intros H. destruct (H Hemp) as [_ H']. done.
      + destruct (delete_keys_at_the_edge xOff e Hbuf Hemp) as [_ Hedge].
        rewrite Hedge by lia.
        eexists _, _, _. split; [reflexivity|]. left. by split_and!.
    - destruct (delete_key_on_selection xOff e s Hbuf Hpush Hsel) as [_ ->].
      eexists _, _, _. split; [reflexivity|]. right; left.
      destruct (selection_deleted_ok (pushed s e) Hbuf) as (Hb' & Hf' & _).
      split; [done|]. split; [by apply buffer_ok_cursor_ok|done]. }
  destruct (decide (_ /\ _)) as [Hchar|Hchar].
  2:{ eexists _, _, _. split; [reflexivity|]. left. by split_and!. }
  unfold on_entry.
  destruct (validate_char e (key_buf0 k)) as [out|] eqn:Hval.
  - destruct (insert_char_ok xOff e (key_buf0 k) out s Hbuf Hpush Hval)
      as (e' & w & -> & Hf' & Hb' & _).
    eexists _, _, _. split; [reflexivity|]. right; left.
    split; [done|]. split; [by apply buffer_ok_cursor_ok|done].
  - rewrite (insert_char_rejected xOff e _ Hval).
    rewrite set_text_len_id by done.
    eexists _, _, _. split; [reflexivity|]. left. by split_and!.
Qed.

End WithFont.

(** ** One key press *)

Section WithFont.
Variable xOff : cstring -> Z -> Z.
Variable paste_cb self : Z.
Variable xa_clipboard : Atom.

(** X15. On an entry whose buffer and history are well formed, every key
    press has a defined result, whatever the key, the modifiers, the
    owner of the clipboard and the clipboard context. Afterwards the
    cached length is the length of the text, the cursor lies inside the
    text, the history is well formed and its capacity unchanged. The
    selection lies inside the text too, unless the key was BackSpace or
    Delete on an empty selection. *)
Theorem key_press_keeps_entry_sound (k : KeyPress) (owner : Window) (e : MiniEntry)
    (ctx : option Clipboard.ClipboardContext) :
  buffer_ok e -> history_ok e ->
  exists e' ctx' w,
    key_shortcuts xOff paste_cb self xa_clipboard k owner e ctx = Some (e', ctx', w) /\
    cursor_ok e' /\ history_ok e' /\ undo_capacity e' = undo_capacity e /\
    ((sel_anchor e = sel_active e ->
      key_sym k <> XK.XK_BackSpace /\ key_sym k <> XK.XK_Delete) -> buffer_ok e').
Proof.
  intros Hbuf Hok.
  destruct (undo_push_ok e Hok) as (s & Hpush & Hok1 & _).
  destruct (key_shortcuts_cases xOff paste_cb self xa_clipboard k owner e ctx s Hbuf Hok Hpush)
    as (e' & ctx' & w & Hrun & Hcase).
  exists e', ctx', w. split; [done|].
  destruct Hcase as [(Hf & Ht & Hb) | [(Hf & Hc & Hb) | (_ & _ & Hb & Hok' & Hcap)]].
  - split; [by apply buffer_ok_cursor_ok|].
    split; [by apply (same_frame_history e)|].
    split; [by destruct Hf as (_ & _ & _ & _ & _ & _ & ? & _)|done].
  - split; [done|].
    split; [by apply (same_frame_history (pushed s e))|].
    split; [by destruct Hf as (_ & _ & _ & _ & _ & _ & ? & _)|done].
  - split; [by apply buffer_ok_cursor_ok|]. done.
Qed.


(** X17. Left, Right, Home and End are defined on every well-formed
    buffer, redraw once, and change neither the text nor the history.
    The cursor goes one byte left or right, staying inside the text, or
    to either end. Without Shift the selection collapses onto the
    cursor; with Shift the anchor stays and the active end follows the
    cursor. The buffer stays well formed. *)
Theorem navigation_keys_move_only_the_cursor (shift : bool) (e : MiniEntry) :
  buffer_ok e ->
  (exists e', key_left xOff shift e = Some (tt, e', [Draw]) /\
     cursor_moved (Z.max 0 (cursor e - 1)) shift e e' /\ buffer_ok e') /\
  (exists e', key_right xOff shift e = Some (tt, e', [Draw]) /\
     cursor_moved (Z.min (text_len e) (cursor e + 1)) shift e e' /\ buffer_ok e') /\
  (exists e', key_home xOff shift e = Some (tt, e', [Draw]) /\
     cursor_moved 0 shift e e' /\ buffer_ok e') /\
  (exists e', key_end xOff shift e = Some (tt, e', [Draw]) /\
     cursor_moved (text_len e) shift e e' /\ buffer_ok e').
Proof.
  intros Hbuf. pose proof Hbuf as (Hl & Hc & _).
  destruct (nav_keys_ok xOff shift e (buffer_ok_cursor_ok e Hbuf))
    as ((el & Hleft & Hml) & (er & Hright & Hmr) & (eh & Hhome & Hmh) & (ee & Hend & Hme)).
  split_and!.
  - exists el. split; [done|]. split; [done|].
    by apply (cursor_moved_ok _ _ _ _ Hbuf) in Hml as (_ & _ & ?); [|lia].
  - exists er. split; [done|]. split; [done|].
    by apply (cursor_moved_ok _ _ _ _ Hbuf) in Hmr as (_ & _ & ?); [|lia].
  - exists eh. split; [done|]. split; [done|].
    by apply (cursor_moved_ok _ _ _ _ Hbuf) in Hmh as (_ & _ & ?); [|lia].
  - exists ee. split; [done|]. split; [done|].
    by apply (cursor_moved_ok _ _ _ _ Hbuf) in Hme as (_ & _ & ?); [|lia].
Qed.

(** X18. With nothing selected, BackSpace at the start of the text and
    Delete at its end do nothing: no snapshot, no redraw. Elsewhere
    BackSpace removes the byte before the cursor and moves the cursor
    left, Delete removes the byte at the cursor; either pushes the text
    it found, empties the redo stack and redraws. Neither updates the
    two ends of the selection: when they stood at the end of the text
    they now lie beyond it. *)
Theorem backspace_and_delete_remove_one_byte (e : MiniEntry) :
  buffer_ok e -> history_ok e ->
  sel_anchor e = sel_active e ->
  (cursor e = 0 -> do_backspace xOff e = Some (tt, e, [])) /\
  (cursor e = text_len e -> do_delete xOff e = Some (tt, e, [])) /\
  (cursor e > 0 ->
   exists e',
     do_backspace xOff e = Some (tt, e', [Draw]) /\
     text e' = take (Z.to_nat (cursor e - 1)) (text e) ++ drop (Z.to_nat (cursor e)) (text e) /\
     text_len e' = text_len e - 1 /\ cursor e' = cursor e - 1 /\
     sel_anchor e' = sel_anchor e /\ sel_active e' = sel_active e /\
     live_undo e' = lastn (Z.to_nat (undo_capacity e)) (live_undo e ++ [Some (text e)]) /\
     redo_top e' = 0 /\
     (sel_anchor e = text_len e -> ~ buffer_ok e')) /\
  (cursor e < text_len e ->
   exists e',
     do_delete xOff e = Some (tt, e', [Draw]) /\
     text e' = take (Z.to_nat (cursor e)) (text e) ++ drop (Z.to_nat (cursor e + 1)) (text e) /\
     text_len e' = text_len e - 1 /\ cursor e' = cursor e /\
     sel_anchor e' = sel_anchor e /\ sel_active e' = sel_active e /\
     live_undo e' = lastn (Z.to_nat (undo_capacity e)) (live_undo e ++ [Some (text e)]) /\
     redo_top e' = 0 /\
     (sel_anchor e = text_len e -> ~ buffer_ok e')).
Proof.
  intros Hbuf Hok Hemp.
  destruct (undo_push_ok e Hok) as (s & Hpush & _ & _ & _ & _ & Hlive).
  destruct (delete_keys_at_the_edge xOff e Hbuf Hemp) as [Hb0 Hd0].
  split; [done|]. split; [done|]. split; intros Hc.
  - destruct (backspace_one xOff e s (buffer_ok_cursor_ok e Hbuf) Hpush Hemp Hc) as [x ->].
    eexists. split; [reflexivity|]. simpl.
    split_and!; try done.
    intros Hend (_ & _ & Ha & _). simpl in Ha. lia.
  - destruct (delete_one xOff e s (buffer_ok_cursor_ok e Hbuf) Hpush Hemp Hc) as [x ->].
    eexists. split; [reflexivity|]. simpl.
    split_and!; try done.
    intros Hend (_ & _ & Ha & _). simpl in Ha. lia.
Qed.

End WithFont.

End KeyFacts.

Module SessionFacts.
Import Entry Editing EntryProofs EditingTerms EditingFacts HistoryFacts KeyFacts.

(** ** Round trips of the buffer *)

Lemma take_drop_around {A} (l : list A) (mid : list A) (c : nat) :
  (c <= length l)%nat ->
  take c (take c l ++ mid ++ drop c l) ++ drop (c + length mid) (take c l ++ mid ++ drop c l) = l.
Proof.
  intros Hc.
  assert (length (take c l) = c) as Hlen by (rewrite length_take; lia).
  rewrite take_app_length' by done.
  rewrite drop_app_ge by lia. rewrite Hlen.
  replace (c + length mid - c)%nat with (length mid) by lia.
  rewrite drop_app_length. apply take_drop.
Qed.

Section WithFont.
Variable xOff : cstring -> Z -> Z.

(** X19. With nothing selected and room left, typing an accepted
    character and pressing BackSpace brings back the text, its length,
    the cursor and the selection; the undo stack has gained the two
    texts the keys found. *)
Theorem typed_char_is_removed_by_backspace (e : MiniEntry) (ch out : ascii) :
  buffer_ok e -> history_ok e ->
  sel_anchor e = sel_active e ->
  validate_char e ch = Some out ->
  ~ (max_length (cfg e) > 0 /\ text_len e >= max_length (cfg e)) ->
  exists e1 e2,
    insert_char xOff ch e = Some (tt, e1, [Draw]) /\
    text e1 = take (Z.to_nat (cursor e)) (text e) ++ [out] ++ drop (Z.to_nat (cursor e)) (text e) /\
    cursor e1 = cursor e + 1 /\
    do_backspace xOff e1 = Some (tt, e2, [Draw]) /\
    text e2 = text e /\ text_len e2 = text_len e /\ cursor e2 = cursor e /\
    sel_anchor e2 = sel_anchor e /\ sel_active e2 = sel_active e /\
    live_undo e2
      = lastn (Z.to_nat (undo_capacity e)) (live_undo e ++ [Some (text e); Some (text e1)]).
Proof.
  intros Hbuf Hok Hemp Hval Hroom.
  pose proof Hbuf as (Hl & Hc & _).
  destruct (undo_push_ok e Hok) as (s & Hpush & Hok1 & _ & _ & _ & Hlive).
  destruct (insert_char_ok xOff e ch out s Hbuf Hpush Hval)
    as (e1 & w & Hins & Hf1 & Hb1 & Hsel1 & Hres).
  destruct (Hsel1 Hemp) as [Ha1 Hs1].
  cbv zeta in Hres.
  rewrite (without_selection_empty e Hemp) in Hres.
  unfold cursor_without_selection in Hres.
  rewrite (decide_True _ _ Hemp) in Hres.
  rewrite decide_False in Hres by (rewrite <- Hl; exact Hroom).
  destruct Hres as (Ht1 & Hc1 & ->).
  pose proof (same_frame_history _ _ Hf1 Hok1) as Hok1'.
  destruct (undo_push_ok e1 Hok1') as (s1 & Hpush1 & _ & _ & _ & _ & Hlive1).
  destruct (backspace_one xOff e1 s1 (buffer_ok_cursor_ok e1 Hb1) Hpush1) as [x Hback]; [congruence|lia|].
  exists e1. eexists. split; [exact Hins|]. split; [exact Ht1|]. split; [exact Hc1|].
  split; [exact Hback|]. simpl.
  destruct Hb1 as (Hl1 & _).
  assert (Z.to_nat (cursor e) <= length (text e))%nat as Hle by lia.
  split_and!; try done; try lia.
  - rewrite Hc1, Ht1.
    replace (Z.to_nat (cursor e + 1 - 1)) with (Z.to_nat (cursor e)) by lia.
    replace (Z.to_nat (cursor e + 1)) with (Z.to_nat (cursor e) + length [out])%nat
      by (simpl; lia).
    by apply take_drop_around.
  - rewrite Hl1, Ht1. rewrite !length_app, length_take, length_drop. simpl. lia.
  - change (live_undo (pushed s1 e1)
            = lastn (Z.to_nat (undo_capacity e))
                (live_undo e ++ [Some (text e); Some (text e1)])).
    rewrite Hlive1.
    destruct (same_frame_live _ _ Hf1) as [-> _]. rewrite Hlive.
    assert (undo_capacity e1 = undo_capacity e) as ->
      by (by destruct Hf1 as (_ & _ & _ & _ & _ & _ & ? & _)).
    rewrite lastn_lastn_app. by rewrite <- app_assoc.
Qed.

(** X20. A paste is defined on every well-formed entry and keeps the
    buffer well formed. What it inserts is a prefix of the accepted
    characters of the data, each as [validate_char] stores it, in order:
    all of them when there is no maximum length, and otherwise as many
    as fit, but at least one, so that a paste into an entry that is
    already full still inserts one character. A paste that stops early
    has reached the maximum. When nothing is accepted the entry is
    untouched; otherwise the selection is replaced by the characters,
    the cursor stands after them, the text found is pushed and the redo
    stack is emptied. *)
Theorem paste_inserts_accepted_prefix (e : MiniEntry) (d : cstring) :
  buffer_ok e -> history_ok e ->
  let t := without_selection e in
  let c := cursor_without_selection e in
  let accepted := omap (validate_char e) d in
  exists e' w out,
    paste_callback xOff (Some d) e = Some (tt, e', w) /\
    buffer_ok e' /\
    out `prefix_of` accepted /\
    (out = [] <-> accepted = []) /\
    (max_length (cfg e) <= 0 -> out = accepted) /\
    (max_length (cfg e) > 0 ->
     Z.of_nat (length out) <= Z.max 1 (max_length (cfg e) - Z.of_nat (length t))) /\
    (out <> accepted ->
     Z.of_nat (length t) + Z.of_nat (length out) >= max_length (cfg e)) /\
    (out = [] -> e' = e /\ w = []) /\
    (out <> [] ->
     text e' = take (Z.to_nat c) t ++ out ++ drop (Z.to_nat c) t /\
     cursor e' = c + Z.of_nat (length out) /\ w = [Draw] /\
     live_undo e' = lastn (Z.to_nat (undo_capacity e)) (live_undo e ++ [Some (text e)]) /\
     redo_top e' = 0).
Proof.
  intros Hbuf Hok t c accepted.
  destruct (undo_push_ok e Hok) as (s & Hpush & Hok1 & _ & _ & _ & Hlive).
  destruct (filtered_paste_ok xOff e d s Hbuf Hpush) as (e' & w & Hrun & Hb' & Hnil & Hsome).
  destruct (paste_filter_spec e (Z.of_nat (length t)) d [])
    as (r & Hr & Hpre & Hall & Hlen & Hstop & Hempty).
  simpl in Hr. fold t in Hnil, Hsome. rewrite Hr in Hnil, Hsome.
  exists e', w, r. unfold paste_callback.
  split; [exact Hrun|]. split; [exact Hb'|]. split; [exact Hpre|].
  split.
  { split; [exact Hempty|]. intros H. fold accepted in Hpre. rewrite H in Hpre.
    by apply prefix_nil_inv in Hpre. }
  split; [exact Hall|].
  split. { intros H. specialize (Hlen H). simpl in Hlen. lia. }
  split. { intros H. specialize (Hstop H). simpl in Hstop. lia. }
  split; [exact Hnil|].
  intros Hne. destruct (Hsome Hne) as (Hf & -> & Ht & Hc).
  split; [exact Ht|]. split; [exact Hc|]. split; [done|].
  destruct (same_frame_live _ _ Hf) as [-> _].
  split; [exact Hlive|]. by destruct Hf as (_ & _ & _ & _ & _ & _ & _ & _ & _ & _ & -> & _).
Qed.

End WithFont.

(** ** A selection left behind *)

Section WithFont.
Variable xOff : cstring -> Z -> Z.
Variable paste_cb self : Z.
Variable xa_clipboard : Atom.

Lemma plain_keys (shift : bool) (owner : Window) (e : MiniEntry)
    (ctx : option Clipboard.ClipboardContext) :
  key_shortcuts xOff paste_cb self xa_clipboard (plain_key XK.XK_End shift) owner e ctx = on_entry (key_end xOff shift) e ctx /\
  key_shortcuts xOff paste_cb self xa_clipboard (plain_key XK.XK_Home shift) owner e ctx = on_entry (key_home xOff shift) e ctx /\
  key_shortcuts xOff paste_cb self xa_clipboard (plain_key XK.XK_BackSpace shift) owner e ctx = on_entry (do_backspace xOff) e ctx /\
  key_shortcuts xOff paste_cb self xa_clipboard (plain_key XK.XK_Delete shift) owner e ctx = on_entry (do_delete xOff) e ctx.
Proof.
  unfold key_shortcuts, plain_key, is_key; simpl.
  split_and!.
  all: repeat (case_decide; try (exfalso; unfold XK.XK_Return, XK.XK_KP_Enter, XK.XK_Left,
    XK.XK_Right, XK.XK_Home, XK.XK_End, XK.XK_BackSpace, XK.XK_Delete in *; lia)).
  all: reflexivity.
Qed.

Lemma key_home_end_spec (e : MiniEntry) :
  text_len e = Z.of_nat (length (text e)) ->
  (exists x, key_home xOff true e
     = Some (tt, set_scroll_x x (set_sel_active 0 (set_cursor 0 e)), [Draw])) /\
  (exists x, key_end xOff false e
     = Some (tt, set_scroll_x x (set_sel_active (text_len e) (set_sel_anchor (text_len e)
                                   (set_cursor (text_len e) e))), [Draw])).
Proof.
  intros Hl. split.
  - unfold key_home.
    rewrite (bind_unit _ _ _ _ (ensure_text_len_ok e Hl)).
    rewrite (bind_unit _ _ _ _ (modify_spec _ _)).
    rewrite (bind_unit _ _ _ _ (modify_spec _ _)).
    match goal with |- context [(_ ≫= _) ?e3] =>
      destruct (ensure_cursor_visible_draw xOff e3) as [x ->] end.
    by exists x.
  - unfold key_end.
    rewrite (bind_unit _ _ _ _ (ensure_text_len_ok e Hl)), bind_get.
    rewrite (bind_unit _ _ _ _ (modify_spec _ _)).
    rewrite (bind_unit _ _ _ (set_sel_active (text_len e) (set_sel_anchor (text_len e)
                                (set_cursor (text_len e) e))) eq_refl).
    match goal with |- context [(_ ≫= _) ?e3] =>
      destruct (ensure_cursor_visible_draw xOff e3) as [x ->] end.
    by exists x.
Qed.

Lemma bind_none {A B} (m : Act A) (k : A -> Act B) (e : MiniEntry) :
  m e = None -> (m ≫= k) e = None.
Proof. intros H. unfold mbind, Act_bind. by rewrite H. Qed.

Lemma mem_delete_none (a b : Z) (e : MiniEntry) :
  ~ (0 <= a /\ a <= b /\ b <= text_len e /\ text_len e = Z.of_nat (length (text e))) ->
  mem_delete a b e = None.
Proof.
  intros H. unfold mem_delete. rewrite bind_get. unfold check.
  by rewrite decide_False.
Qed.

Lemma backspace_fields (e : MiniEntry) (s : list (option cstring)) :
  cursor_ok e ->
  undo_push e = Some (tt, pushed s e, []) ->
  sel_anchor e = sel_active e ->
  cursor e > 0 ->
  exists e',
    do_backspace xOff e = Some (tt, e', [Draw]) /\
    same_frame (pushed s e) e' /\
    text e' = take (Z.to_nat (cursor e - 1)) (text e) ++ drop (Z.to_nat (cursor e)) (text e) /\
    text_len e' = text_len e - 1 /\ cursor e' = cursor e - 1 /\
    sel_anchor e' = sel_anchor e /\ sel_active e' = sel_active e.
Proof.
  intros Hc Hpush Hemp Hpos.
  destruct (backspace_one xOff e s Hc Hpush Hemp Hpos) as [x ->].
  eexists. split; [reflexivity|]. split; [apply same_frame_text|]. done.
Qed.

Lemma end_fields (e : MiniEntry) :
  text_len e = Z.of_nat (length (text e)) ->
  exists e',
    key_end xOff false e = Some (tt, e', [Draw]) /\
    same_frame e e' /\ text e' = text e /\ text_len e' = text_len e /\
    cursor e' = text_len e /\ sel_anchor e' = text_len e /\ sel_active e' = text_len e.
Proof.
  intros Hl. destruct (key_home_end_spec e Hl) as [_ [x ->]].
  eexists. split; [reflexivity|].
  split; [exact (proj2 (same_frame_cursor _ _ _ _ e))|]. done.
Qed.

Lemma shift_home_fields (e : MiniEntry) :
  text_len e = Z.of_nat (length (text e)) ->
  exists e',
    key_home xOff true e = Some (tt, e', [Draw]) /\
    same_frame e e' /\ text e' = text e /\ text_len e' = text_len e /\
    cursor e' = 0 /\ sel_anchor e' = sel_anchor e /\ sel_active e' = 0.
Proof.
  intros Hl. destruct (key_home_end_spec e Hl) as [[x ->] _].
  eexists. split; [reflexivity|].
  split; [exact (proj1 (same_frame_cursor _ _ 0 _ e))|]. done.
Qed.

(** X21. From any well-formed entry holding at least two bytes, the keys
    End, BackSpace, BackSpace, Shift+Home are all defined and leave a
    selection that runs from 0 to the old length of the text, two bytes
    beyond the text that is left. The byte count
    [text_len - b + 1] that [delete_selection] passes to [memmove] on
    that selection is -1, and the Delete and BackSpace keys, which call
    it, have no defined result. *)
Theorem stale_selection_makes_delete_undefined (e : MiniEntry) (owner : Window)
    (ctx : option Clipboard.ClipboardContext) :
  buffer_ok e -> history_ok e -> text_len e >= 2 ->
  exists e4 w,
    keys_run xOff paste_cb self xa_clipboard
      [plain_key XK.XK_End false; plain_key XK.XK_BackSpace false;
       plain_key XK.XK_BackSpace false; plain_key XK.XK_Home true] owner e ctx
      = Some (e4, ctx, w) /\
    text e4 = take (Z.to_nat (text_len e - 2)) (text e) /\
    text_len e4 = text_len e - 2 /\ cursor e4 = 0 /\
    sel_anchor e4 = text_len e /\ sel_active e4 = 0 /\
    sel_range e4 = (0, text_len e) /\
    text_len e4 - (sel_range e4).2 + 1 = -1 /\
    history_ok e4 /\
    key_shortcuts xOff paste_cb self xa_clipboard (plain_key XK.XK_Delete false) owner e4 ctx
      = None /\
    key_shortcuts xOff paste_cb self xa_clipboard (plain_key XK.XK_BackSpace false) owner e4 ctx
      = None.
Proof.
  intros Hbuf Hok Hlen. pose proof Hbuf as (Hl & Hc & _).
  destruct (end_fields e Hl) as (e1 & Hk1 & Hf1 & Ht1 & Hl1 & Hc1 & Ha1 & Hs1).
  pose proof (same_frame_history _ _ Hf1 Hok) as Hok1.
  destruct (undo_push_ok e1 Hok1) as (s1 & Hpush1 & Hok1' & _).
  destruct (backspace_fields e1 s1) as (e2 & Hk2 & Hf2 & Ht2 & Hl2 & Hc2 & Ha2 & Hs2);
    [split; [congruence|lia]|done|congruence|lia|].
  pose proof (same_frame_history _ _ Hf2 Hok1') as Hok2.
  destruct (undo_push_ok e2 Hok2) as (s2 & Hpush2 & Hok2' & _).
  assert (text e2 = take (Z.to_nat (text_len e - 1)) (text e)) as Ht2'.
  { rewrite Ht2, Hc1, Ht1. rewrite (drop_ge (text e)) by lia. by rewrite app_nil_r. }
  assert (text_len e2 = Z.of_nat (length (text e2))) as Hlen2.
  { rewrite Ht2', length_take. lia. }
  destruct (backspace_fields e2 s2) as (e3 & Hk3 & Hf3 & Ht3 & Hl3 & Hc3 & Ha3 & Hs3);
    [split; [done|lia]|done|congruence|lia|].
  pose proof (same_frame_history _ _ Hf3 Hok2') as Hok3.
  assert (text e3 = take (Z.to_nat (text_len e - 2)) (text e)) as Ht3'.
  { rewrite Ht3, Hc2, Hc1, Ht2'.
    rewrite drop_ge by (rewrite length_take; lia). rewrite app_nil_r.
    rewrite take_take. f_equal. lia. }
  assert (text_len e3 = Z.of_nat (length (text e3))) as Hlen3.
  { rewrite Ht3', length_take. lia. }
  destruct (shift_home_fields e3 Hlen3) as (e4 & Hk4 & Hf4 & Ht4 & Hl4 & Hc4 & Ha4 & Hs4).
  pose proof (same_frame_history _ _ Hf4 Hok3) as Hok4.
  destruct (undo_push_ok e4 Hok4) as (s4 & Hpush4 & _).
  assert (sel_anchor e4 = text_len e) as Ha4' by congruence.
  assert (text_len e4 = text_len e - 2) as Hl4' by lia.
  assert (sel_range e4 = (0, text_len e)) as Hrange.
  { unfold sel_range. rewrite Ha4', Hs4. rewrite decide_True by lia. done. }
  assert (text_len e4 = Z.of_nat (length (text e4))) as Hlen4 by congruence.
  assert (delete_selection (pushed s4 e4) = None) as Hdel.
  { unfold delete_selection.
    rewrite (bind_unit _ _ _ _ (ensure_text_len_ok (pushed s4 e4) Hlen4)), bind_get.
    change (sel_anchor (pushed s4 e4)) with (sel_anchor e4).
    change (sel_active (pushed s4 e4)) with (sel_active e4).
    rewrite decide_False by lia.
    change (sel_range (pushed s4 e4)) with (sel_range e4). rewrite Hrange.
    cbv beta iota.
    apply bind_none, mem_delete_none.
    change (text_len (pushed s4 e4)) with (text_len e4). lia. }
  assert (sel_anchor e4 <> sel_active e4) as Hsel by lia.
  exists e4. eexists. split.
  { unfold keys_run.
    destruct (plain_keys false owner e ctx) as (-> & _).
    unfold on_entry at 1. rewrite Hk1.
    destruct (plain_keys false owner e1 ctx) as (_ & _ & -> & _).
    unfold on_entry at 1. rewrite Hk2.
    destruct (plain_keys false owner e2 ctx) as (_ & _ & -> & _).
    unfold on_entry at 1. rewrite Hk3.
    destruct (plain_keys true owner e3 ctx) as (_ & -> & _ & _).
    unfold on_entry at 1. rewrite Hk4.
    reflexivity. }
  split; [congruence|]. split; [done|]. split; [done|]. split; [done|].
  split; [done|]. split; [exact Hrange|]. split; [rewrite Hrange; simpl; lia|].
  split; [exact Hok4|].
  destruct (plain_keys false owner e4 ctx) as (_ & _ & -> & ->).
  unfold on_entry.
  assert (do_delete xOff e4 = None /\ do_backspace xOff e4 = None) as [-> ->]; [|done].
  split; [unfold do_delete|unfold do_backspace].
  all: rewrite (bind_unit _ _ _ _ (ensure_text_len_ok e4 Hlen4)), bind_get.
  all: rewrite decide_False by done.
  all: rewrite (bind_unit _ _ _ _ Hpush4).
  all: by apply bind_none.
Qed.

End WithFont.

(** ** Selecting a word, selecting all *)

Lemma scan_left_spec (t : cstring) (s : nat) :
  (s <= length t)%nat ->
  (scan_left t s <= s)%nat /\
  (forall i c, (scan_left t s <= i < s)%nat -> t !! i = Some c -> is_word_char c = true) /\
  (forall c, (0 < scan_left t s)%nat ->
     t !! (scan_left t s - 1)%nat = Some c -> is_word_char c = false).
Proof.
  induction s as [|s IH]; intros Hs; simpl; unfold cstring in *.
  - split; [lia|]. split; intros; lia.
  - destruct (lookup_lt_is_Some_2 t s) as [c Hc]; [lia|].
    rewrite Hc. destruct (is_word_char c) eqn:Hw.
    + destruct IH as (H1 & H2 & H3); [lia|].
      split; [lia|]. split; [|done].
      intros i c' Hi Hl. destruct (decide (i = s)) as [->|].
      * congruence.
      * apply (H2 i); [lia|done].
    + split; [lia|]. split; [intros; lia|].
      intros c' _. simpl. rewrite Nat.sub_0_r. congruence.
Qed.

Lemma scan_right_spec (t : cstring) (fuel i : nat) :
  (i + fuel = length t)%nat ->
  (i <= scan_right t i fuel <= length t)%nat /\
  (forall j c, (i <= j < scan_right t i fuel)%nat ->
     t !! j = Some c -> is_word_char c = true) /\
  (forall c, t !! scan_right t i fuel = Some c -> is_word_char c = false).
Proof.
  revert i. induction fuel as [|fuel IH]; intros i Hi; simpl; unfold cstring in *.
  - split; [lia|]. split; [intros; lia|].
    intros c Hc. apply lookup_lt_Some in Hc. lia.
  - destruct (lookup_lt_is_Some_2 t i) as [c Hc]; [lia|].
    rewrite Hc. destruct (is_word_char c) eqn:Hw.
    + destruct (IH (S i)) as (H1 & H2 & H3); [lia|].
      split; [lia|]. split; [|done].
      intros j c' Hj Hl. destruct (decide (j = i)) as [->|].
      * congruence.
      * apply (H2 j); [lia|done].
    + split; [lia|]. split; [intros; lia|]. congruence.
Qed.

Lemma strndup_at_spec (a n : Z) (e : MiniEntry) :
  0 <= a /\ a <= Z.of_nat (length (text e)) /\ 0 <= n ->
  strndup_at a n e = Some (take (Z.to_nat n) (drop (Z.to_nat a) (text e)), e, []).
Proof.
  intros H. unfold strndup_at. rewrite bind_get. unfold check.
  by rewrite decide_True.
Qed.

(** [update_selection_clipboard] on a well-formed selection. *)
Lemma update_selection_clipboard_spec (e : MiniEntry) (c : Clipboard.ClipboardContext) :
  Clipboard.clipboard_atom c <> XA_PRIMARY ->
  0 <= (sel_range e).1 <= Z.of_nat (length (text e)) ->
  exists c' w,
    update_selection_clipboard e (Some c) = Some (Some c', w) /\
    Clipboard.clipboard_data c' = Clipboard.clipboard_data c /\
    Clipboard.requests c' = Clipboard.requests c /\
    Clipboard.clipboard_atom c' = Clipboard.clipboard_atom c /\
    if decide (auto_copy_primary (theme e) = 0) then c' = c /\ w = []
    else if decide (sel_anchor e = sel_active e)
    then Clipboard.primary_data c'
           = {| Clipboard.text := None; Clipboard.owner_window := XNone |} /\
         w = [XSetSelectionOwner XA_PRIMARY XNone]
    else Clipboard.primary_data c'
           = {| Clipboard.text := Some (selected_text e); Clipboard.owner_window := win e |} /\
         w = [XSetSelectionOwner XA_PRIMARY (win e)].
Proof.
  intros Hne Ha. unfold update_selection_clipboard.
  destruct (decide (auto_copy_primary (theme e) = 0)) as [Hoff|Hon].
  { by eexists _, _. }
  destruct (decide (sel_anchor e = sel_active e)) as [Hemp|Hsel].
  - unfold Clipboard.clipboard_set_text, Clipboard.selection_atom,
      Clipboard.get_data_for_selection.
    rewrite decide_False by done. rewrite decide_True by done.
    by eexists _, _.
  - pose proof (sel_range_ordered e) as Hord. unfold selected_text.
    destruct (sel_range e) as [a b]; simpl in Hord, Ha.
    rewrite strndup_at_spec by lia.
    rewrite set_text_primary by done.
    by eexists _, _.
Qed.

Section WithFont.
Variable xOff : cstring -> Z -> Z.

(** X22. [select_word] is defined for every position and every text. The
    position is clamped into the text; the selection contains it, lies
    inside the text and consists of word characters only; the character
    before it, if any, and the character after it, if any, are not word
    characters; the cursor stands at its end. Text and history are
    untouched, and so are the CLIPBOARD slot and the table of the
    context; with auto-copy on, a non-empty selection is what PRIMARY
    then holds for the entry's window. *)
Theorem select_word_selects_the_word (pos : Z) (e : MiniEntry)
    (ctx : Clipboard.ClipboardContext) :
  Clipboard.clipboard_atom ctx <> XA_PRIMARY ->
  let n := Z.of_nat (length (text e)) in
  let p := Z.max 0 (Z.min pos n) in
  exists e' ctx' w,
    select_word xOff pos e (Some ctx) = Some (e', Some ctx', w) /\
    text e' = text e /\ text_len e' = n /\ same_frame e e' /\
    0 <= sel_anchor e' <= p /\ p <= sel_active e' <= n /\
    cursor e' = sel_active e' /\
    (forall i c, sel_anchor e' <= i < sel_active e' ->
       text e !! Z.to_nat i = Some c -> is_word_char c = true) /\
    (forall c, 0 < sel_anchor e' ->
       text e !! Z.to_nat (sel_anchor e' - 1) = Some c -> is_word_char c = false) /\
    (forall c, text e !! Z.to_nat (sel_active e') = Some c -> is_word_char c = false) /\
    Clipboard.clipboard_data ctx' = Clipboard.clipboard_data ctx /\
    Clipboard.requests ctx' = Clipboard.requests ctx /\
    (auto_copy_primary (theme e) <> 0 -> sel_anchor e' <> sel_active e' ->
     Clipboard.primary_data ctx'
       = {| Clipboard.text := Some (selected_text e'); Clipboard.owner_window := win e |}).
Proof.
  intros Hne n p.
  unfold select_word, then_update_selection.
  rewrite (bind_unit _ _ _ (set_text_len n e) eq_refl), bind_get.
  change (text (set_text_len n e)) with (text e).
  change (text_len (set_text_len n e)) with n.
  set (q := if decide ((if decide (pos < 0) then 0 else pos) > n) then n
            else if decide (pos < 0) then 0 else pos).
  assert (q = p) as Hq by (unfold q, p; repeat case_decide; lia).
  assert (0 <= p <= n) as Hp by lia.
  rewrite Hq.
  destruct (scan_left_spec (text e) (Z.to_nat p)) as (HL1 & HL2 & HL3); [lia|].
  destruct (scan_right_spec (text e) (Z.to_nat (n - p)) (Z.to_nat p)) as (HR1 & HR2 & HR3);
    [lia|].
  set (s := scan_left (text e) (Z.to_nat p)) in *.
  set (t := scan_right (text e) (Z.to_nat p) (Z.to_nat (n - p))) in *.
  rewrite (bind_unit _ _ _ _ (modify_spec _ _)).
  rewrite (bind_unit _ _ _ _ (modify_spec _ _)).
  rewrite (bind_unit _ _ _ _ (modify_spec _ _)).
  match goal with |- context [ensure_cursor_visible xOff ?e3] =>
    destruct (ensure_cursor_visible_spec xOff e3) as [x ->] end.
  set (e' := set_scroll_x x _).
  destruct (update_selection_clipboard_spec e' ctx Hne) as (c' & w & -> & Hcd & Hrq & _ & Hprim).
  { pose proof (sel_range_ordered e') as Hord. unfold e' in *; simpl in *.
    unfold sel_range in *; simpl in *. case_decide; simpl in *; lia. }
  exists e', c', ([] ++ w). split; [reflexivity|].
  unfold e'; simpl.
  split_and!; try done; try lia.
  - intros i c Hi Hl. unfold cstring in *.
    destruct (decide (i < p)) as [Hlt|Hge].
    + apply (HL2 (Z.to_nat i) c); [lia|done].
    + apply (HR2 (Z.to_nat i) c); [lia|done].
  - intros c Hpos Hl. apply HL3; [lia|].
    by replace (s - 1)%nat with (Z.to_nat (Z.of_nat s - 1)) by lia.
  - intros c Hl. apply HR3. by rewrite Nat2Z.id in Hl.
  - intros Hon Hsel.
    rewrite decide_False in Hprim by done.
    rewrite decide_False in Hprim by (unfold e'; simpl; done).
    by destruct Hprim as [-> _].
Qed.

(** X23. [select_all_text] selects the whole text and puts the cursor at
    its end, leaving text, history, the CLIPBOARD slot and the table
    alone. With auto-copy off the context is untouched and the server is
    not called; otherwise PRIMARY is given up when the text is empty,
    and holds the whole text for the entry's window when it is not. *)
Theorem select_all_offers_the_text_as_primary (e : MiniEntry)
    (ctx : Clipboard.ClipboardContext) :
  Clipboard.clipboard_atom ctx <> XA_PRIMARY ->
  let n := Z.of_nat (length (text e)) in
  exists e' ctx' w,
    select_all_text xOff e (Some ctx) = Some (e', Some ctx', w) /\
    text e' = text e /\ text_len e' = n /\ same_frame e e' /\
    sel_anchor e' = 0 /\ sel_active e' = n /\ cursor e' = n /\
    Clipboard.clipboard_data ctx' = Clipboard.clipboard_data ctx /\
    Clipboard.requests ctx' = Clipboard.requests ctx /\
    if decide (auto_copy_primary (theme e) = 0) then ctx' = ctx /\ w = []
    else if decide (text e = [])
    then Clipboard.primary_data ctx'
           = {| Clipboard.text := None; Clipboard.owner_window := XNone |} /\
         w = [XSetSelectionOwner XA_PRIMARY XNone]
    else Clipboard.primary_data ctx'
           = {| Clipboard.text := Some (text e); Clipboard.owner_window := win e |} /\
         w = [XSetSelectionOwner XA_PRIMARY (win e)].
Proof.
  intros Hne n.
  unfold select_all_text, then_update_selection, select_whole.
  rewrite (bind_unit _ _ _ (set_text_len n e) eq_refl), bind_get.
  rewrite (bind_unit _ _ _ _ (modify_spec _ _)).
  rewrite (bind_unit _ _ _ _ (modify_spec _ _)).
  rewrite (bind_unit _ _ _ _ (modify_spec _ _)).
  match goal with |- context [ensure_cursor_visible xOff ?e3] =>
    destruct (ensure_cursor_visible_spec xOff e3) as [x ->] end.
  set (e' := set_scroll_x x _).
  assert (sel_range e' = (0, n)) as Hrange.
  { unfold sel_range, e'; simpl. rewrite decide_False by lia. done. }
  destruct (update_selection_clipboard_spec e' ctx Hne) as (c' & w & -> & Hcd & Hrq & _ & Hprim).
  { rewrite Hrange. simpl. unfold e'; simpl. lia. }
  exists e', c', w. split; [reflexivity|].
  split; [done|]. split; [done|]. split; [by repeat split|].
  split; [done|]. split; [done|]. split; [done|]. split; [done|]. split; [done|].
  change (theme e') with (theme e) in Hprim.
  destruct (decide (auto_copy_primary (theme e) = 0)) as [Hoff|Hon]; [done|].
  change (sel_anchor e') with 0 in Hprim. change (sel_active e') with n in Hprim.
  assert (selected_text e' = text e) as Hsel.
  { unfold selected_text. rewrite Hrange. simpl.
    rewrite drop_0. replace (Z.to_nat (n - 0)) with (length (text e)) by lia.
    apply take_ge. done. }
  destruct (decide (text e = [])) as [Hnil|Hsome].
  - rewrite decide_True in Hprim by (unfold n; rewrite Hnil; done). done.
  - rewrite decide_False in Hprim.
    2:{ unfold n. destruct (text e); [done|simpl; lia]. }
    by rewrite Hsel in Hprim.
Qed.

End WithFont.

(** ** Cut and paste *)

Lemma validate_char_frame (e e' : MiniEntry) (ch : ascii) :
  same_frame e e' -> validate_char e' ch = validate_char e ch.
Proof.
  intros (Hth & Hcfg & _). unfold validate_char. by rewrite Hth, Hcfg.
Qed.

Lemma omap_accepted_as_is (e : MiniEntry) (l : cstring) :
  Forall (fun ch => validate_char e ch = Some ch) l -> omap (validate_char e) l = l.
Proof.
  induction 1 as [|ch l Hch _ IH]; simpl; [done|]. rewrite Hch. by f_equal.
Qed.

Lemma selection_put_back {A} (l : list A) (a b : nat) :
  (a <= b <= length l)%nat ->
  let t := take a l ++ drop b l in
  take a t ++ take (b - a) (drop a l) ++ drop a t = l.
Proof.
  intros Hab t. unfold t.
  assert (length (take a l) = a) as Hlen by (rewrite length_take; lia).
  rewrite take_app_length' by done.
  rewrite drop_app_length' by done.
  rewrite <- (take_drop a l) at 4. f_equal.
  rewrite <- (take_drop (b - a) (drop a l)) at 2. f_equal.
  rewrite drop_drop. f_equal. lia.
Qed.

Section WithFont.
Variable xOff : cstring -> Z -> Z.
Variable paste_cb self : Z.
Variable xa_clipboard : Atom.

(** X24. Cutting a non-empty selection and pasting at once puts the text
    back. The cut stores the selected text in both slots for the entry's
    window, pushes the text and leaves the text without the selection;
    the paste request, answered in-process because the entry's window
    owns the clipboard, re-inserts the selection where it was, provided
    its characters are accepted as they are and the text was within the
    maximum length. The cursor ends after the re-inserted text and the
    undo stack has gained the two texts the operations found. *)
Theorem cut_then_paste_restores_text (e : MiniEntry) (c : Clipboard.ClipboardContext) :
  buffer_ok e -> history_ok e ->
  sel_anchor e <> sel_active e ->
  Clipboard.clipboard_atom c <> XA_PRIMARY ->
  win e <> XNone ->
  paste_cb <> 0 ->
  Forall (fun ch => validate_char e ch = Some ch) (selected_text e) ->
  max_length (cfg e) <= 0 \/ text_len e <= max_length (cfg e) ->
  exists e1 c1 e2,
    copy_selection 1 e (Some c)
      = Some (e1, Some c1,
              [XSetSelectionOwner (Clipboard.clipboard_atom c) (win e);
               XSetSelectionOwner XA_PRIMARY (win e); Draw]) /\
    text e1 = without_selection e /\ cursor e1 = (sel_range e).1 /\
    Clipboard.clipboard_data c1
      = {| Clipboard.text := Some (selected_text e); Clipboard.owner_window := win e |} /\
    Clipboard.primary_data c1
      = {| Clipboard.text := Some (selected_text e); Clipboard.owner_window := win e |} /\
    live_undo e1 = lastn (Z.to_nat (undo_capacity e)) (live_undo e ++ [Some (text e)]) /\
    paste_request xOff paste_cb self xa_clipboard xa_clipboard (win e) e1 (Some c1)
      = Some (e2, Some c1, [Draw]) /\
    text e2 = text e /\ cursor e2 = (sel_range e).2 /\ buffer_ok e2 /\
    live_undo e2
      = lastn (Z.to_nat (undo_capacity e))
          (live_undo e ++ [Some (text e); Some (without_selection e)]).
Proof.
  intros Hbuf Hok Hsel Hprim Hwin Hcb Hvalid Hmax.
  pose proof Hbuf as (Hl & Hc & Ha & Hs).
  pose proof (sel_range_ordered e) as Hord.
  pose proof (length_without_selection e Hbuf) as Hlw.
  destruct (undo_push_ok e Hok) as (s & Hpush & Hok1 & _ & _ & _ & Hlive).
  destruct (selection_deleted_ok (pushed s e) Hbuf) as (Hb1 & Hf1 & Ht1 & Hc1).
  set (e1 := selection_deleted (pushed s e)) in *.
  change (without_selection (pushed s e)) with (without_selection e) in Ht1.
  change (sel_range (pushed s e)) with (sel_range e) in Hc1.
  set (d := {| Clipboard.text := Some (selected_text e); Clipboard.owner_window := win e |}).
  set (c1 := Clipboard.write_slot (Clipboard.write_slot c Clipboard.ClipboardSlot d)
               Clipboard.PrimarySlot d).
  assert (copy_selection 1 e (Some c)
          = Some (e1, Some c1,
                  [XSetSelectionOwner (Clipboard.clipboard_atom c) (win e);
                   XSetSelectionOwner XA_PRIMARY (win e); Draw])) as Hcut.
  { unfold copy_selection. rewrite decide_False by done.
    unfold selected_text in d. destruct (sel_range e) as [a b] eqn:Hr; simpl in Hord.
    rewrite strndup_at_spec by lia.
    rewrite set_text_clipboard. rewrite set_text_primary by done.
    rewrite decide_False by lia.
    rewrite (bind_unit _ _ _ _ Hpush).
    rewrite (bind_unit _ _ _ _ (delete_selection_spec (pushed s e) Hbuf Hsel)).
    reflexivity. }
  pose proof (same_frame_history _ _ Hf1 Hok1) as Hok1'.
  destruct (undo_push_ok e1 Hok1') as (s1 & Hpush1 & _ & _ & _ & _ & Hlive1).
  assert (sel_anchor e1 = sel_active e1) as Hemp1 by done.
  assert (without_selection e1 = without_selection e) as Hws1.
  { rewrite without_selection_empty by done. exact Ht1. }
  assert (cursor_without_selection e1 = (sel_range e).1) as Hcw1.
  { unfold cursor_without_selection. rewrite decide_True by done. exact Hc1. }
  destruct (filtered_paste_ok xOff e1 (selected_text e) s1 Hb1 Hpush1)
    as (e2 & w & Hrun & Hb2 & _ & Hsome).
  destruct (paste_filter_spec e1 (Z.of_nat (length (without_selection e1)))
              (selected_text e) []) as (r & Hr & Hpre & Hall & _ & Hstop & Hempty).
  simpl in Hr. rewrite Hr in Hsome.
  assert (omap (validate_char e1) (selected_text e) = selected_text e) as Hacc.
  { apply omap_accepted_as_is. eapply Forall_impl; [exact Hvalid|].
    intros ch Hch. simpl. rewrite (validate_char_frame (pushed s e) e1 ch Hf1). exact Hch. }
  assert (cfg e1 = cfg e) as Hcfg by (by destruct Hf1 as (_ & ? & _)).
  assert (Z.of_nat (length (selected_text e)) = (sel_range e).2 - (sel_range e).1) as Hlsel.
  { unfold selected_text. destruct (sel_range e) as [a b]; simpl in *.
    rewrite length_take, length_drop. lia. }
  assert (r = selected_text e) as ->.
  { rewrite Hacc in *. destruct (decide (r = selected_text e)) as [|Hne]; [done|exfalso].
    specialize (Hstop Hne). rewrite Hcfg, Hws1 in Hstop.
    change (Z.of_nat (length (@nil ascii))) with 0 in Hstop.
    destruct Hmax as [Hmax|Hmax]; [by apply Hne, Hall; rewrite Hcfg|].
    assert (length r < length (selected_text e))%nat as Hshort.
    { destruct Hpre as [k Hk]. rewrite Hk, length_app.
      destruct k; [rewrite app_nil_r in Hk; done|simpl; lia]. }
    lia. }
  assert (selected_text e <> []) as Hne.
  { intros H. rewrite H in Hlsel. simpl in Hlsel. lia. }
  destruct (Hsome Hne) as (Hf2 & -> & Ht2 & Hc2).
  rewrite Hws1, Hcw1 in Ht2. rewrite Hcw1 in Hc2.
  exists e1, c1, e2.
  split; [exact Hcut|]. split; [exact Ht1|]. split; [exact Hc1|].
  split; [done|]. split; [done|]. split; [exact Hlive|].
  split.
  { unfold paste_request. rewrite decide_True by done.
    unfold Clipboard.clipboard_request_text.
    rewrite decide_False by done. rewrite decide_False by done.
    unfold Clipboard.local_text, Clipboard.selection_atom, Clipboard.get_data_for_selection.
    rewrite decide_True by done. simpl.
    rewrite decide_True by done. simpl.
    rewrite decide_True by done.
    unfold paste_callback.
    rewrite (bind_unit _ _ _ _ Hrun) || rewrite (bind_some _ _ _ _ _ _ Hrun).
    reflexivity. }
  split.
  { rewrite Ht2. unfold without_selection, selected_text.
    destruct (sel_range e) as [a b]; simpl in *.
    replace (Z.to_nat (b - a)) with (Z.to_nat b - Z.to_nat a)%nat by lia.
    apply selection_put_back. lia. }
  split; [rewrite Hc2; lia|]. split; [exact Hb2|].
  destruct (same_frame_live _ _ Hf2) as [-> _]. rewrite Hlive1.
  destruct (same_frame_live _ _ Hf1) as [-> _]. rewrite Hlive, Ht1.
  assert (undo_capacity e1 = undo_capacity e) as ->
    by (by destruct Hf1 as (_ & _ & _ & _ & _ & _ & ? & _)).
  rewrite lastn_lastn_app. by rewrite <- app_assoc.
Qed.

End WithFont.

(** ** Typing *)



Section WithFont.
Variable xOff : cstring -> Z -> Z.
Variable paste_cb self : Z.
Variable xa_clipboard : Atom.





End WithFont.

(** ** A paste from another client *)

Section WithFont.
Variable xOff : cstring -> Z -> Z.
Variable paste_cb self : Z.
Variable xa_clipboard : Atom.


End WithFont.

End SessionFacts.

(** * The theorems at work

    Each theorem that has a precondition, applied to a concrete entry or
    context. *)

(** A closed fact about concrete values, by evaluation. *)
Ltac evaluated :=
  vm_compute;
  repeat match goal with
         | |- _ /\ _ => split
         | |- Forall _ _ => constructor
         | |- Forall2 _ _ _ => constructor
         | |- _ -> False => let H := fresh in intros H; discriminate H
         | |- _ -> _ -> False => let H := fresh in intros H; discriminate H
         | |- _ = _ => reflexivity
         end.

Module ClipboardInstances.
Import Clipboard ClipboardTerms.

Lemma callbacks_match_requests_witness :
  exists c effs,
    run [paste7; paste7] (Some (clipboard_create atoms0)) = (Some c, effs) /\
    (calls 1 100 effs + pending 1 100 c = 2)%nat.
Proof.
  destruct (ClipboardProofs.callbacks_match_requests atoms0 [paste7; paste7] 1 100)
    as (c & effs & Hrun & Hacc & _).
  - evaluated. compute_done.
  - lia.
  - exists c, effs. split; [exact Hrun|exact Hacc].
Defined.

Lemma copy_then_paste_loops_back_witness :
  exists c',
    (clipboard_set_text (Some (clipboard_create atoms0)) 7 (Some bcd) SELECTION_CLIPBOARD).1
      = Some c' /\
    clipboard_request_text (Some c') 8 1 100 SELECTION_CLIPBOARD 7
      = (Some c', [Callback 1 (Some bcd) 100]).
Proof.
  apply (ClipboardFacts.copy_then_paste_loops_back (clipboard_create atoms0) 7 8 bcd
           SELECTION_CLIPBOARD 1 100).
  - evaluated.
  - evaluated.
  - lia.
Defined.

Lemma released_selection_is_forgotten_witness :
  data_for (handle_selection_clear owning_bcd 300) SELECTION_CLIPBOARD
    = {| text := None; owner_window := XNone |} /\
  requests (handle_selection_clear owning_bcd 300) = requests owning_bcd.
Proof.
  destruct (ClipboardFacts.released_selection_is_forgotten owning_bcd 7 SELECTION_CLIPBOARD
              (handle_selection_clear owning_bcd 300)) as (Hdata & _ & Hreq & _).
  - evaluated.
  - right. reflexivity.
  - split; [exact Hdata|exact Hreq].
Defined.


End ClipboardInstances.

Module EntryInstances.
Import Entry Editing EditingTerms.

Lemma validate_char_printable_and_stable_witness :
  32 <= CType.code "f" <= 126 /\
  validate_char (fresh cfg_hex) "F" = Some "F"%char.
Proof.
  destruct (EditingFacts.validate_char_printable_and_stable (fresh cfg_hex) "f" "F")
    as (Hp & _ & Hst & _).
  - reflexivity.
  - split; [exact Hp|exact Hst].
Defined.

Lemma reserve_text_makes_room_witness :
  1 <= reserve_text 1 12 /\ 12 <= reserve_text 1 12.
Proof.
  destruct (EditingFacts.reserve_text_makes_room 1 12) as (Hkeep & _ & Hroom & _).
  - evaluated.
  - split; [exact Hkeep|]. apply Hroom. evaluated.
Defined.

Lemma damage_add_is_bounding_box_witness :
  damage_add damage_reset 1 2 3 4 = {| dmg_x := 1; dmg_y := 2; dmg_w := 3; dmg_h := 4 |} /\
  covers (damage_add (damage_add damage_reset 1 2 3 4) 0 0 2 2) 1 2 3 4.
Proof.
  split.
  - destruct (proj2 (EditingFacts.damage_add_is_bounding_box damage_reset 1 2 3 4))
      as (_ & _ & _ & _ & Hfirst).
    + lia.
    + lia.
    + apply Hfirst. left. reflexivity.
  - destruct (proj2 (EditingFacts.damage_add_is_bounding_box
                       (damage_add damage_reset 1 2 3 4) 0 0 2 2))
      as (_ & _ & _ & Hboth & _).
    + lia.
    + lia.
    + destruct Hboth as (Hold & _).
      * reflexivity.
      * reflexivity.
      * exact Hold.
Defined.


Lemma key_press_keeps_entry_sound_witness :
  exists e' ctx' w,
    key_shortcuts xOff8 1 2 300 (char_key "x") 0 abc_end None = Some (e', ctx', w) /\
    cursor_ok e' /\ history_ok e'.
Proof.
  destruct (KeyFacts.key_press_keeps_entry_sound xOff8 1 2 300 (char_key "x") 0 abc_end None)
    as (e' & ctx' & w & Hrun & Hc & Hh & _).
  - evaluated.
  - evaluated.
  - exists e', ctx', w. split; [exact Hrun|]. split; [exact Hc|exact Hh].
Defined.


Lemma navigation_keys_move_only_the_cursor_witness :
  exists e',
    key_left xOff8 true abc_end = Some (tt, e', [Draw]) /\
    cursor_moved 2 true abc_end e' /\ buffer_ok e'.
Proof.
  destruct (KeyFacts.navigation_keys_move_only_the_cursor xOff8 true abc_end)
    as ((e' & Hrun & Hmoved & Hbuf) & _).
  - evaluated.
  - exists e'. split; [exact Hrun|]. split; [exact Hmoved|exact Hbuf].
Defined.

Lemma backspace_and_delete_remove_one_byte_witness :
  do_delete xOff8 abc_end = Some (tt, abc_end, []) /\
  exists e',
    do_backspace xOff8 abc_end = Some (tt, e', [Draw]) /\
    text e' = str "ab" /\ sel_anchor e' = 3 /\ ~ buffer_ok e'.
Proof.
  destruct (KeyFacts.backspace_and_delete_remove_one_byte xOff8 abc_end)
    as (_ & Hedge & Hback & _).
  - evaluated.
  - evaluated.
  - reflexivity.
  - split; [apply Hedge; reflexivity|].
    destruct Hback as (e' & Hrun & Ht & _ & _ & Ha & _ & _ & _ & Hstale).
    + reflexivity.
    + exists e'. split; [exact Hrun|]. split; [exact Ht|]. split; [exact Ha|].
      apply Hstale. reflexivity.
Defined.

Lemma typed_char_is_removed_by_backspace_witness :
  exists e1 e2,
    insert_char xOff8 "x" abc_end = Some (tt, e1, [Draw]) /\
    text e1 = str "abcx" /\
    do_backspace xOff8 e1 = Some (tt, e2, [Draw]) /\
    text e2 = str "abc" /\ cursor e2 = 3.
Proof.
  destruct (SessionFacts.typed_char_is_removed_by_backspace xOff8 abc_end "x" "x")
    as (e1 & e2 & Hins & Ht1 & _ & Hback & Ht2 & _ & Hc2 & _).
  - evaluated.
  - evaluated.
  - reflexivity.
  - reflexivity.
  - vm_compute. intros [H _]. discriminate H.
  - exists e1, e2. split; [exact Hins|]. split; [exact Ht1|]. split; [exact Hback|].
    split; [exact Ht2|exact Hc2].
Defined.

Lemma paste_inserts_accepted_prefix_witness :
  exists e' w out,
    paste_callback xOff8 (Some (str "1a2b3c4"))
      (after (entry_set_text_no_draw (Some (str "9"))) (fresh cfg_int3)) = Some (tt, e', w) /\
    buffer_ok e' /\
    out `prefix_of` str "1234" /\
    Z.of_nat (length out) <= 2.
Proof.
  destruct (SessionFacts.paste_inserts_accepted_prefix xOff8
              (after (entry_set_text_no_draw (Some (str "9"))) (fresh cfg_int3))
              (str "1a2b3c4"))
    as (e' & w & out & Hrun & Hbuf & Hpre & _ & _ & Hlen & _).
  - evaluated.
  - evaluated.
  - exists e', w, out. split; [exact Hrun|]. split; [exact Hbuf|]. split; [exact Hpre|].
    apply Hlen. reflexivity.
Defined.

Lemma stale_selection_makes_delete_undefined_witness :
  exists e4 w,
    keys_run xOff8 1 2 300
      [plain_key XK.XK_End false; plain_key XK.XK_BackSpace false;
       plain_key XK.XK_BackSpace false; plain_key XK.XK_Home true] 0 abc_end None
      = Some (e4, None, w) /\
    text e4 = str "a" /\ sel_range e4 = (0, 3) /\
    key_shortcuts xOff8 1 2 300 (plain_key XK.XK_Delete false) 0 e4 None = None.
Proof.
  destruct (SessionFacts.stale_selection_makes_delete_undefined xOff8 1 2 300
              abc_end 0 None)
    as (e4 & w & Hrun & Ht & _ & _ & _ & _ & Hrange & _ & _ & Hdel & _).
  - evaluated.
  - evaluated.
  - evaluated.
  - exists e4, w. split; [exact Hrun|]. split; [exact Ht|]. split; [exact Hrange|exact Hdel].
Defined.

Lemma select_word_selects_the_word_witness :
  exists e' ctx' w,
    select_word xOff8 4 two_words (Some (Clipboard.clipboard_create Clipboard.atoms0))
      = Some (e', Some ctx', w) /\
    0 <= sel_anchor e' <= 4 /\ 4 <= sel_active e' <= 5 /\
    cursor e' = sel_active e'.
Proof.
  destruct (SessionFacts.select_word_selects_the_word xOff8 4 two_words
              (Clipboard.clipboard_create Clipboard.atoms0))
    as (e' & ctx' & w & Hrun & _ & _ & _ & Ha & Hs & Hc & _).
  - evaluated.
  - exists e', ctx', w. split; [exact Hrun|]. split; [exact Ha|]. split; [exact Hs|exact Hc].
Defined.

Lemma select_all_offers_the_text_as_primary_witness :
  exists e' ctx' w,
    select_all_text xOff8 abc_end (Some (Clipboard.clipboard_create Clipboard.atoms0))
      = Some (e', Some ctx', w) /\
    sel_anchor e' = 0 /\ sel_active e' = 3 /\
    Clipboard.primary_data ctx'
      = {| Clipboard.text := Some (str "abc"); Clipboard.owner_window := 7 |}.
Proof.
  destruct (SessionFacts.select_all_offers_the_text_as_primary xOff8 abc_end
              (Clipboard.clipboard_create Clipboard.atoms0))
    as (e' & ctx' & w & Hrun & _ & _ & _ & Ha & Hs & _ & _ & _ & Hprim).
  - evaluated.
  - exists e', ctx', w. split; [exact Hrun|]. split; [exact Ha|]. split; [exact Hs|].
    exact (proj1 Hprim).
Defined.

Lemma cut_then_paste_restores_text_witness :
  exists e1 c1 e2,
    copy_selection 1 abcdef_bcd (Some (Clipboard.clipboard_create Clipboard.atoms0))
      = Some (e1, Some c1, [XSetSelectionOwner 300 7; XSetSelectionOwner 1 7; Draw]) /\
    text e1 = str "aef" /\
    paste_request xOff8 1 2 300 300 7 e1 (Some c1) = Some (e2, Some c1, [Draw]) /\
    text e2 = str "abcdef" /\ cursor e2 = 4.
Proof.
  destruct (SessionFacts.cut_then_paste_restores_text xOff8 1 2 300 abcdef_bcd
              (Clipboard.clipboard_create Clipboard.atoms0))
    as (e1 & c1 & e2 & Hcut & Ht1 & _ & _ & _ & _ & Hpaste & Ht2 & Hc2 & _).
  - evaluated.
  - evaluated.
  - evaluated.
  - evaluated.
  - evaluated.
  - lia.
  - evaluated.
  - left. evaluated.
  - exists e1, c1, e2. split; [exact Hcut|]. split; [exact Ht1|]. split; [exact Hpaste|].
    split; [exact Ht2|exact Hc2].
Defined.



End EntryInstances.
